(** * Zulip drafts: validation pipeline and store operations

    A shallow embedding of [zerver/lib/drafts.py] and [zerver/views/drafts.py].

    Python exceptions are results of a small state-and-error monad over a
    [World] holding the Draft table, the user table, a wall clock and the trace
    of the queries and collaborator calls made so far.  The collaborators that
    live outside these two files (truncation, stream and recipient lookups,
    timestamp conversion) are the fields of the class [Platform]. *)

From Stdlib Require Import ZArith QArith String Ascii List Bool Lia DecimalString Sorted Permutation.
From stdpp Require Import base gmap list.
Import ListNotations.

Local Open Scope Z_scope.
Local Open Scope string_scope.

(** ** Values *)

(** A Python number as the JSON decoder yields it: an [int], or a [float]
    taken as the rational it denotes. *)
Inductive number :=
| PyInt (z : Z)
| PyFloat (q : Q).

Definition number_to_Q (x : number) : Q :=
  match x with
  | PyInt z => inject_Z z
  | PyFloat q => q
  end.

(** [x < y] on numbers; Python compares an int with a float exactly. *)
Definition number_ltb (x y : number) : bool :=
  match (number_to_Q x ?= number_to_Q y)%Q with
  | Lt => true
  | _ => false
  end.

(** The integer nearest to [q], ties going to the even neighbour. *)
Definition round_half_even (q : Q) : Z :=
  let n := Qnum q in
  let d := Z.pos (Qden q) in
  let f := n / d in
  match (2 * (n mod d) ?= d) with
  | Lt => f
  | Gt => f + 1
  | Eq => if Z.even f then f else f + 1
  end.

(** [round(x, ndigits)]: an int is returned as it is, a float is rounded to
    [ndigits] decimal places, half to even. *)
Definition py_round (x : number) (ndigits : nat) : number :=
  match x with
  | PyInt z => PyInt z
  | PyFloat q =>
      let scale := 10 ^ Z.of_nat ndigits in
      PyFloat (Qmake (round_half_even (q * inject_Z scale)) (Z.to_pos scale))
  end.

(** ["\x00" in s] *)
Fixpoint has_null (s : string) : bool :=
  match s with
  | EmptyString => false
  | String c rest => Ascii.eqb c Ascii.zero || has_null rest
  end.

(** [set(l)] of a list of ints: the ids inserted, each once, in the order of
    their first insertion.  Inserting an id again leaves a Python set as it
    is, so the order in which the set is iterated is a function of this
    sequence. *)
Fixpoint py_set_add (seen : list Z) (l : list Z) : list Z :=
  match l with
  | [] => seen
  | x :: rest =>
      if existsb (Z.eqb x) seen then py_set_add seen rest
      else py_set_add (seen ++ [x]) rest
  end.

Definition py_set (l : list Z) : list Z := py_set_add [] l.

(** A decoded JSON value, the [object] a validator receives. *)
#[local] Set Warnings "-register-all".
Inductive json :=
| JNull
| JBool (b : bool)
| JInt (z : Z)
| JFloat (q : Q)
| JStr (s : string)
| JList (items : list json)
| JDict (fields : list (string * json)).

(** A point in time with the resolution of a Python [datetime]. *)
Record datetime := { micros : Z }.

Definition Recipient := Z.

Record Stream := { stream_id : Z; stream_recipient : Recipient }.

Record Subscription := { sub_user : Z; sub_stream : Z }.

Record UserProfile := {
  user_id : Z;
  realm : Z;
  full_name : string;
  enable_drafts_synchronization : bool;
}.

(** A request after routing and JSON decoding: its variables by name. *)
Record HttpRequest := { request_vars : list (string * json) }.

Inductive HttpResponse :=
| json_success (data : json)
| json_error (msg : string) (status : Z).

(** ** Exceptions *)

Inductive exn :=
| JsonableError (msg : string)
| ValidationError (messages : list string)
| DoesNotExist
| DatabaseError (msg : string)
| IndexError
| ValueError (msg : string)
| OverflowError (msg : string)
| IntegrityError (msg : string).

Inductive Result (A : Type) :=
| Ok (a : A)
| Raise (e : exn).
Arguments Ok {A} a.
Arguments Raise {A} e.

(** ** The store *)

(** A row of the Draft table; its primary key is the key of the map. *)
Record Draft := {
  draft_user_profile : Z;
  draft_recipient : option Recipient;
  draft_topic : string;
  draft_content : string;
  draft_last_edit_time : datetime;
}.

(** What the code asks of the outside: ORM queries and collaborator calls. *)
Inductive Event :=
| CallTime
| CallAccessStreamById (user stream : Z)
| CallGetUserProfilesByIds (ids : list Z) (realm_id : Z)
| CallRecipientForUserProfiles (users : list Z) (sender : Z)
| QueryDraftGet (id user : Z)
| QueryDraftFilter (user : Z)
| QueryDraftBulkCreate (n : nat)
| QueryDraftSave (id : Z)
| QueryDraftDelete (id : Z)
| QueryDraftFilterDelete (user : Z)
| QueryUserSave (id : Z) (update_fields : list string).

Record World := {
  drafts : gmap Z Draft;
  draft_seq : Z;
  users : gmap Z UserProfile;
  ticks : nat;
  trace : list Event;
}.

Definition set_drafts (f : gmap Z Draft -> gmap Z Draft) (w : World) : World :=
  {| drafts := f (drafts w); draft_seq := draft_seq w; users := users w;
     ticks := ticks w; trace := trace w |}.

Definition set_draft_seq (n : Z) (w : World) : World :=
  {| drafts := drafts w; draft_seq := n; users := users w;
     ticks := ticks w; trace := trace w |}.

Definition set_users (f : gmap Z UserProfile -> gmap Z UserProfile) (w : World) : World :=
  {| drafts := drafts w; draft_seq := draft_seq w; users := f (users w);
     ticks := ticks w; trace := trace w |}.

Definition tick (w : World) : World :=
  {| drafts := drafts w; draft_seq := draft_seq w; users := users w;
     ticks := S (ticks w); trace := trace w |}.

Definition record (e : Event) (w : World) : World :=
  {| drafts := drafts w; draft_seq := draft_seq w; users := users w;
     ticks := ticks w; trace := trace w ++ [e] |}.

(** ** The monad of the embedding *)

Definition M (A : Type) : Type := World -> Result A * World.

Definition ret {A} (a : A) : M A := fun w => (Ok a, w).

Definition raise {A} (e : exn) : M A := fun w => (Raise e, w).

Definition bind {A B} (m : M A) (k : A -> M B) : M B :=
  fun w =>
    match m w with
    | (Ok a, w') => k a w'
    | (Raise e, w') => (Raise e, w')
    end.

(** [try: m except: h]; the handler re-raises what it does not catch. *)
Definition try_except {A} (m : M A) (h : exn -> M A) : M A :=
  fun w =>
    match m w with
    | (Ok a, w') => (Ok a, w')
    | (Raise e, w') => h e w'
    end.

Definition get_world : M World := fun w => (Ok w, w).

Definition modify (f : World -> World) : M unit := fun w => (Ok tt, f w).

Definition lift {A} (r : Result A) : M A := fun w => (r, w).

Definition rbind {A B} (r : Result A) (k : A -> Result B) : Result B :=
  match r with
  | Ok a => k a
  | Raise e => Raise e
  end.

Declare Scope m_scope.
Delimit Scope m_scope with m.
Notation "x <- c ;; k" := (bind c (fun x => k))
  (at level 100, c at next level, right associativity) : m_scope.
Notation "c ;;; k" := (bind c (fun _ => k))
  (at level 100, right associativity) : m_scope.
Notation "x <~ c ;; k" := (rbind c (fun x => k))
  (at level 100, c at next level, right associativity) : m_scope.
Local Open Scope m_scope.

(** ** The platform around the drafts code

    Functions and constants of the code base that the two files import.  The
    lookups read tables the drafts code never writes, so they take the world
    as it is when they are called and return a result. *)
Class Platform := {
  (* zerver.lib.message *)
  truncate_body : string -> string;
  truncate_topic : string -> string;
  (* zerver.lib.timestamp: raises for a time outside the range of datetime *)
  timestamp_to_datetime : number -> Result datetime;
  (* time.time(): the k-th reading of the wall clock *)
  wall_clock : nat -> Q;
  (* zerver.lib.streams *)
  access_stream_by_id : World -> UserProfile -> Z -> Result (Stream * option Subscription);
  (* zerver.lib.addressee *)
  get_user_profiles_by_ids : World -> list Z -> Z -> Result (list UserProfile);
  (* zerver.lib.actions *)
  recipient_for_user_profiles :
    World -> list UserProfile -> bool -> option UserProfile -> UserProfile -> Result Recipient;
  (* Draft.to_dict of zerver.models *)
  Draft_to_dict : Z * Draft -> json;
}.

(** [_]: translation leaves the message as it is. *)
Definition ugettext (s : string) : string := s.

Section Drafts.

Context `{P : Platform}.

(** [time.time()] *)
Definition time_time : M number :=
  fun w => (Ok (PyFloat (wall_clock (ticks w))), tick (record CallTime w)).

Definition call_access_stream_by_id (user_profile : UserProfile) (stream : Z)
  : M (Stream * option Subscription) :=
  fun w => (access_stream_by_id w user_profile stream,
            record (CallAccessStreamById (user_id user_profile) stream) w).

Definition call_get_user_profiles_by_ids (ids : list Z) (realm_id : Z)
  : M (list UserProfile) :=
  fun w => (get_user_profiles_by_ids w ids realm_id,
            record (CallGetUserProfilesByIds ids realm_id) w).

Definition call_recipient_for_user_profiles (to_users : list UserProfile)
    (forwarded_mirror_message : bool) (forwarder : option UserProfile)
    (sender : UserProfile) : M Recipient :=
  fun w => (recipient_for_user_profiles w to_users forwarded_mirror_message forwarder sender,
            record (CallRecipientForUserProfiles (map user_id to_users) (user_id sender)) w).

(** *** Django's manager and model methods on the two tables *)

(** [Draft.objects.get(id=draft_id, user_profile=user_profile)] *)
Definition Draft_objects_get (draft_id : Z) (user_profile : UserProfile) : M (Z * Draft) :=
  modify (record (QueryDraftGet draft_id (user_id user_profile))) ;;;
  w <- get_world ;;
  match drafts w !! draft_id with
  | Some row =>
      if Z.eqb (draft_user_profile row) (user_id user_profile)
      then ret (draft_id, row)
      else raise DoesNotExist
  | None => raise DoesNotExist
  end.

Fixpoint assign_ids (next : Z) (objs : list Draft) : list (Z * Draft) :=
  match objs with
  | [] => []
  | d :: rest => (next, d) :: assign_ids (next + 1) rest
  end.

Definition insert_rows (rows : list (Z * Draft)) (t : gmap Z Draft) : gmap Z Draft :=
  foldl (fun acc r => <[fst r := snd r]> acc) t rows.

Definition key_in_use (t : gmap Z Draft) (r : Z * Draft) : bool :=
  match t !! fst r with
  | Some _ => true
  | None => false
  end.

(** [Draft.objects.bulk_create(objs)]: nothing is sent for an empty list;
    otherwise one INSERT, whose rows take the next values of the primary-key
    sequence in the order of the list, and which the database refuses as a
    whole if one of these keys is in use. *)
Definition Draft_objects_bulk_create (objs : list Draft) : M (list (Z * Draft)) :=
  match objs with
  | [] => ret []
  | _ :: _ =>
      modify (record (QueryDraftBulkCreate (List.length objs))) ;;;
      w <- get_world ;;
      let created := assign_ids (draft_seq w) objs in
      modify (set_draft_seq (draft_seq w + Z.of_nat (List.length objs))) ;;;
      if existsb (key_in_use (drafts w)) created
      then raise (IntegrityError "duplicate key value violates unique constraint")
      else
        modify (set_drafts (insert_rows created)) ;;;
        ret created
  end.

(** [draft_object.save()] of an object read from the table *)
Definition Draft_save (draft_object : Z * Draft) : M unit :=
  modify (record (QueryDraftSave (fst draft_object))) ;;;
  modify (set_drafts (<[fst draft_object := snd draft_object]>)).

(** [draft_object.delete()] *)
Definition Draft_delete (draft_object : Z * Draft) : M unit :=
  modify (record (QueryDraftDelete (fst draft_object))) ;;;
  modify (set_drafts (delete (fst draft_object))).

Definition owned_by (uid : Z) (d : Draft) : bool := Z.eqb (draft_user_profile d) uid.

(** [Draft.objects.filter(user_profile=user_profile).delete()] *)
Definition Draft_objects_filter_delete (user_profile : UserProfile) : M unit :=
  modify (record (QueryDraftFilterDelete (user_id user_profile))) ;;;
  modify (set_drafts (filter (fun kv => owned_by (user_id user_profile) (snd kv) = false))).

Fixpoint insert_by_time (x : Z * Draft) (l : list (Z * Draft)) : list (Z * Draft) :=
  match l with
  | [] => [x]
  | y :: rest =>
      if Z.leb (micros (draft_last_edit_time (snd y))) (micros (draft_last_edit_time (snd x)))
      then y :: insert_by_time x rest
      else x :: y :: rest
  end.

Definition order_by_last_edit_time (l : list (Z * Draft)) : list (Z * Draft) :=
  foldl (fun acc x => insert_by_time x acc) [] l.

(** [Draft.objects.filter(user_profile=user_profile).order_by("last_edit_time")],
    evaluated *)
Definition Draft_objects_filter_order_by (user_profile : UserProfile) : M (list (Z * Draft)) :=
  modify (record (QueryDraftFilter (user_id user_profile))) ;;;
  w <- get_world ;;
  ret (order_by_last_edit_time
         (filter (fun kv => owned_by (user_id user_profile) (snd kv) = true)
                 (map_to_list (drafts w)))).

(** [user_drafts.count()] once the query set has been evaluated: the length
    of the rows it holds, without another query. *)
Definition QuerySet_count (user_drafts : list (Z * Draft)) : M Z :=
  ret (Z.of_nat (List.length user_drafts)).

Definition set_enable_drafts_synchronization (b : bool) (u : UserProfile) : UserProfile :=
  {| user_id := user_id u; realm := realm u; full_name := full_name u;
     enable_drafts_synchronization := b |}.

(** [user_profile.save(update_fields=["enable_drafts_synchronization"])]: an
    UPDATE of that one column of the row of the object's primary key. *)
Definition UserProfile_save_enable_drafts_synchronization (user_profile : UserProfile) : M unit :=
  modify (record (QueryUserSave (user_id user_profile) ["enable_drafts_synchronization"])) ;;;
  w <- get_world ;;
  match users w !! user_id user_profile with
  | Some row =>
      modify (set_users (<[user_id user_profile :=
                set_enable_drafts_synchronization
                  (enable_drafts_synchronization user_profile) row]>))
  | None => raise (DatabaseError "Save with update_fields did not affect any rows.")
  end.

(** *** Validators

    Modelled from the spec: [zerver.lib.validator] is not among the sources.
    A validator takes the name of the variable and the decoded value, and
    either returns the value at its checked type or raises a
    [ValidationError] naming the violation (spec, section 4.1). *)

Definition Validator (A : Type) : Type := string -> json -> Result A.

Definition invalid {A} (msg : string) : Result A := Raise (ValidationError [msg]).

(** Modelled from the spec: [check_string], the value must be a string. *)
Definition check_string : Validator string := fun var_name val =>
  match val with
  | JStr s => Ok s
  | _ => invalid (var_name ++ " is not a string")
  end.

(** Modelled from the spec: [check_required_string], a string that is not
    empty. *)
Definition check_required_string : Validator string := fun var_name val =>
  s <~ check_string var_name val ;;
  if String.eqb s "" then invalid (var_name ++ " cannot be blank.") else Ok s.

(** Modelled from the spec: [check_string_in], a string that is one of the
    listed literals. *)
Definition check_string_in (possible_values : list string) : Validator string :=
  fun var_name val =>
    s <~ check_string var_name val ;;
    if existsb (String.eqb s) possible_values then Ok s
    else invalid ("Invalid " ++ var_name).

(** Modelled from the spec: [check_int], the value must be an integer. *)
Definition check_int : Validator Z := fun var_name val =>
  match val with
  | JInt z => Ok z
  | _ => invalid (var_name ++ " is not an integer")
  end.

(** Modelled from the spec: [check_float], the value must be a
    floating-point number. *)
Definition check_float : Validator Q := fun var_name val =>
  match val with
  | JFloat q => Ok q
  | _ => invalid (var_name ++ " is not a float")
  end.

Definition string_of_nat (n : nat) : string :=
  DecimalString.NilEmpty.string_of_uint (Nat.to_uint n).

Fixpoint check_items {A} (sub_validator : Validator A) (var_name : string)
    (i : nat) (items : list json) : Result (list A) :=
  match items with
  | [] => Ok []
  | item :: rest =>
      a <~ sub_validator (var_name ++ "[" ++ string_of_nat i ++ "]") item ;;
      l <~ check_items sub_validator var_name (S i) rest ;;
      Ok (a :: l)
  end.

(** Modelled from the spec: [check_list], a sequence whose every element
    passes the validator of the elements. *)
Definition check_list {A} (sub_validator : Validator A) : Validator (list A) :=
  fun var_name val =>
    match val with
    | JList items => check_items sub_validator var_name 0 items
    | _ => invalid (var_name ++ " is not a list")
    end.

Definition validator_map {A B} (f : A -> B) (v : Validator A) : Validator B :=
  fun var_name val => a <~ v var_name val ;; Ok (f a).

(** Modelled from the spec: [check_union], the value passes one of the listed
    validators, tried in order. *)
Fixpoint check_union {A} (allowed_type_funcs : list (Validator A)) : Validator A :=
  fun var_name val =>
    match allowed_type_funcs with
    | [] => invalid (var_name ++ " is not an allowed_type")
    | func :: rest =>
        match func var_name val with
        | Ok a => Ok a
        | Raise (ValidationError _) => check_union rest var_name val
        | Raise e => Raise e
        end
    end.

Fixpoint dict_get (key : string) (fields : list (string * json)) : option json :=
  match fields with
  | [] => None
  | (k, v) :: rest => if String.eqb k key then Some v else dict_get key rest
  end.

Definition sub_name (var_name key : string) : string :=
  var_name ++ "[" ++ key ++ "]".

Definition required_key {A} (var_name : string) (fields : list (string * json))
    (key : string) (sub_validator : Validator A) : Result A :=
  match dict_get key fields with
  | None => invalid (key ++ " key is missing from " ++ var_name)
  | Some v => sub_validator (sub_name var_name key) v
  end.

Definition optional_key {A} (var_name : string) (fields : list (string * json))
    (key : string) (sub_validator : Validator A) : Result (option A) :=
  match dict_get key fields with
  | None => Ok None
  | Some v => a <~ sub_validator (sub_name var_name key) v ;; Ok (Some a)
  end.

Definition only_listed_keys (fields : list (string * json)) (listed : list string) : Result unit :=
  if forallb (fun kv => existsb (String.eqb (fst kv)) listed) fields then Ok tt
  else invalid "Unexpected arguments".

(** *** zerver/lib/drafts.py *)

Definition VALID_DRAFT_TYPES : list string := [""; "private"; "stream"].

(** A draft dictionary that has the shape [draft_dict_validator] checks. *)
Record DraftDict := {
  dict_type : string;
  dict_to : list Z;
  dict_topic : string;
  dict_content : string;
  dict_timestamp : option number;
}.

(** [check_dict_only] with the required and optional keys of a draft: the
    value is a dict, every required key is present and passes its validator,
    the optional key passes if present, and no other key occurs. *)
Definition draft_dict_validator : Validator DraftDict := fun var_name val =>
  match val with
  | JDict fields =>
      ty <~ required_key var_name fields "type" (check_string_in VALID_DRAFT_TYPES) ;;
      to <~ required_key var_name fields "to" (check_list check_int) ;;
      topic <~ required_key var_name fields "topic" check_string ;;
      content <~ required_key var_name fields "content" check_required_string ;;
      timestamp <~ optional_key var_name fields "timestamp"
                     (check_union [validator_map PyInt check_int;
                                   validator_map PyFloat check_float]) ;;
      _ <~ only_listed_keys fields ["type"; "to"; "topic"; "content"; "timestamp"] ;;
      Ok {| dict_type := ty; dict_to := to; dict_topic := topic;
            dict_content := content; dict_timestamp := timestamp |}
  | _ => invalid (var_name ++ " is not a dict")
  end.

(** The dictionary [further_validated_draft_dict] returns. *)
Record ValidDraftDict := {
  recipient : option Recipient;
  topic : string;
  content : string;
  last_edit_time : datetime;
}.

(** Lines 63 to 79: the topic and the recipient, by the type of the draft. *)
Definition topic_and_recipient (draft_dict : DraftDict) (user_profile : UserProfile)
  : M (string * option Recipient) :=
  let to := dict_to draft_dict in
  if String.eqb (dict_type draft_dict) "stream" then
    let topic := truncate_topic (dict_topic draft_dict) in
    if has_null topic
    then raise (JsonableError (ugettext "Topic must not contain null bytes"))
    else
    if negb (Nat.eqb (List.length to) 1)
    then raise (JsonableError
                  (ugettext "Must specify exactly 1 stream ID for stream messages"))
    else
    match to with
    | to_0 :: _ =>
        stream_sub <- call_access_stream_by_id user_profile to_0 ;;
        ret (topic, Some (stream_recipient (fst stream_sub)))
    | [] => raise IndexError
    end
  else if String.eqb (dict_type draft_dict) "private"
          && negb (Nat.eqb (List.length to) 0) then
    to_users <- call_get_user_profiles_by_ids (py_set to) (realm user_profile) ;;
    recipient <-
      try_except
        (call_recipient_for_user_profiles to_users false None user_profile)
        (fun e =>
           match e with
           | ValidationError (m :: _) => raise (JsonableError m)
           | ValidationError [] => raise IndexError
           | _ => raise e
           end) ;;
    ret ("", Some recipient)
  else ret ("", None).

Definition further_validated_draft_dict (draft_dict : DraftDict)
    (user_profile : UserProfile) : M ValidDraftDict :=
  let content := truncate_body (dict_content draft_dict) in
  if has_null content
  then raise (JsonableError (ugettext "Content must not contain null bytes"))
  else
  now <- time_time ;;
  let timestamp := default now (dict_timestamp draft_dict) in
  let timestamp := py_round timestamp 6 in
  if number_ltb timestamp (PyInt 0)
  then raise (JsonableError (ugettext "Timestamp must not be negative."))
  else
  last_edit_time <- lift (timestamp_to_datetime timestamp) ;;
  resolved <- topic_and_recipient draft_dict user_profile ;;
  ret {| recipient := snd resolved;
         topic := fst resolved;
         content := content;
         last_edit_time := last_edit_time |}.

(** The view a [draft_endpoint] wraps: the request, the acting user and the
    remaining arguments of the route. *)
Definition View (Args : Type) : Type := HttpRequest -> UserProfile -> Args -> M HttpResponse.

Definition draft_endpoint {Args} (view_func : View Args) : View Args :=
  fun request user_profile args =>
    if negb (enable_drafts_synchronization user_profile)
    then raise (JsonableError (ugettext "User has not enabled drafts syncing."))
    else view_func request user_profile args.

Definition new_draft (user_profile : UserProfile) (valid_draft_dict : ValidDraftDict) : Draft :=
  {| draft_user_profile := user_id user_profile;
     draft_recipient := recipient valid_draft_dict;
     draft_topic := topic valid_draft_dict;
     draft_content := content valid_draft_dict;
     draft_last_edit_time := last_edit_time valid_draft_dict |}.

(** The loop of [do_create_drafts], from the draft objects built so far. *)
Fixpoint build_draft_objects (draft_dicts : list DraftDict) (user_profile : UserProfile)
    (draft_objects : list Draft) : M (list Draft) :=
  match draft_dicts with
  | [] => ret draft_objects
  | draft_dict :: rest =>
      valid_draft_dict <- further_validated_draft_dict draft_dict user_profile ;;
      build_draft_objects rest user_profile
        (draft_objects ++ [new_draft user_profile valid_draft_dict])
  end.

Definition do_create_drafts (draft_dicts : list DraftDict) (user_profile : UserProfile)
  : M (list (Z * Draft)) :=
  draft_objects <- build_draft_objects draft_dicts user_profile [] ;;
  created_draft_objects <- Draft_objects_bulk_create draft_objects ;;
  ret created_draft_objects.

(** [except Draft.DoesNotExist: raise JsonableError(_("Draft does not exist"))] *)
Definition except_DoesNotExist {A} (e : exn) : M A :=
  match e with
  | DoesNotExist => raise (JsonableError (ugettext "Draft does not exist"))
  | _ => raise e
  end.

Definition overwrite (draft_object : Z * Draft) (valid_draft_dict : ValidDraftDict) : Z * Draft :=
  (fst draft_object,
   {| draft_user_profile := draft_user_profile (snd draft_object);
      draft_recipient := recipient valid_draft_dict;
      draft_topic := topic valid_draft_dict;
      draft_content := content valid_draft_dict;
      draft_last_edit_time := last_edit_time valid_draft_dict |}).

Definition do_edit_draft (draft_id : Z) (draft_dict : DraftDict) (user_profile : UserProfile)
  : M unit :=
  draft_object <- try_except (Draft_objects_get draft_id user_profile) except_DoesNotExist ;;
  valid_draft_dict <- further_validated_draft_dict draft_dict user_profile ;;
  Draft_save (overwrite draft_object valid_draft_dict).

Definition do_delete_draft (draft_id : Z) (user_profile : UserProfile) : M unit :=
  draft_object <- try_except (Draft_objects_get draft_id user_profile) except_DoesNotExist ;;
  Draft_delete draft_object.

(** The two functions below mutate the object they are given; they return it
    as the caller sees it afterwards. *)
Definition do_enable_drafts_syncing (user_profile : UserProfile) : M UserProfile :=
  let user_profile := set_enable_drafts_synchronization true user_profile in
  UserProfile_save_enable_drafts_synchronization user_profile ;;;
  ret user_profile.

Definition do_disable_drafts_syncing (user_profile : UserProfile) : M UserProfile :=
  let user_profile := set_enable_drafts_synchronization false user_profile in
  UserProfile_save_enable_drafts_synchronization user_profile ;;;
  Draft_objects_filter_delete user_profile ;;;
  ret user_profile.

(** *** zerver/views/drafts.py *)

(** Modelled from the spec: [zerver.lib.request] is not among the sources.
    [REQ] reads the named request variable and applies its validator; a
    missing variable or a violation the validator reports fails the request
    with that description (spec, sections 4.1 and 7). *)
Definition REQ {A} (name : string) (validator : Validator A) (request : HttpRequest) : M A :=
  match dict_get name (request_vars request) with
  | None => raise (JsonableError ("Missing '" ++ name ++ "' argument"))
  | Some val =>
      match validator name val with
      | Ok a => ret a
      | Raise (ValidationError (m :: _)) => raise (JsonableError m)
      | Raise e => raise e
      end
  end.

Definition has_request_variables {Args A} (name : string) (validator : Validator A)
    (view_func : HttpRequest -> UserProfile -> Args -> A -> M HttpResponse) : View Args :=
  fun request user_profile args =>
    a <- REQ name validator request ;;
    view_func request user_profile args a.

Definition fetch_drafts_view : View unit := fun request user_profile _ =>
  user_drafts <- Draft_objects_filter_order_by user_profile ;;
  let draft_dicts := map Draft_to_dict user_drafts in
  count <- QuerySet_count user_drafts ;;
  ret (json_success (JDict [("count", JInt count); ("drafts", JList draft_dicts)])).

Definition fetch_drafts : View unit := draft_endpoint fetch_drafts_view.

Definition create_drafts_view : View unit :=
  has_request_variables "drafts" (check_list draft_dict_validator)
    (fun request user_profile _ draft_dicts =>
       created_draft_objects <- do_create_drafts draft_dicts user_profile ;;
       let draft_ids := map fst created_draft_objects in
       ret (json_success (JDict [("ids", JList (map JInt draft_ids))]))).

Definition create_drafts : View unit := draft_endpoint create_drafts_view.

(** [except JsonableError as err: return json_error(str(err), status=404)] *)
Definition except_JsonableError_404 (e : exn) : M HttpResponse :=
  match e with
  | JsonableError msg => ret (json_error msg 404)
  | _ => raise e
  end.

Definition edit_draft_view : View Z :=
  has_request_variables "draft" draft_dict_validator
    (fun request user_profile draft_id draft_dict =>
       try_except
         (do_edit_draft draft_id draft_dict user_profile ;;;
          ret (json_success (JDict [])))
         except_JsonableError_404).

Definition edit_draft : View Z := draft_endpoint edit_draft_view.

Definition delete_draft_view : View Z := fun request user_profile draft_id =>
  try_except
    (do_delete_draft draft_id user_profile ;;;
     ret (json_success (JDict [])))
    except_JsonableError_404.

Definition delete_draft : View Z := draft_endpoint delete_draft_view.

End Drafts.

(** ** A small platform to run the code on *)

Module Demo.

(** Modelled from the spec: [truncate_body] and [truncate_topic] of
    [zerver.lib.message] are not among the sources; the spec has them cut the
    text to the platform's maximum length. *)
Definition truncate (max_length : nat) (s : string) : string :=
  String.substring 0 max_length s.

(** The first second after the last year of a [datetime], year 9999. *)
Definition YEAR_10000 : Z := 253402300800.

(** Modelled from the spec: [timestamp_to_datetime] of [zerver.lib.timestamp]
    is not among the sources; the spec has it give an absolute time of
    microsecond precision.  The bounds are those of Python's [datetime], which
    ends with the year 9999: from the year 10000 on the conversion raises
    [ValueError], and [OverflowError] for a number of seconds that does not
    fit the platform's time type. *)
Definition to_datetime (x : number) : Result datetime :=
  let us := round_half_even (number_to_Q x * inject_Z 1000000) in
  if Z.leb (2 ^ 63 * 1000000) us
  then Raise (OverflowError "timestamp out of range for platform time_t")
  else if Z.leb (YEAR_10000 * 1000000) us
  then Raise (ValueError "year is out of range")
  else Ok {| micros := us |}.

Definition the_stream : Stream := {| stream_id := 5; stream_recipient := 105 |}.

Definition lookup_stream (w : World) (u : UserProfile) (id : Z)
  : Result (Stream * option Subscription) :=
  if Z.eqb id 5 then Ok (the_stream, Some {| sub_user := user_id u; sub_stream := 5 |})
  else Raise (JsonableError "Invalid stream id").

Fixpoint lookup_users (w : World) (ids : list Z) (realm_id : Z) : Result (list UserProfile) :=
  match ids with
  | [] => Ok []
  | id :: rest =>
      match users w !! id with
      | Some u =>
          if Z.eqb (realm u) realm_id
          then (us <~ lookup_users w rest realm_id ;; Ok (u :: us))
          else Raise (JsonableError "Invalid user ID")
      | None => Raise (JsonableError "Invalid user ID")
      end
  end.

Definition lookup_recipient (w : World) (to_users : list UserProfile) (forwarded : bool)
    (forwarder : option UserProfile) (sender : UserProfile) : Result Recipient :=
  match to_users with
  | [] => Raise (ValidationError ["Message must have recipients"])
  | _ => Ok (foldr (fun u acc => user_id u + 100 * acc) (user_id sender) to_users)
  end.

Definition to_dict (d : Z * Draft) : json :=
  JDict [("id", JInt (fst d)); ("topic", JStr (draft_topic (snd d)));
         ("content", JStr (draft_content (snd d)));
         ("timestamp", JInt (micros (draft_last_edit_time (snd d))))].

(** The platform with the given maximum message and topic lengths. *)
Definition platform (max_message_length max_topic_length : nat) : Platform :=
  {| truncate_body := truncate max_message_length;
     truncate_topic := truncate max_topic_length;
     timestamp_to_datetime := to_datetime;
     wall_clock := fun k => inject_Z (1600000000 + Z.of_nat k);
     access_stream_by_id := lookup_stream;
     get_user_profiles_by_ids := lookup_users;
     recipient_for_user_profiles := lookup_recipient;
     Draft_to_dict := to_dict |}.

Definition alice : UserProfile :=
  {| user_id := 1; realm := 1; full_name := "Alice"; enable_drafts_synchronization := true |}.

Definition bob : UserProfile :=
  {| user_id := 2; realm := 1; full_name := "Bob"; enable_drafts_synchronization := true |}.

Definition alices_draft : Draft :=
  {| draft_user_profile := 1; draft_recipient := None; draft_topic := "";
     draft_content := "hello"; draft_last_edit_time := {| micros := 1000000 |} |}.

Definition bobs_draft : Draft :=
  {| draft_user_profile := 2; draft_recipient := Some 105; draft_topic := "lunch";
     draft_content := "soup"; draft_last_edit_time := {| micros := 2000000 |} |}.

Definition world0 : World :=
  {| drafts := <[7 := alices_draft]> (<[8 := bobs_draft]> ∅);
     draft_seq := 9;
     users := <[1 := alice]> (<[2 := bob]> ∅);
     ticks := 0;
     trace := [] |}.

Definition payload (ty : string) (to : list Z) (topic content : string)
    (timestamp : option number) : DraftDict :=
  {| dict_type := ty; dict_to := to; dict_topic := topic; dict_content := content;
     dict_timestamp := timestamp |}.

Definition nul : string := String Ascii.zero "".

Definition json_of_payload (d : DraftDict) : json :=
  JDict ([("type", JStr (dict_type d)); ("to", JList (map JInt (dict_to d)));
          ("topic", JStr (dict_topic d)); ("content", JStr (dict_content d))]
         ++ match dict_timestamp d with
            | Some (PyInt z) => [("timestamp", JInt z)]
            | Some (PyFloat q) => [("timestamp", JFloat q)]
            | None => []
            end)%list.

(** The request that carries one draft, for the edit view. *)
Definition edit_request (d : DraftDict) : HttpRequest :=
  {| request_vars := [("draft", json_of_payload d)] |}.

(** The request that carries a batch of drafts, for the create view. *)
Definition create_request (ds : list DraftDict) : HttpRequest :=
  {| request_vars := [("drafts", JList (map json_of_payload ds))] |}.

Definition empty_request : HttpRequest := {| request_vars := [] |}.

(** A platform with Zulip's topic length and a message length of a
    thousand, and one with very short texts. *)
Definition zulip : Platform := platform 1000 60.

Definition tiny : Platform := platform 4 3.

Definition undirected_draft : DraftDict := payload "private" [] "x" "hi" None.

Definition two_streams_draft : DraftDict := payload "stream" [5; 6] "t" "c" None.

Definition two_streams_negative_time : DraftDict :=
  payload "stream" [5; 6] "t" "c" (Some (PyInt (-1))).

Definition negative_time_draft : DraftDict :=
  payload "" [] "" "hi" (Some (PyInt (-1))).

Definition half_microsecond_before_epoch : DraftDict :=
  payload "" [] "" "hi" (Some (PyFloat (- (1 # 2000000)))).

Definition null_after_cut : DraftDict :=
  payload "" [] "" ("abcd" ++ nul ++ "z") (Some (PyInt 3)).

Definition null_before_cut : DraftDict :=
  payload "" [] "" ("ab" ++ nul ++ "dz") (Some (PyInt 3)).

Definition null_topic : string := "to" ++ nul ++ "pic".

Definition stream_after_cut : DraftDict :=
  payload "stream" [5] "lunch" ("abcd" ++ nul ++ "z") (Some (PyInt 3)).

Definition year_10000_draft : DraftDict :=
  payload "" [] "" "hi" (Some (PyInt 253402300800)).

Definition year_10000_stream_draft : DraftDict :=
  payload "stream" [5; 6] null_topic "hi" (Some (PyInt 253402300800)).

Definition failing_batch : list DraftDict :=
  [undirected_draft; two_streams_draft; negative_time_draft].

Definition passing_batch : list DraftDict :=
  [undirected_draft; payload "stream" [5] "lunch" "soup?" (Some (PyInt 12))].

Definition stream_draft : DraftDict :=
  payload "stream" [5] "lunch" "soup?" (Some (PyInt 12)).

Definition private_draft : DraftDict :=
  payload "private" [2; 2] "" "hi" (Some (PyFloat (25 # 10))).

Definition unknown_stream_draft : DraftDict :=
  payload "stream" [6] "lunch" "soup?" (Some (PyInt 12)).

Definition stranger_draft : DraftDict :=
  payload "private" [3] "" "hi" (Some (PyInt 12)).

Definition year_10000_unknown_stream : DraftDict :=
  payload "stream" [6] null_topic "soup?" (Some (PyInt 253402300800)).

Definition year_10000_stranger : DraftDict :=
  payload "private" [3] "" "hi" (Some (PyFloat (253402300800 # 1))).

Definition blank_content_json : json :=
  JDict [("type", JStr ""); ("to", JList []); ("topic", JStr ""); ("content", JStr "")].

Definition disabled_alice : UserProfile :=
  {| user_id := 1; realm := 1; full_name := "Alice";
     enable_drafts_synchronization := false |}.

Definition renamed_alice : UserProfile :=
  {| user_id := 1; realm := 1; full_name := "Alice (away)";
     enable_drafts_synchronization := true |}.

End Demo.

(** ** Vocabulary of the statements *)

(** The timestamp [further_validated_draft_dict] checks and converts: the
    value of the payload, or the reading of the clock when it has none,
    rounded to six places. *)
Definition derived_timestamp `{P : Platform} (draft_dict : DraftDict) (w : World) : number :=
  py_round (default (PyFloat (wall_clock (ticks w))) (dict_timestamp draft_dict)) 6.

Definition is_query (e : Event) : bool :=
  match e with
  | CallTime | CallAccessStreamById _ _ | CallGetUserProfilesByIds _ _
  | CallRecipientForUserProfiles _ _ => false
  | _ => true
  end.

(** [w'] is [w] after collaborator calls alone: both tables and the key
    sequence are as they were and no query was issued. *)
Definition calls_only (w w' : World) : Prop :=
  drafts w' = drafts w /\ draft_seq w' = draft_seq w /\ users w' = users w /\
  exists evs, trace w' = (trace w ++ evs)%list /\ Forall (fun e => is_query e = false) evs.

(** Every key of the Draft table was handed out by the key sequence. *)
Definition keys_below_seq (w : World) : Prop :=
  forall k row, drafts w !! k = Some row -> k < draft_seq w.

Definition content_error : exn :=
  JsonableError "Content must not contain null bytes".

Definition timestamp_error : exn :=
  JsonableError "Timestamp must not be negative.".

Definition topic_error : exn :=
  JsonableError "Topic must not contain null bytes".

Definition stream_count_error : exn :=
  JsonableError "Must specify exactly 1 stream ID for stream messages".

Definition not_found_error : exn :=
  JsonableError "Draft does not exist".

Definition sync_disabled_error : exn :=
  JsonableError "User has not enabled drafts syncing.".

(** The dictionary returned once the time is converted and the topic and the
    recipient are resolved. *)
Definition finish `{P : Platform} (draft_dict : DraftDict) (t : datetime)
    (resolved : string * option Recipient) : ValidDraftDict :=
  {| recipient := snd resolved;
     topic := fst resolved;
     content := truncate_body (dict_content draft_dict);
     last_edit_time := t |}.

(** What [draft_dict_validator] guarantees of the fields of a draft. *)
Definition schema_valid (d : DraftDict) : bool :=
  existsb (String.eqb (dict_type d)) VALID_DRAFT_TYPES
  && negb (String.eqb (dict_content d) "").

Definition with_topic (t : string) (d : DraftDict) : DraftDict :=
  {| dict_type := dict_type d; dict_to := dict_to d; dict_topic := t;
     dict_content := dict_content d; dict_timestamp := dict_timestamp d |}.

(** The JSON value of a number. *)
Definition json_of_number (x : number) : json :=
  match x with
  | PyInt z => JInt z
  | PyFloat q => JFloat q
  end.

(** A validator that refuses only by a [ValidationError] with one message. *)
Definition raises_validation {A} (v : Validator A) : Prop :=
  forall var_name val e, v var_name val = Raise e -> exists m, e = ValidationError [m].

Definition DRAFT_KEYS : list string := ["type"; "to"; "topic"; "content"; "timestamp"].

Definition with_content (c : string) (d : DraftDict) : DraftDict :=
  {| dict_type := dict_type d; dict_to := dict_to d; dict_topic := dict_topic d;
     dict_content := c; dict_timestamp := dict_timestamp d |}.

Definition with_to (to : list Z) (d : DraftDict) : DraftDict :=
  {| dict_type := dict_type d; dict_to := to; dict_topic := dict_topic d;
     dict_content := dict_content d; dict_timestamp := dict_timestamp d |}.

(** No stored draft has a null byte in its content or in its topic. *)
Definition no_null_bytes (w : World) : Prop :=
  forall id row,
    drafts w !! id = Some row ->
    has_null (draft_content row) = false /\ has_null (draft_topic row) = false.


(** The rows of other users are the same in both worlds. *)
Definition others_untouched (u : UserProfile) (w w' : World) : Prop :=
  forall id row,
    draft_user_profile row <> user_id u ->
    (drafts w' !! id = Some row <-> drafts w !! id = Some row).

(** Normalization of every payload of a batch, in order. *)
Fixpoint normalize_all `{P : Platform} (draft_dicts : list DraftDict)
    (user_profile : UserProfile) : M (list ValidDraftDict) :=
  match draft_dicts with
  | [] => ret []
  | draft_dict :: rest =>
      v <- further_validated_draft_dict draft_dict user_profile ;;
      vs <- normalize_all rest user_profile ;;
      ret (v :: vs)
  end.

Ltac run :=
  unfold bind, ret, raise, try_except, modify, get_world, lift; simpl.

(** ** Properties of normalization *)

Lemma calls_only_refl w : calls_only w w.
Proof.
  repeat split. exists []. split; [by rewrite app_nil_r | constructor].
Qed.

Lemma calls_only_trans w1 w2 w3 :
  calls_only w1 w2 -> calls_only w2 w3 -> calls_only w1 w3.
Proof.
  intros (Hd1 & Hs1 & Hu1 & evs1 & Ht1 & Hf1) (Hd2 & Hs2 & Hu2 & evs2 & Ht2 & Hf2).
  repeat split; try congruence.
  exists (evs1 ++ evs2)%list. split.
  - rewrite Ht2, Ht1. by rewrite <- app_assoc.
  - by apply Forall_app.
Qed.

Lemma calls_only_record e w : is_query e = false -> calls_only w (record e w).
Proof.
  intros He. repeat split. exists [e]. split; [done | by repeat constructor].
Qed.

Lemma calls_only_tick w : calls_only w (tick w).
Proof.
  repeat split. exists []. split; [by rewrite app_nil_r | constructor].
Qed.

Create HintDb drafts.
#[local] Hint Resolve calls_only_refl calls_only_record calls_only_tick : drafts.

(** *** Rounding and the sign of a number *)

Lemma round_half_even_cases (n d : Z) :
  0 < d ->
  let f := n / d in
  let r := match (2 * (n mod d) ?= d)%Z with
           | Lt => f
           | Gt => f + 1
           | Eq => if Z.even f then f else f + 1
           end in
  (r < 0 <-> 2 * n < - d) /\ (2 * d * r - d <= 2 * n <= 2 * d * r + d).
Proof.
  intros Hd f r.
  pose proof (Z.div_mod n d ltac:(lia)) as Hdm.
  pose proof (Z.mod_pos_bound n d Hd) as Hb.
  fold f in Hdm. subst r.
  destruct (Z.compare_spec (2 * (n mod d)) d) as [He|Hl|Hg].
  - destruct (Z.even f) eqn:Hev.
    + apply Z.even_spec in Hev. destruct Hev as [k Hk]. nia.
    + assert (Ho : Z.odd f = true) by (rewrite <- Z.negb_even, Hev; reflexivity).
      apply Z.odd_spec in Ho. destruct Ho as [k Hk]. nia.
  - nia.
  - nia.
Qed.

Lemma round_half_even_neg q :
  round_half_even q < 0 <-> (q < - (1 # 2))%Q.
Proof.
  unfold round_half_even.
  pose proof (round_half_even_cases (Qnum q) (Z.pos (Qden q)) ltac:(lia)) as [H _].
  cbv zeta in H. rewrite H. unfold Qlt, Qopp. cbn [Qnum Qden]. lia.
Qed.

Lemma round_half_even_near q :
  (inject_Z (round_half_even q) - (1 # 2) <= q /\
   q <= inject_Z (round_half_even q) + (1 # 2))%Q.
Proof.
  unfold round_half_even.
  pose proof (round_half_even_cases (Qnum q) (Z.pos (Qden q)) ltac:(lia)) as [_ H].
  cbv zeta in H.
  set (r := match _ with Lt => _ | _ => _ end) in *.
  unfold Qle, Qminus, Qplus, Qopp, inject_Z. cbn [Qnum Qden]. split; nia.
Qed.

Lemma py_round_float q :
  py_round (PyFloat q) 6 = PyFloat (round_half_even (q * inject_Z 1000000) # 1000000).
Proof. reflexivity. Qed.

Lemma number_ltb_zero x :
  number_ltb x (PyInt 0) = true <-> (number_to_Q x < 0)%Q.
Proof.
  unfold number_ltb. rewrite Qlt_alt. change (number_to_Q (PyInt 0)) with 0%Q.
  destruct (number_to_Q x ?= 0)%Q; split; congruence.
Qed.

Lemma number_ltb_zero_false x :
  number_ltb x (PyInt 0) = false <-> (0 <= number_to_Q x)%Q.
Proof.
  rewrite <- not_true_iff_false, number_ltb_zero. split.
  - apply Qnot_lt_le.
  - apply Qle_not_lt.
Qed.

(** A float is below zero after rounding exactly when it is below minus half
    a microsecond. *)
Lemma py_round_float_negative q :
  (number_to_Q (py_round (PyFloat q) 6) < 0)%Q <-> (q < - (1 # 2000000))%Q.
Proof.
  rewrite py_round_float. cbn [number_to_Q].
  transitivity (round_half_even (q * inject_Z 1000000) < 0).
  - unfold Qlt. cbn [Qnum Qden]. lia.
  - rewrite round_half_even_neg. unfold Qlt, Qmult, Qopp, inject_Z. cbn [Qnum Qden]. lia.
Qed.

Section Normalization.

Context `{P : Platform}.

Lemma normalize_content_null d u w :
  has_null (truncate_body (dict_content d)) = true ->
  further_validated_draft_dict d u w = (Raise content_error, w).
Proof.
  intros H. unfold further_validated_draft_dict. by rewrite H.
Qed.

Lemma normalize_timestamp_negative d u w :
  has_null (truncate_body (dict_content d)) = false ->
  number_ltb (derived_timestamp d w) (PyInt 0) = true ->
  further_validated_draft_dict d u w = (Raise timestamp_error, tick (record CallTime w)).
Proof.
  intros Hc Ht. unfold further_validated_draft_dict. rewrite Hc.
  unfold derived_timestamp in Ht. run. by rewrite Ht.
Qed.

Lemma normalize_resolves d u w :
  has_null (truncate_body (dict_content d)) = false ->
  number_ltb (derived_timestamp d w) (PyInt 0) = false ->
  further_validated_draft_dict d u w =
    match timestamp_to_datetime (derived_timestamp d w) with
    | Ok t =>
        match topic_and_recipient d u (tick (record CallTime w)) with
        | (Ok resolved, w') => (Ok (finish d t resolved), w')
        | (Raise e, w') => (Raise e, w')
        end
    | Raise e => (Raise e, tick (record CallTime w))
    end.
Proof.
  intros Hc Ht. unfold further_validated_draft_dict. rewrite Hc.
  unfold derived_timestamp in *. run. rewrite Ht.
  destruct (timestamp_to_datetime _) as [t|e0]; [| reflexivity].
  destruct (topic_and_recipient d u _) as [[res|e] w']; reflexivity.
Qed.

Lemma topic_and_recipient_calls_only d u w r w' :
  topic_and_recipient d u w = (r, w') -> calls_only w w'.
Proof.
  unfold topic_and_recipient.
  destruct (String.eqb (dict_type d) "stream").
  - destruct (has_null _); [run; intros [= <- <-]; auto with drafts |].
    destruct (negb _); [run; intros [= <- <-]; auto with drafts |].
    destruct (dict_to d) as [|to_0 rest]; [run; intros [= <- <-]; auto with drafts |].
    unfold call_access_stream_by_id. run.
    destruct (access_stream_by_id _ _ _); intros [= <- <-]; auto with drafts.
  - destruct (_ && _).
    + unfold call_get_user_profiles_by_ids, call_recipient_for_user_profiles. run.
      destruct (get_user_profiles_by_ids _ _ _) as [to_users|e];
        [| intros [= <- <-]; auto with drafts].
      assert (Hw : calls_only w
                (record (CallRecipientForUserProfiles (map user_id to_users) (user_id u))
                   (record (CallGetUserProfilesByIds (py_set (dict_to d)) (realm u)) w)))
        by (eapply calls_only_trans; [| apply calls_only_record; reflexivity];
            apply calls_only_record; reflexivity).
      destruct (recipient_for_user_profiles _ _ _ _ _) as [rcpt|e];
        [intros [= <- <-]; exact Hw |].
      destruct e as [msg|[|m ms]| |msg| |msg|msg|msg]; run; intros [= <- <-]; exact Hw.
    + run. intros [= <- <-]; auto with drafts.
Qed.

Lemma normalize_calls_only d u w r w' :
  further_validated_draft_dict d u w = (r, w') -> calls_only w w'.
Proof.
  destruct (has_null (truncate_body (dict_content d))) eqn:Hc.
  - rewrite normalize_content_null by done. intros [= <- <-]. auto with drafts.
  - assert (Hw : calls_only w (tick (record CallTime w)))
      by (eapply calls_only_trans; [| apply calls_only_tick]; apply calls_only_record; reflexivity).
    destruct (number_ltb (derived_timestamp d w) (PyInt 0)) eqn:Ht.
    + rewrite normalize_timestamp_negative by done. intros [= <- <-]. exact Hw.
    + rewrite normalize_resolves by done.
      destruct (timestamp_to_datetime _) as [t|e0]; [| intros [= <- <-]; exact Hw].
      destruct (topic_and_recipient d u _) as [[res|e] w1] eqn:Hr;
        intros [= <- <-]; (eapply calls_only_trans; [exact Hw |]);
        eapply topic_and_recipient_calls_only; eauto.
Qed.

Lemma topic_and_recipient_undirected d u w :
  dict_type d = "" \/ (dict_type d = "private" /\ dict_to d = []) ->
  topic_and_recipient d u w = (Ok ("", None), w).
Proof.
  unfold topic_and_recipient. intros [Ht|[Ht Hto]]; rewrite Ht; [|rewrite Hto]; reflexivity.
Qed.

Lemma topic_and_recipient_stream_wrong_count d u w :
  dict_type d = "stream" -> List.length (dict_to d) <> 1%nat ->
  topic_and_recipient d u w =
    (Raise (if has_null (truncate_topic (dict_topic d))
            then topic_error else stream_count_error), w).
Proof.
  intros Ht Hlen. unfold topic_and_recipient. rewrite Ht. simpl.
  destruct (has_null _); [reflexivity |].
  destruct (Nat.eqb_spec (List.length (dict_to d)) 1); [contradiction | reflexivity].
Qed.

Lemma topic_and_recipient_ignores_topic d u w t :
  dict_type d <> "stream" ->
  topic_and_recipient (with_topic t d) u w = topic_and_recipient d u w.
Proof.
  intros Ht. unfold topic_and_recipient. cbn [with_topic dict_type dict_to].
  destruct (String.eqb_spec (dict_type d) "stream"); [contradiction | reflexivity].
Qed.

Lemma topic_and_recipient_topic d u w res w' :
  topic_and_recipient d u w = (Ok res, w') ->
  fst res = if String.eqb (dict_type d) "stream"
            then truncate_topic (dict_topic d) else "".
Proof.
  unfold topic_and_recipient.
  destruct (String.eqb (dict_type d) "stream").
  - destruct (has_null _); [run; discriminate |].
    destruct (negb _); [run; discriminate |].
    destruct (dict_to d) as [|to_0 rest]; [run; discriminate |].
    unfold call_access_stream_by_id. run.
    destruct (access_stream_by_id _ _ _); [| discriminate].
    by intros [= <- <-].
  - destruct (_ && _).
    + unfold call_get_user_profiles_by_ids, call_recipient_for_user_profiles. run.
      destruct (get_user_profiles_by_ids _ _ _) as [to_users|e]; [| discriminate].
      destruct (recipient_for_user_profiles _ _ _ _ _) as [rcpt|e];
        [by intros [= <- <-] |].
      destruct e as [msg|[|m ms]| |msg| |msg|msg|msg]; run; discriminate.
    + run. by intros [= <- <-].
Qed.

(** Whatever normalization returns carries the truncated content, and that
    content has no null byte. *)
Lemma normalize_content d u w r w' :
  further_validated_draft_dict d u w = (Ok r, w') ->
  content r = truncate_body (dict_content d) /\ has_null (content r) = false.
Proof.
  destruct (has_null (truncate_body (dict_content d))) eqn:Hc.
  - rewrite normalize_content_null by done. discriminate.
  - destruct (number_ltb (derived_timestamp d w) (PyInt 0)) eqn:Ht.
    + rewrite normalize_timestamp_negative by done. discriminate.
    + rewrite normalize_resolves by done.
      destruct (timestamp_to_datetime _) as [t|e0]; [| discriminate].
      destruct (topic_and_recipient d u _) as [[res|e] w1]; [| discriminate].
      intros [= <- <-]. by split.
Qed.

(** Past the content check the clock is read, once. *)
Lemma normalize_reads_clock d u w :
  has_null (truncate_body (dict_content d)) = false ->
  ticks (snd (further_validated_draft_dict d u w)) = S (ticks w).
Proof.
  intros Hc.
  assert (Hk : forall r w', topic_and_recipient d u (tick (record CallTime w)) = (r, w') ->
                            ticks w' = S (ticks w)).
  { unfold topic_and_recipient.
    destruct (String.eqb (dict_type d) "stream").
    - destruct (has_null (truncate_topic _)); [run; by intros ? ? [= <- <-] |].
      destruct (negb _); [run; by intros ? ? [= <- <-] |].
      destruct (dict_to d) as [|to_0 rest]; [run; by intros ? ? [= <- <-] |].
      unfold call_access_stream_by_id. run.
      destruct (access_stream_by_id _ _ _); by intros ? ? [= <- <-].
    - destruct (_ && _).
      + unfold call_get_user_profiles_by_ids, call_recipient_for_user_profiles. run.
        destruct (get_user_profiles_by_ids _ _ _) as [to_users|e];
          [| by intros ? ? [= <- <-]].
        destruct (recipient_for_user_profiles _ _ _ _ _) as [rcpt|e];
          [by intros ? ? [= <- <-] |].
        destruct e as [msg|[|m ms]| |msg| |msg|msg|msg]; run; by intros ? ? [= <- <-].
      + run. by intros ? ? [= <- <-]. }
  destruct (number_ltb (derived_timestamp d w) (PyInt 0)) eqn:Ht.
  - by rewrite normalize_timestamp_negative.
  - rewrite normalize_resolves by done.
    destruct (timestamp_to_datetime _) as [t|e0]; [| reflexivity].
    destruct (topic_and_recipient d u _) as [[res|e] w1] eqn:Hr; simpl; eauto.
Qed.

Lemma topic_and_recipient_ignores_content d u w c :
  topic_and_recipient (with_content c d) u w = topic_and_recipient d u w.
Proof. reflexivity. Qed.

(** *** Claims about normalization *)

(** C4, as amended. A stream draft whose [to] does not hold exactly one id is
    always refused, and no stream is looked up.  The error is the one of the
    first step that fails, in the order of the code: the content check, the
    timestamp check, the conversion of the timestamp (which raises for a time
    outside the range of a datetime), the topic check, and only then the
    number of stream ids. *)
Theorem stream_without_single_id_rejected (d : DraftDict) (u : UserProfile) (w : World) :
  dict_type d = "stream" ->
  List.length (dict_to d) <> 1%nat ->
  further_validated_draft_dict d u w =
    (if has_null (truncate_body (dict_content d))
     then (Raise content_error, w)
     else if number_ltb (derived_timestamp d w) (PyInt 0)
     then (Raise timestamp_error, tick (record CallTime w))
     else match timestamp_to_datetime (derived_timestamp d w) with
          | Raise e => (Raise e, tick (record CallTime w))
          | Ok _ =>
              if has_null (truncate_topic (dict_topic d))
              then (Raise topic_error, tick (record CallTime w))
              else (Raise stream_count_error, tick (record CallTime w))
          end).
Proof.
  intros Ht Hlen.
  destruct (has_null (truncate_body (dict_content d))) eqn:Hc.
  - by apply normalize_content_null.
  - destruct (number_ltb (derived_timestamp d w) (PyInt 0)) eqn:Hts.
    + by apply normalize_timestamp_negative.
    + rewrite normalize_resolves by done.
      destruct (timestamp_to_datetime _) as [t|e]; [| reflexivity].
      rewrite topic_and_recipient_stream_wrong_count by done.
      by destruct (has_null (truncate_topic (dict_topic d))).
Qed.

(** C5. The null-byte check looks at the truncated content and at nothing
    else.  If the truncated content holds a null byte the draft is refused
    with the content error and nothing else happens.  If it holds none, the
    content check is passed for every type of draft: the outcome is that of
    the steps that follow (timestamp check, conversion of the timestamp,
    resolution of topic and recipient), none of which looks at the content,
    and a dictionary that is returned carries exactly the truncated content.
    In particular, when truncation keeps [kept] of the content [kept ++ cut],
    the draft is treated by [kept] alone, whether or not [cut] holds a null
    byte. *)
Theorem content_truncated_before_null_check (d : DraftDict) (u : UserProfile) (w : World) :
  (has_null (truncate_body (dict_content d)) = true ->
   further_validated_draft_dict d u w = (Raise content_error, w)) /\
  (has_null (truncate_body (dict_content d)) = false ->
   further_validated_draft_dict d u w =
     (if number_ltb (derived_timestamp d w) (PyInt 0)
      then (Raise timestamp_error, tick (record CallTime w))
      else match timestamp_to_datetime (derived_timestamp d w) with
           | Raise e => (Raise e, tick (record CallTime w))
           | Ok t =>
               match topic_and_recipient d u (tick (record CallTime w)) with
               | (Ok resolved, w') =>
                   (Ok {| recipient := snd resolved;
                          topic := fst resolved;
                          content := truncate_body (dict_content d);
                          last_edit_time := t |}, w')
               | (Raise e, w') => (Raise e, w')
               end
           end) /\
   (forall c, topic_and_recipient (with_content c d) u = topic_and_recipient d u) /\
   (forall r w', further_validated_draft_dict d u w = (Ok r, w') ->
                 content r = truncate_body (dict_content d)) /\
   (forall t,
      dict_type d = "" \/ (dict_type d = "private" /\ dict_to d = []) ->
      number_ltb (derived_timestamp d w) (PyInt 0) = false ->
      timestamp_to_datetime (derived_timestamp d w) = Ok t ->
      further_validated_draft_dict d u w =
        (Ok {| recipient := None; topic := "";
               content := truncate_body (dict_content d);
               last_edit_time := t |}, tick (record CallTime w)))) /\
  (forall kept cut,
     dict_content d = kept ++ cut ->
     truncate_body (kept ++ cut) = kept ->
     has_null kept = false ->
     further_validated_draft_dict d u w =
       (if number_ltb (derived_timestamp d w) (PyInt 0)
        then (Raise timestamp_error, tick (record CallTime w))
        else match timestamp_to_datetime (derived_timestamp d w) with
             | Raise e => (Raise e, tick (record CallTime w))
             | Ok t =>
                 match topic_and_recipient d u (tick (record CallTime w)) with
                 | (Ok resolved, w') =>
                     (Ok {| recipient := snd resolved;
                            topic := fst resolved;
                            content := kept;
                            last_edit_time := t |}, w')
                 | (Raise e, w') => (Raise e, w')
                 end
             end)).
Proof.
  assert (Hok : has_null (truncate_body (dict_content d)) = false ->
    further_validated_draft_dict d u w =
      (if number_ltb (derived_timestamp d w) (PyInt 0)
       then (Raise timestamp_error, tick (record CallTime w))
       else match timestamp_to_datetime (derived_timestamp d w) with
            | Raise e => (Raise e, tick (record CallTime w))
            | Ok t =>
                match topic_and_recipient d u (tick (record CallTime w)) with
                | (Ok resolved, w') =>
                    (Ok {| recipient := snd resolved;
                           topic := fst resolved;
                           content := truncate_body (dict_content d);
                           last_edit_time := t |}, w')
                | (Raise e, w') => (Raise e, w')
                end
            end)).
  { intros Hc. destruct (number_ltb (derived_timestamp d w) (PyInt 0)) eqn:Hts.
    - by apply normalize_timestamp_negative.
    - by rewrite normalize_resolves. }
  split; [apply normalize_content_null |]. split.
  - intros Hc. split; [by apply Hok |]. split; [reflexivity |]. split.
    + intros r w' Hr. by destruct (normalize_content _ _ _ _ _ Hr).
    + intros t Hu Hts Hconv. rewrite (Hok Hc), Hts, Hconv.
      by rewrite topic_and_recipient_undirected.
  - intros kept cut Hd Htr Hk.
    assert (Hc : has_null (truncate_body (dict_content d)) = false)
      by (rewrite Hd, Htr; exact Hk).
    rewrite (Hok Hc). by rewrite Hd, Htr.
Qed.

(** C6, as amended. The timestamp that is checked is the value of the
    payload, or the reading of the clock when the payload has none, rounded by
    [round(_, 6)]: an int stays as it is, a float becomes the nearest whole
    number of microseconds.  Once the content check has passed, normalization
    raises the timestamp error exactly when that rounded value is below zero;
    for a float that is when the value is below minus half a microsecond.  A
    value of zero or above passes this check, which knows no upper bound, and
    is handed to the conversion into a datetime: an error of the conversion is
    raised as it is; a converted time goes on to the resolution of the
    recipient, and a draft without recipient is then accepted with it. *)
Theorem timestamp_rounded_then_negative_rejected
    (d : DraftDict) (u : UserProfile) (w : World) :
  has_null (truncate_body (dict_content d)) = false ->
  let given := default (PyFloat (wall_clock (ticks w))) (dict_timestamp d) in
  let t := derived_timestamp d w in
  t = py_round given 6 /\
  match given with
  | PyInt z => t = PyInt z
  | PyFloat q =>
      exists n : Z,
        t = PyFloat (n # 1000000) /\
        (inject_Z n - (1 # 2) <= q * inject_Z 1000000 /\
         q * inject_Z 1000000 <= inject_Z n + (1 # 2))%Q /\
        ((number_to_Q t < 0)%Q <-> (q < - (1 # 2000000))%Q)
  end /\
  ((number_to_Q t < 0)%Q ->
   further_validated_draft_dict d u w =
     (Raise timestamp_error, tick (record CallTime w))) /\
  ((0 <= number_to_Q t)%Q ->
   (forall e,
      timestamp_to_datetime t = Raise e ->
      further_validated_draft_dict d u w = (Raise e, tick (record CallTime w))) /\
   (forall dt,
      timestamp_to_datetime t = Ok dt ->
      further_validated_draft_dict d u w =
        match topic_and_recipient d u (tick (record CallTime w)) with
        | (Ok resolved, w') =>
            (Ok {| recipient := snd resolved;
                   topic := fst resolved;
                   content := truncate_body (dict_content d);
                   last_edit_time := dt |}, w')
        | (Raise e, w') => (Raise e, w')
        end) /\
   (forall dt,
      timestamp_to_datetime t = Ok dt ->
      dict_type d = "" \/ (dict_type d = "private" /\ dict_to d = []) ->
      further_validated_draft_dict d u w =
        (Ok {| recipient := None; topic := "";
               content := truncate_body (dict_content d);
               last_edit_time := dt |},
         tick (record CallTime w)))).
Proof.
  intros Hc given t.
  split; [reflexivity |]. split.
  - subst t. unfold derived_timestamp. fold given. destruct given as [z|q].
    + reflexivity.
    + exists (round_half_even (q * inject_Z 1000000)).
      split; [apply py_round_float |].
      split; [apply round_half_even_near | apply py_round_float_negative].
  - split.
    + intros Hneg. apply normalize_timestamp_negative; [done |].
      by apply number_ltb_zero.
    + intros Hpos. apply number_ltb_zero_false in Hpos.
      split; [| split].
      * intros e He. rewrite normalize_resolves by done. subst t. by rewrite He.
      * intros dt Hdt. rewrite normalize_resolves by done. subst t. by rewrite Hdt.
      * intros dt Hdt Hu. rewrite normalize_resolves by done. subst t. rewrite Hdt.
        by rewrite topic_and_recipient_undirected.
Qed.

(** C7. A draft of type [""], or of type ["private"] with an empty [to], is
    normalized without any call to a lookup of streams, users or recipients:
    the outcome is decided by the content check, the timestamp check and the
    conversion of the timestamp alone, and a draft that passes them has no
    recipient, the empty topic whatever topic was sent, and the truncated
    content. *)
Theorem undirected_draft_not_resolved (d : DraftDict) (u : UserProfile) (w : World) :
  dict_type d = "" \/ (dict_type d = "private" /\ dict_to d = []) ->
  further_validated_draft_dict d u w =
    (if has_null (truncate_body (dict_content d))
     then (Raise content_error, w)
     else if number_ltb (derived_timestamp d w) (PyInt 0)
     then (Raise timestamp_error, tick (record CallTime w))
     else match timestamp_to_datetime (derived_timestamp d w) with
          | Raise e => (Raise e, tick (record CallTime w))
          | Ok t =>
              (Ok {| recipient := None; topic := "";
                     content := truncate_body (dict_content d);
                     last_edit_time := t |},
               tick (record CallTime w))
          end) /\
  (forall r w',
     further_validated_draft_dict d u w = (Ok r, w') ->
     recipient r = None /\ topic r = "" /\
     content r = truncate_body (dict_content d)) /\
  (forall r w',
     further_validated_draft_dict d u w = (r, w') ->
     trace w' = trace w \/ trace w' = (trace w ++ [CallTime])%list).
Proof.
  intros Hu.
  assert (Heq : further_validated_draft_dict d u w =
    (if has_null (truncate_body (dict_content d))
     then (Raise content_error, w)
     else if number_ltb (derived_timestamp d w) (PyInt 0)
     then (Raise timestamp_error, tick (record CallTime w))
     else match timestamp_to_datetime (derived_timestamp d w) with
          | Raise e => (Raise e, tick (record CallTime w))
          | Ok t =>
              (Ok {| recipient := None; topic := "";
                     content := truncate_body (dict_content d);
                     last_edit_time := t |},
               tick (record CallTime w))
          end)).
  { destruct (has_null (truncate_body (dict_content d))) eqn:Hc.
    - by apply normalize_content_null.
    - destruct (number_ltb (derived_timestamp d w) (PyInt 0)) eqn:Hts.
      + by apply normalize_timestamp_negative.
      + rewrite normalize_resolves by done.
        destruct (timestamp_to_datetime _) as [t|e]; [| reflexivity].
        by rewrite topic_and_recipient_undirected. }
  split; [exact Heq |]. rewrite Heq. split.
  - intros r w'. destruct (has_null _); [discriminate |].
    destruct (number_ltb _ _); [discriminate |].
    destruct (timestamp_to_datetime _) as [t|e]; [| discriminate].
    by intros [= <- <-].
  - intros r w'. destruct (has_null _); [intros [= <- <-]; by left |].
    destruct (number_ltb _ _); [intros [= <- <-]; by right |].
    destruct (timestamp_to_datetime _) as [t|e]; intros [= <- <-]; by right.
Qed.

(** C10. For a draft of type ["private"] or [""] the topic of the payload
    plays no part: replacing it by any other string, with null bytes or of any
    length, leaves the outcome of normalization as it is, and a normalized
    draft has the empty topic.  The topic is truncated and checked for null
    bytes for type ["stream"] only: there a null byte left after truncation is
    refused once the content check, the timestamp check and the conversion of
    the timestamp have passed, and a normalized draft carries the truncated
    topic. *)
Theorem topic_rules_only_for_stream (d : DraftDict) (u : UserProfile) (w : World) :
  (dict_type d = "private" \/ dict_type d = "" ->
   (forall t : string,
      further_validated_draft_dict (with_topic t d) u w =
      further_validated_draft_dict d u w) /\
   (forall r w', further_validated_draft_dict d u w = (Ok r, w') -> topic r = "")) /\
  (dict_type d = "stream" ->
   (forall dt,
      has_null (truncate_body (dict_content d)) = false ->
      number_ltb (derived_timestamp d w) (PyInt 0) = false ->
      timestamp_to_datetime (derived_timestamp d w) = Ok dt ->
      has_null (truncate_topic (dict_topic d)) = true ->
      further_validated_draft_dict d u w =
        (Raise topic_error, tick (record CallTime w))) /\
   (forall r w', further_validated_draft_dict d u w = (Ok r, w') ->
                 topic r = truncate_topic (dict_topic d) /\ has_null (topic r) = false)).
Proof.
  assert (Htopic : forall r w', further_validated_draft_dict d u w = (Ok r, w') ->
            topic r = if String.eqb (dict_type d) "stream"
                      then truncate_topic (dict_topic d) else "").
  { intros r w'.
    destruct (has_null (truncate_body (dict_content d))) eqn:Hc.
    - rewrite normalize_content_null by done. discriminate.
    - destruct (number_ltb (derived_timestamp d w) (PyInt 0)) eqn:Hts.
      + rewrite normalize_timestamp_negative by done. discriminate.
      + rewrite normalize_resolves by done.
        destruct (timestamp_to_datetime _) as [dt|e0]; [| discriminate].
        destruct (topic_and_recipient d u _) as [[res|e] w1] eqn:Hr; [| discriminate].
        intros [= <- <-]. cbn [finish topic].
        eapply topic_and_recipient_topic; eauto. }
  split.
  - intros Hty.
    assert (Hns : dict_type d <> "stream") by (destruct Hty as [H|H]; rewrite H; discriminate).
    split.
    + intros t. unfold further_validated_draft_dict, derived_timestamp.
      cbn [with_topic dict_content dict_timestamp]. run.
      destruct (has_null _); [reflexivity |].
      destruct (number_ltb _ _); [reflexivity |].
      destruct (timestamp_to_datetime _) as [dt|e0]; [| reflexivity].
      by rewrite topic_and_recipient_ignores_topic.
    + intros r w' Hr. rewrite (Htopic _ _ Hr).
      by destruct (String.eqb_spec (dict_type d) "stream").
  - intros Hty. split.
    + intros dt Hc Hts Hconv Hnull. rewrite normalize_resolves by done. rewrite Hconv.
      unfold topic_and_recipient. rewrite Hty. simpl. by rewrite Hnull.
    + intros r w' Hr. pose proof (Htopic _ _ Hr) as Ht.
      rewrite Hty in Ht. simpl in Ht. split; [exact Ht |].
      rewrite Ht. clear Ht Htopic. revert Hr.
      destruct (has_null (truncate_body (dict_content d))) eqn:Hc.
      * rewrite normalize_content_null by done. discriminate.
      * destruct (number_ltb (derived_timestamp d w) (PyInt 0)) eqn:Hts.
        -- rewrite normalize_timestamp_negative by done. discriminate.
        -- rewrite normalize_resolves by done.
           destruct (timestamp_to_datetime _) as [dt|e0]; [| discriminate].
           unfold topic_and_recipient. rewrite Hty. simpl.
           destruct (has_null (truncate_topic (dict_topic d))); [run; discriminate | done].
Qed.

End Normalization.

(** ** Properties of the store operations *)

Lemma bind_ok {A B} (m : M A) (k : A -> M B) w a w' :
  m w = (Ok a, w') -> bind m k w = k a w'.
Proof. intros H. unfold bind. by rewrite H. Qed.

Lemma bind_raise {A B} (m : M A) (k : A -> M B) w e w' :
  m w = (Raise e, w') -> bind m k w = (Raise e, w').
Proof. intros H. unfold bind. by rewrite H. Qed.

Lemma assign_ids_length n objs : List.length (assign_ids n objs) = List.length objs.
Proof.
  revert n. induction objs as [|d rest IH]; intros n; simpl; [done | by rewrite IH].
Qed.

Lemma assign_ids_keys n objs :
  map fst (assign_ids n objs) = seqZ n (Z.of_nat (List.length objs)).
Proof.
  revert n. induction objs as [|d rest IH]; intros n; [done |].
  cbn [assign_ids map fst List.length]. rewrite IH.
  rewrite (seqZ_cons n) by lia. f_equal. f_equal; lia.
Qed.

Lemma assign_ids_lookup n objs (i : nat) d :
  objs !! i = Some d -> assign_ids n objs !! i = Some (n + Z.of_nat i, d).
Proof.
  revert n i. induction objs as [|d0 rest IH]; intros n i; [done |].
  destruct i as [|i]; simpl.
  - intros [= ->]. by rewrite Z.add_0_r.
  - intros H. rewrite (IH (n + 1) i H). do 2 f_equal. lia.
Qed.

Lemma insert_rows_lookup_old n objs (t : gmap Z Draft) k :
  k < n \/ n + Z.of_nat (List.length objs) <= k ->
  insert_rows (assign_ids n objs) t !! k = t !! k.
Proof.
  revert n t. induction objs as [|d rest IH]; intros n t Hk; [done |].
  cbn [assign_ids insert_rows foldl fst snd]. fold (insert_rows (assign_ids (n + 1) rest) (<[n:=d]> t)).
  rewrite IH by (cbn [List.length] in Hk; lia).
  apply lookup_insert_ne. cbn [List.length] in Hk. lia.
Qed.

Lemma insert_rows_lookup_new n objs (t : gmap Z Draft) (i : nat) d :
  objs !! i = Some d ->
  insert_rows (assign_ids n objs) t !! (n + Z.of_nat i) = Some d.
Proof.
  revert n t i. induction objs as [|d0 rest IH]; intros n t i; [done |].
  cbn [assign_ids insert_rows foldl fst snd]. fold (insert_rows (assign_ids (n + 1) rest) (<[n:=d0]> t)).
  destruct i as [|i]; intros H; simpl in H.
  - injection H as ->. rewrite Z.add_0_r.
    rewrite insert_rows_lookup_old by lia. apply lookup_insert_eq.
  - replace (n + Z.of_nat (S i)) with ((n + 1) + Z.of_nat i) by lia.
    by apply IH.
Qed.

Lemma insert_rows_lookup_Some n objs (t : gmap Z Draft) k row :
  insert_rows (assign_ids n objs) t !! k = Some row ->
  (t !! k = Some row /\ (k < n \/ n + Z.of_nat (List.length objs) <= k)) \/
  (exists i : nat, k = n + Z.of_nat i /\ objs !! i = Some row).
Proof.
  intros Hk.
  destruct (Z_lt_dec k n) as [Hlt|Hge];
    [left; rewrite insert_rows_lookup_old in Hk by lia; split; [done | lia] |].
  destruct (Z_le_dec (n + Z.of_nat (List.length objs)) k) as [Hle|Hin];
    [left; rewrite insert_rows_lookup_old in Hk by lia; split; [done | lia] |].
  right. exists (Z.to_nat (k - n)). split; [lia |].
  destruct (objs !! Z.to_nat (k - n)) as [d|] eqn:Hd.
  - pose proof (insert_rows_lookup_new n objs t _ _ Hd) as Hnew.
    replace (n + Z.of_nat (Z.to_nat (k - n))) with k in Hnew by lia. congruence.
  - apply lookup_ge_None in Hd. lia.
Qed.

Section Store.

Context `{P : Platform}.

Lemma normalize_all_cons d rest u w :
  normalize_all (d :: rest) u w =
    match further_validated_draft_dict d u w with
    | (Ok v, w1) =>
        match normalize_all rest u w1 with
        | (Ok vs, w2) => (Ok (v :: vs), w2)
        | (Raise e, w2) => (Raise e, w2)
        end
    | (Raise e, w1) => (Raise e, w1)
    end.
Proof.
  simpl. unfold bind.
  destruct (further_validated_draft_dict d u w) as [[v|e] w1]; [| reflexivity].
  destruct (normalize_all rest u w1) as [[vs|e] w2]; reflexivity.
Qed.

Lemma normalize_all_calls_only ds u w r w' :
  normalize_all ds u w = (r, w') -> calls_only w w'.
Proof.
  revert w r w'. induction ds as [|d rest IH]; intros w r w'.
  - simpl. run. intros [= <- <-]. apply calls_only_refl.
  - rewrite normalize_all_cons.
    destruct (further_validated_draft_dict d u w) as [[v|e] w1] eqn:Hd.
    + apply normalize_calls_only in Hd.
      destruct (normalize_all rest u w1) as [[vs|e] w2] eqn:Hr;
        intros [= <- <-]; eapply calls_only_trans; eauto.
    + intros [= <- <-]. eapply normalize_calls_only; eauto.
Qed.

(** The loop of [do_create_drafts] is the normalization of every payload. *)
Lemma build_draft_objects_normalize_all ds u acc w :
  build_draft_objects ds u acc w =
    match normalize_all ds u w with
    | (Ok vs, w') => (Ok (acc ++ map (new_draft u) vs)%list, w')
    | (Raise e, w') => (Raise e, w')
    end.
Proof.
  revert acc w. induction ds as [|d rest IH]; intros acc w.
  - simpl. run. by rewrite app_nil_r.
  - rewrite normalize_all_cons. cbn [build_draft_objects].
    destruct (further_validated_draft_dict d u w) as [[v|e] w1] eqn:Hd.
    + rewrite (bind_ok _ _ _ _ _ Hd), IH.
      destruct (normalize_all rest u w1) as [[vs|e] w2]; [| reflexivity].
      simpl. by rewrite <- app_assoc.
    + by rewrite (bind_raise _ _ _ _ _ Hd).
Qed.

(** A batch fails at its first payload that fails. *)
Lemma normalize_all_app pre d post u w vs w1 :
  normalize_all pre u w = (Ok vs, w1) ->
  normalize_all (pre ++ d :: post) u w =
    match further_validated_draft_dict d u w1 with
    | (Ok v, w2) =>
        match normalize_all post u w2 with
        | (Ok vs', w3) => (Ok (vs ++ v :: vs')%list, w3)
        | (Raise e, w3) => (Raise e, w3)
        end
    | (Raise e, w2) => (Raise e, w2)
    end.
Proof.
  revert w vs. induction pre as [|p pre IH]; intros w vs.
  - intros H. injection H as <- <-.
    change ([] ++ d :: post)%list with (d :: post). by rewrite normalize_all_cons.
  - change ((p :: pre) ++ d :: post)%list with (p :: (pre ++ d :: post))%list.
    rewrite !normalize_all_cons.
    destruct (further_validated_draft_dict p u w) as [[v0|e] w0]; [| discriminate].
    destruct (normalize_all pre u w0) as [[vs0|e] w0'] eqn:Hpre; [| discriminate].
    intros [= <- <-]. rewrite (IH _ _ Hpre).
    destruct (further_validated_draft_dict d u w0') as [[v|e] w2]; [| reflexivity].
    destruct (normalize_all post u w2) as [[vs'|e] w3]; reflexivity.
Qed.

Lemma normalize_all_raise ds u w e w2 :
  normalize_all ds u w = (Raise e, w2) ->
  exists pre d post vs w1,
    ds = (pre ++ d :: post)%list /\
    normalize_all pre u w = (Ok vs, w1) /\
    further_validated_draft_dict d u w1 = (Raise e, w2).
Proof.
  revert w. induction ds as [|d rest IH]; intros w; [simpl; run; discriminate |].
  rewrite normalize_all_cons.
  destruct (further_validated_draft_dict d u w) as [[v|e0] w1] eqn:Hd.
  - destruct (normalize_all rest u w1) as [[vs|e1] w3] eqn:Hr; [discriminate |].
    intros [= <- <-].
    destruct (IH _ Hr) as (pre & d' & post & vs & w1' & -> & Hpre & Hd').
    exists (d :: pre), d', post, (v :: vs), w1'. split; [done |]. split; [| done].
    rewrite normalize_all_cons. by rewrite Hd, Hpre.
  - intros [= <- <-]. exists [], d, rest, [], w. by repeat split.
Qed.

Lemma normalize_all_each ds u w vs w1 :
  normalize_all ds u w = (Ok vs, w1) ->
  Forall2 (fun d v => exists wa wb, further_validated_draft_dict d u wa = (Ok v, wb)) ds vs.
Proof.
  revert w vs. induction ds as [|d rest IH]; intros w vs.
  - simpl. run. intros [= <- <-]. constructor.
  - rewrite normalize_all_cons.
    destruct (further_validated_draft_dict d u w) as [[v|e0] w0] eqn:Hd; [| discriminate].
    destruct (normalize_all rest u w0) as [[vs0|e1] w3] eqn:Hr; [| discriminate].
    intros [= <- <-]. constructor; eauto.
Qed.

Lemma do_create_drafts_normalize_all ds u w :
  do_create_drafts ds u w =
    match normalize_all ds u w with
    | (Ok vs, w1) => Draft_objects_bulk_create (map (new_draft u) vs) w1
    | (Raise e, w1) => (Raise e, w1)
    end.
Proof.
  unfold do_create_drafts, bind at 1. rewrite build_draft_objects_normalize_all.
  destruct (normalize_all ds u w) as [[vs|e] w1]; [| reflexivity].
  cbn [app]. unfold bind, ret.
  by destruct (Draft_objects_bulk_create _ w1) as [[created|e] w2].
Qed.

Lemma bulk_create_ok objs w created w' :
  Draft_objects_bulk_create objs w = (Ok created, w') ->
  created = assign_ids (draft_seq w) objs /\
  drafts w' = insert_rows created (drafts w) /\
  draft_seq w' = draft_seq w + Z.of_nat (List.length objs) /\
  users w' = users w /\
  trace w' = (trace w ++ match objs with
                         | [] => []
                         | _ :: _ => [QueryDraftBulkCreate (List.length objs)]
                         end)%list.
Proof.
  unfold Draft_objects_bulk_create. destruct objs as [|d rest].
  - run. intros [= <- <-]. rewrite app_nil_r, Z.add_0_r. by repeat split.
  - run. destruct (_ || _); [discriminate |]. intros [= <- <-]. by repeat split.
Qed.

Lemma bulk_create_raise objs w e w' :
  Draft_objects_bulk_create objs w = (Raise e, w') ->
  drafts w' = drafts w /\ users w' = users w /\
  existsb (key_in_use (drafts w)) (assign_ids (draft_seq w) objs) = true.
Proof.
  unfold Draft_objects_bulk_create. destruct objs as [|d rest]; [run; discriminate |].
  run. destruct (_ || _) eqn:Hx; [| discriminate]. intros [= <- <-].
  by repeat split.
Qed.

Lemma no_key_in_use (t : gmap Z Draft) n m objs :
  (forall k row, t !! k = Some row -> k < n) -> n <= m ->
  existsb (key_in_use t) (assign_ids m objs) = false.
Proof.
  intros Hlt. revert m. induction objs as [|d rest IH]; intros m Hm; [done |].
  cbn [assign_ids existsb]. rewrite IH by lia. rewrite orb_false_r.
  unfold key_in_use. cbn [fst].
  destruct (t !! m) as [row|] eqn:Hk; [| done]. apply Hlt in Hk. lia.
Qed.

Lemma bulk_create_free objs w :
  keys_below_seq w ->
  exists w', Draft_objects_bulk_create objs w = (Ok (assign_ids (draft_seq w) objs), w').
Proof.
  intros Hwf. unfold Draft_objects_bulk_create. destruct objs as [|d rest].
  - run. eauto.
  - run. change ((draft_seq w, d) :: assign_ids (draft_seq w + 1) rest)
      with (assign_ids (draft_seq w) (d :: rest)).
    assert (Hfree : existsb (key_in_use (drafts w)) (assign_ids (draft_seq w) (d :: rest))
                    = false) by (eapply no_key_in_use; [exact Hwf | lia]).
    cbn [assign_ids existsb] in Hfree. rewrite Hfree. eauto.
Qed.

Lemma do_create_drafts_ok ds u w created w' :
  do_create_drafts ds u w = (Ok created, w') ->
  exists vs w1,
    normalize_all ds u w = (Ok vs, w1) /\
    created = assign_ids (draft_seq w) (map (new_draft u) vs) /\
    List.length vs = List.length ds /\
    drafts w' = insert_rows created (drafts w) /\
    draft_seq w' = draft_seq w + Z.of_nat (List.length ds) /\
    users w' = users w.
Proof.
  rewrite do_create_drafts_normalize_all.
  destruct (normalize_all ds u w) as [[vs|e] w1] eqn:Hn; [| discriminate].
  intros Hb. exists vs, w1.
  destruct (bulk_create_ok _ _ _ _ Hb) as (-> & Hd' & Hs' & Hu' & _).
  destruct (normalize_all_calls_only _ _ _ _ _ Hn) as (Hd & Hs & Hu & _).
  assert (Hlen : List.length vs = List.length ds)
    by (symmetry; eapply Forall2_length, normalize_all_each; eauto).
  rewrite Hd', Hs', Hu', Hs, Hd, Hu, length_map, Hlen. by repeat split.
Qed.

(** A create that raises has left both tables as they were. *)
Lemma do_create_drafts_raise ds u w e w' :
  do_create_drafts ds u w = (Raise e, w') ->
  drafts w' = drafts w /\ users w' = users w.
Proof.
  rewrite do_create_drafts_normalize_all.
  destruct (normalize_all ds u w) as [[vs|e0] w1] eqn:Hn;
    destruct (normalize_all_calls_only _ _ _ _ _ Hn) as (Hd & _ & Hu & _).
  - intros Hb. destruct (bulk_create_raise _ _ _ _ Hb) as (Hd' & Hu' & _).
    split; congruence.
  - intros [= <- <-]. by split.
Qed.

Lemma rbind_ok_inv {A B} (r : Result A) (k : A -> Result B) b :
  rbind r k = Ok b -> exists a, r = Ok a /\ k a = Ok b.
Proof. destruct r as [a|e]; simpl; [eauto | discriminate]. Qed.

Lemma draft_dict_validator_schema_valid var_name val d :
  draft_dict_validator var_name val = Ok d -> schema_valid d = true.
Proof.
  unfold draft_dict_validator. destruct val as [| | | | |items|fields]; try discriminate.
  intros H.
  apply rbind_ok_inv in H as (ty & Hty & H).
  apply rbind_ok_inv in H as (to & Hto & H).
  apply rbind_ok_inv in H as (tp & Htp & H).
  apply rbind_ok_inv in H as (ct & Hct & H).
  apply rbind_ok_inv in H as (ts & Hts & H).
  apply rbind_ok_inv in H as (un & Hun & H).
  injection H as <-. unfold schema_valid. cbn [dict_type dict_content].
  apply andb_true_iff. split.
  - unfold required_key in Hty. destruct (dict_get "type" fields); [| discriminate].
    unfold check_string_in in Hty. apply rbind_ok_inv in Hty as (s0 & _ & Hin).
    destruct (existsb (String.eqb s0) VALID_DRAFT_TYPES) eqn:He; [| discriminate].
    by injection Hin as <-.
  - unfold required_key in Hct. destruct (dict_get "content" fields); [| discriminate].
    unfold check_required_string in Hct. apply rbind_ok_inv in Hct as (s0 & _ & Hne).
    destruct (String.eqb s0 "") eqn:He; [discriminate |].
    injection Hne as <-. by rewrite He.
Qed.

Lemma check_items_schema_valid var_name i items ds :
  check_items draft_dict_validator var_name i items = Ok ds ->
  Forall (fun d => schema_valid d = true) ds.
Proof.
  revert i ds. induction items as [|item rest IH]; intros i ds; simpl.
  - intros [= <-]. constructor.
  - intros H. apply rbind_ok_inv in H as (d & Hd & H).
    apply rbind_ok_inv in H as (l & Hl & H). injection H as <-.
    constructor; [eapply draft_dict_validator_schema_valid; eauto | eauto].
Qed.

Lemma check_list_schema_valid var_name val ds :
  check_list draft_dict_validator var_name val = Ok ds ->
  Forall (fun d => schema_valid d = true) ds.
Proof.
  unfold check_list. destruct val; try discriminate. apply check_items_schema_valid.
Qed.

Lemma REQ_ok {A} name (validator : Validator A) request val a w :
  dict_get name (request_vars request) = Some val ->
  validator name val = Ok a ->
  REQ name validator request w = (Ok a, w).
Proof. intros Hg Hv. unfold REQ. by rewrite Hg, Hv. Qed.

Lemma draft_endpoint_enabled {Args} (view_func : View Args) request u args :
  enable_drafts_synchronization u = true ->
  draft_endpoint view_func request u args = view_func request u args.
Proof. intros H. unfold draft_endpoint. by rewrite H. Qed.

Lemma calls_only_keys_below_seq w w' :
  calls_only w w' -> keys_below_seq w -> keys_below_seq w'.
Proof.
  intros (Hd & Hs & _) Hwf k row. rewrite Hd, Hs. apply Hwf.
Qed.

(** Creation keeps the invariant of the keys, and with it every row that was
    in the table. *)
Lemma do_create_drafts_keys_below_seq ds u w created w' :
  keys_below_seq w ->
  do_create_drafts ds u w = (Ok created, w') ->
  keys_below_seq w' /\
  (forall k row, drafts w !! k = Some row -> drafts w' !! k = Some row).
Proof.
  intros Hwf Hc.
  destruct (do_create_drafts_ok _ _ _ _ _ Hc) as (vs & w1 & Hn & -> & Hlen & Hd & Hs & _).
  split.
  - intros k row. rewrite Hd, Hs. intros Hk.
    apply insert_rows_lookup_Some in Hk as [[Hold _]|(i & -> & Hi)].
    + apply Hwf in Hold. lia.
    + apply lookup_lt_Some in Hi. rewrite length_map in Hi. lia.
  - intros k row Hk. rewrite Hd, insert_rows_lookup_old; [exact Hk |].
    left. by eapply Hwf.
Qed.

(** C1. [do_create_drafts] normalizes the payloads in order before it touches
    the Draft table.  If the normalization of a payload fails after that of
    the payloads before it has passed, the error of that payload is raised,
    the tables and the key sequence are as before and no query was issued;
    in a table whose keys all came from the key sequence a batch fails in no
    other way.  If every payload passes, in such a table, the records made of
    the acting user and of the normalized recipient, topic, content and time
    of each payload are inserted by one [bulk_create] (none for an empty
    batch) under consecutive keys, the i-th key holding the record of the i-th
    payload, rows already there keep their place, and the keys are returned in
    that order; the view answers with them. *)
Theorem create_batch_all_or_nothing (ds : list DraftDict) (u : UserProfile) (w : World) :
  (forall pre d post vs w1 e w2,
     ds = (pre ++ d :: post)%list ->
     normalize_all pre u w = (Ok vs, w1) ->
     further_validated_draft_dict d u w1 = (Raise e, w2) ->
     do_create_drafts ds u w = (Raise e, w2) /\ calls_only w w2) /\
  (keys_below_seq w ->
   forall e w2,
     do_create_drafts ds u w = (Raise e, w2) ->
     calls_only w w2 /\
     exists pre d post vs w1,
       ds = (pre ++ d :: post)%list /\
       normalize_all pre u w = (Ok vs, w1) /\
       further_validated_draft_dict d u w1 = (Raise e, w2)) /\
  (keys_below_seq w ->
   forall vs w1,
     normalize_all ds u w = (Ok vs, w1) ->
     exists created w2,
       do_create_drafts ds u w = (Ok created, w2) /\
       Forall2 (fun d v => exists wa wb,
                  further_validated_draft_dict d u wa = (Ok v, wb)) ds vs /\
       map fst created = seqZ (draft_seq w) (Z.of_nat (List.length ds)) /\
       (forall (i : nat) v,
          vs !! i = Some v ->
          created !! i =
            Some (draft_seq w + Z.of_nat i,
                  {| draft_user_profile := user_id u;
                     draft_recipient := recipient v;
                     draft_topic := topic v;
                     draft_content := content v;
                     draft_last_edit_time := last_edit_time v |}) /\
          drafts w2 !! (draft_seq w + Z.of_nat i) =
            Some {| draft_user_profile := user_id u;
                    draft_recipient := recipient v;
                    draft_topic := topic v;
                    draft_content := content v;
                    draft_last_edit_time := last_edit_time v |}) /\
       (forall k row, drafts w !! k = Some row -> drafts w2 !! k = Some row) /\
       (forall k row,
          drafts w2 !! k = Some row ->
          drafts w !! k = Some row \/
          exists i : nat, k = draft_seq w + Z.of_nat i /\ (i < List.length ds)%nat) /\
       calls_only w w1 /\
       trace w2 = (trace w1 ++ match ds with
                               | [] => []
                               | _ :: _ => [QueryDraftBulkCreate (List.length ds)]
                               end)%list /\
       draft_seq w2 = draft_seq w + Z.of_nat (List.length ds) /\
       users w2 = users w /\
       keys_below_seq w2) /\
  (forall request val,
     enable_drafts_synchronization u = true ->
     dict_get "drafts" (request_vars request) = Some val ->
     check_list draft_dict_validator "drafts" val = Ok ds ->
     Forall (fun d => schema_valid d = true) ds /\
     create_drafts request u tt w =
       match do_create_drafts ds u w with
       | (Ok created, w') =>
           (Ok (json_success (JDict [("ids", JList (map JInt (map fst created)))])), w')
       | (Raise e, w') => (Raise e, w')
       end).
Proof.
  split; [| split; [| split]].
  - intros pre d post vs w1 e w2 -> Hpre Hd.
    pose proof (normalize_all_app pre d post u w vs w1 Hpre) as Happ.
    rewrite Hd in Happ. rewrite do_create_drafts_normalize_all, Happ.
    split; [reflexivity |].
    eapply normalize_all_calls_only; exact Happ.
  - intros Hwf e w2. rewrite do_create_drafts_normalize_all.
    destruct (normalize_all ds u w) as [[vs|e0] w1] eqn:Hn.
    + intros Hb. exfalso.
      assert (Hwf1 : keys_below_seq w1)
        by (eapply calls_only_keys_below_seq; [eapply normalize_all_calls_only |]; eauto).
      destruct (bulk_create_free (map (new_draft u) vs) w1 Hwf1) as [w' Hfree].
      congruence.
    + intros [= <- <-]. split; [eapply normalize_all_calls_only; eauto |].
      by apply normalize_all_raise.
  - intros Hwf vs w1 Hn.
    pose proof (normalize_all_calls_only _ _ _ _ _ Hn) as Hco.
    pose proof (normalize_all_each _ _ _ _ _ Hn) as Hall.
    assert (Hwf1 : keys_below_seq w1) by (eapply calls_only_keys_below_seq; eauto).
    destruct (bulk_create_free (map (new_draft u) vs) w1 Hwf1) as [w2 Hb].
    assert (Hc : do_create_drafts ds u w =
                 (Ok (assign_ids (draft_seq w1) (map (new_draft u) vs)), w2))
      by (by rewrite do_create_drafts_normalize_all, Hn).
    destruct (bulk_create_ok _ _ _ _ Hb) as (_ & Hd2 & Hs2 & Hu2 & Ht2).
    destruct (do_create_drafts_keys_below_seq _ _ _ _ _ Hwf Hc) as (Hwf2 & Hkeep).
    destruct Hco as (Hd & Hs & Hu & Hev).
    assert (Hlen : List.length (map (new_draft u) vs) = List.length ds)
      by (rewrite length_map; symmetry; eapply Forall2_length; eauto).
    rewrite Hs in Hc, Hd2, Hs2. rewrite Hd in Hd2. rewrite Hlen in Hs2.
    exists (assign_ids (draft_seq w) (map (new_draft u) vs)), w2.
    split; [exact Hc |]. split; [exact Hall |].
    split; [by rewrite assign_ids_keys, Hlen |].
    split; [| split; [exact Hkeep | split; [| split; [by repeat split |]]]].
    + intros i v Hv.
      assert (Hobj : map (new_draft u) vs !! i = Some (new_draft u v))
        by (by rewrite list_lookup_fmap, Hv).
      split; [by apply assign_ids_lookup |].
      rewrite Hd2. by apply (insert_rows_lookup_new _ _ _ _ _ Hobj).
    + intros k row. rewrite Hd2. intros Hk.
      apply insert_rows_lookup_Some in Hk as [[Hold _]|(i & -> & Hi)]; [by left |].
      right. exists i. split; [done |].
      apply lookup_lt_Some in Hi. by rewrite Hlen in Hi.
    + split; [| by rewrite Hu2, Hu].
      rewrite Ht2. clear Hc Hd2 Hs2. revert Hlen. clear.
      destruct ds, vs; simpl; intros Hlen; try discriminate; [done |].
      by rewrite <- Hlen.
  - intros request val Hen Hget Hval. split; [eapply check_list_schema_valid; eauto |].
    unfold create_drafts. rewrite draft_endpoint_enabled by done.
    unfold create_drafts_view, has_request_variables.
    rewrite (bind_ok _ _ _ _ _ (REQ_ok _ _ _ _ _ w Hget Hval)).
    unfold bind at 1.
    destruct (do_create_drafts ds u w) as [[created|e] w']; reflexivity.
Qed.

Lemma Draft_objects_get_owned draft_id u w row :
  drafts w !! draft_id = Some row ->
  draft_user_profile row = user_id u ->
  Draft_objects_get draft_id u w =
    (Ok (draft_id, row), record (QueryDraftGet draft_id (user_id u)) w).
Proof.
  intros Hrow Hown. unfold Draft_objects_get. run. rewrite Hrow.
  by rewrite (proj2 (Z.eqb_eq _ _) Hown).
Qed.

Lemma Draft_objects_get_not_owned draft_id u w :
  (forall row, drafts w !! draft_id = Some row -> draft_user_profile row <> user_id u) ->
  Draft_objects_get draft_id u w =
    (Raise DoesNotExist, record (QueryDraftGet draft_id (user_id u)) w).
Proof.
  intros Hno. unfold Draft_objects_get. run.
  destruct (drafts w !! draft_id) as [row|] eqn:Hrow; [| reflexivity].
  destruct (Z.eqb_spec (draft_user_profile row) (user_id u)) as [Heq|Hne]; [| reflexivity].
  by destruct (Hno row eq_refl).
Qed.

(** A lookup returns a row only to its owner. *)
Lemma Draft_objects_get_scoped draft_id u w obj w' :
  Draft_objects_get draft_id u w = (Ok obj, w') ->
  fst obj = draft_id /\ drafts w !! draft_id = Some (snd obj) /\
  draft_user_profile (snd obj) = user_id u.
Proof.
  unfold Draft_objects_get. run.
  destruct (drafts w !! draft_id) as [row|] eqn:Hrow; [| discriminate].
  destruct (Z.eqb_spec (draft_user_profile row) (user_id u)) as [Heq|Hne]; [| discriminate].
  by intros [= <- <-].
Qed.

Lemma do_edit_draft_not_owned draft_id d u w :
  (forall row, drafts w !! draft_id = Some row -> draft_user_profile row <> user_id u) ->
  do_edit_draft draft_id d u w =
    (Raise not_found_error, record (QueryDraftGet draft_id (user_id u)) w).
Proof.
  intros Hno. unfold do_edit_draft, bind, try_except.
  by rewrite Draft_objects_get_not_owned.
Qed.

Lemma do_delete_draft_not_owned draft_id u w :
  (forall row, drafts w !! draft_id = Some row -> draft_user_profile row <> user_id u) ->
  do_delete_draft draft_id u w =
    (Raise not_found_error, record (QueryDraftGet draft_id (user_id u)) w).
Proof.
  intros Hno. unfold do_delete_draft, bind, try_except.
  by rewrite Draft_objects_get_not_owned.
Qed.

Lemma do_edit_draft_owned draft_id d u w row :
  drafts w !! draft_id = Some row ->
  draft_user_profile row = user_id u ->
  do_edit_draft draft_id d u w =
    match further_validated_draft_dict d u (record (QueryDraftGet draft_id (user_id u)) w) with
    | (Ok v, w1) =>
        (Ok tt, set_drafts (<[draft_id := snd (overwrite (draft_id, row) v)]>)
                  (record (QueryDraftSave draft_id) w1))
    | (Raise e, w1) => (Raise e, w1)
    end.
Proof.
  intros Hrow Hown. unfold do_edit_draft, bind at 1, try_except.
  rewrite (Draft_objects_get_owned _ _ _ _ Hrow Hown). unfold bind at 1.
  destruct (further_validated_draft_dict d u _) as [[v|e] w1]; reflexivity.
Qed.

Lemma do_edit_draft_keys_below_seq draft_id d u w r w' :
  keys_below_seq w ->
  do_edit_draft draft_id d u w = (r, w') ->
  keys_below_seq w'.
Proof.
  intros Hwf.
  destruct (drafts w !! draft_id) as [row|] eqn:Hrow.
  - destruct (Z.eq_dec (draft_user_profile row) (user_id u)) as [Hown|Hne].
    + rewrite (do_edit_draft_owned _ _ _ _ _ Hrow Hown).
      destruct (further_validated_draft_dict d u _) as [[v|e] w1] eqn:Hn;
        intros [= <- <-];
        apply normalize_calls_only in Hn.
      * intros k r0. cbn [drafts draft_seq set_drafts record].
        destruct Hn as (Hd & Hs & _). rewrite Hd, Hs. cbn [drafts draft_seq record].
        destruct (Z.eq_dec draft_id k) as [<-|Hk].
        -- intros _. by eapply Hwf.
        -- rewrite lookup_insert_ne by done. apply Hwf.
      * eapply calls_only_keys_below_seq; [exact Hn |]. exact Hwf.
    + rewrite do_edit_draft_not_owned; [by intros [= <- <-] |].
      intros r0 Hr0. rewrite Hrow in Hr0. by injection Hr0 as <-.
  - rewrite do_edit_draft_not_owned; [by intros [= <- <-] |].
    intros r0 Hr0. by rewrite Hrow in Hr0.
Qed.

Lemma do_delete_draft_keys_below_seq draft_id u w r w' :
  keys_below_seq w ->
  do_delete_draft draft_id u w = (r, w') ->
  keys_below_seq w'.
Proof.
  intros Hwf. unfold do_delete_draft, bind at 1, try_except.
  destruct (Draft_objects_get draft_id u w) as [[obj|e] w1] eqn:Hg.
  - unfold Draft_objects_get in Hg. revert Hg. run.
    destruct (drafts w !! draft_id) as [row|]; [| discriminate].
    destruct (Z.eqb _ _); [| discriminate].
    intros [= <- <-]. unfold Draft_delete. run. intros [= <- <-].
    intros k r0. cbn [drafts draft_seq set_drafts record fst].
    intros Hk. apply lookup_delete_Some in Hk as (_ & Hk). by eapply Hwf.
  - unfold Draft_objects_get in Hg. revert Hg. run.
    destruct (drafts w !! draft_id) as [row|];
      [destruct (Z.eqb _ _); [discriminate |] |];
      intros [= <- <-]; run; by intros [= <- <-].
Qed.

(** C2. A draft that user A owns is out of reach of any other user B: with
    its id, [do_edit_draft] and [do_delete_draft] of B raise "Draft does not
    exist", whatever the payload, and the views answer 404.  The only query
    made is the lookup by the pair of that id and B; the Draft table, and A's
    row in it, are as before.  Conversely a lookup returns a row only to its
    owner. *)
Theorem other_users_draft_not_found
    (w : World) (draft_id : Z) (row : Draft) (b : UserProfile) (draft_dict : DraftDict) :
  drafts w !! draft_id = Some row ->
  draft_user_profile row <> user_id b ->
  let w' := record (QueryDraftGet draft_id (user_id b)) w in
  do_edit_draft draft_id draft_dict b w = (Raise not_found_error, w') /\
  do_delete_draft draft_id b w = (Raise not_found_error, w') /\
  drafts w' = drafts w /\
  drafts w' !! draft_id = Some row /\
  trace w' = (trace w ++ [QueryDraftGet draft_id (user_id b)])%list /\
  (enable_drafts_synchronization b = true ->
   (forall request,
      delete_draft request b draft_id w = (Ok (json_error "Draft does not exist" 404), w')) /\
   (forall request val,
      dict_get "draft" (request_vars request) = Some val ->
      draft_dict_validator "draft" val = Ok draft_dict ->
      edit_draft request b draft_id w = (Ok (json_error "Draft does not exist" 404), w'))) /\
  (forall id u obj w1,
     Draft_objects_get id u w = (Ok obj, w1) ->
     fst obj = id /\ drafts w !! id = Some (snd obj) /\
     draft_user_profile (snd obj) = user_id u).
Proof.
  intros Hrow Hne w'.
  assert (Hno : forall r, drafts w !! draft_id = Some r -> draft_user_profile r <> user_id b)
    by (intros r Hr; rewrite Hrow in Hr; by injection Hr as <-).
  split; [by apply do_edit_draft_not_owned |].
  split; [by apply do_delete_draft_not_owned |].
  split; [reflexivity |]. split; [exact Hrow |]. split; [reflexivity |].
  split; [| intros; by eapply Draft_objects_get_scoped].
  intros Hen. split.
  - intros request. unfold delete_draft. rewrite draft_endpoint_enabled by done.
    unfold delete_draft_view, try_except, bind.
    by rewrite do_delete_draft_not_owned.
  - intros request val Hget Hval. unfold edit_draft.
    rewrite draft_endpoint_enabled by done.
    unfold edit_draft_view, has_request_variables.
    rewrite (bind_ok _ _ _ _ _ (REQ_ok _ _ _ _ _ w Hget Hval)).
    unfold try_except, bind. by rewrite do_edit_draft_not_owned.
Qed.

(** C3. For a user whose [enable_drafts_synchronization] is false, each of the
    four views raises "User has not enabled drafts syncing." for every
    request, whether or not it carries a valid payload, and leaves the world,
    its trace of queries included, exactly as it was.  Once
    [do_enable_drafts_syncing] has set the flag, each view runs its body. *)
Theorem sync_disabled_blocks_every_view (u : UserProfile) (w : World) :
  enable_drafts_synchronization u = false ->
  (forall request, fetch_drafts request u tt w = (Raise sync_disabled_error, w)) /\
  (forall request, create_drafts request u tt w = (Raise sync_disabled_error, w)) /\
  (forall request draft_id,
     edit_draft request u draft_id w = (Raise sync_disabled_error, w)) /\
  (forall request draft_id,
     delete_draft request u draft_id w = (Raise sync_disabled_error, w)) /\
  (forall row,
     users w !! user_id u = Some row ->
     exists u' w',
       do_enable_drafts_syncing u w = (Ok u', w') /\
       enable_drafts_synchronization u' = true /\
       (forall request wx,
          fetch_drafts request u' tt wx = fetch_drafts_view request u' tt wx /\
          create_drafts request u' tt wx = create_drafts_view request u' tt wx) /\
       (forall request draft_id wx,
          edit_draft request u' draft_id wx = edit_draft_view request u' draft_id wx /\
          delete_draft request u' draft_id wx = delete_draft_view request u' draft_id wx)).
Proof.
  intros Hoff.
  assert (Hgate : forall Args (v : View Args) request args,
            draft_endpoint v request u args w = (Raise sync_disabled_error, w))
    by (intros; unfold draft_endpoint; by rewrite Hoff).
  repeat (split; [intros; apply Hgate |]).
  intros row Hrow. eexists. eexists. split.
  - unfold do_enable_drafts_syncing, UserProfile_save_enable_drafts_synchronization. run.
    rewrite Hrow. reflexivity.
  - split; [reflexivity |].
    split; intros; split;
      unfold fetch_drafts, create_drafts, edit_draft, delete_draft;
      by rewrite draft_endpoint_enabled.
Qed.

(** C9. For a user who has a row in the user table, disabling sync sets the
    flag of that row to false and leaves its other columns and every other
    row as they are, then deletes from the Draft table exactly the rows that
    user owns.  Enabling sync sets the flag to true in the same way and leaves
    the Draft table as it is.  Only the flag is taken from the object passed
    in. *)
Theorem sync_toggle_touches_only_flag_and_own_drafts
    (u row : UserProfile) (w : World) :
  users w !! user_id u = Some row ->
  (exists w',
     do_disable_drafts_syncing u w =
       (Ok (set_enable_drafts_synchronization false u), w') /\
     users w' = <[user_id u := set_enable_drafts_synchronization false row]> (users w) /\
     (exists row',
        users w' !! user_id u = Some row' /\
        enable_drafts_synchronization row' = false /\
        user_id row' = user_id row /\ realm row' = realm row /\
        full_name row' = full_name row) /\
     (forall k, k <> user_id u -> users w' !! k = users w !! k) /\
     (forall id d,
        drafts w' !! id = Some d <->
        drafts w !! id = Some d /\ draft_user_profile d <> user_id u) /\
     draft_seq w' = draft_seq w /\
     trace w' = (trace w ++ [QueryUserSave (user_id u) ["enable_drafts_synchronization"];
                             QueryDraftFilterDelete (user_id u)])%list) /\
  (exists w',
     do_enable_drafts_syncing u w =
       (Ok (set_enable_drafts_synchronization true u), w') /\
     users w' = <[user_id u := set_enable_drafts_synchronization true row]> (users w) /\
     (exists row',
        users w' !! user_id u = Some row' /\
        enable_drafts_synchronization row' = true /\
        user_id row' = user_id row /\ realm row' = realm row /\
        full_name row' = full_name row) /\
     (forall k, k <> user_id u -> users w' !! k = users w !! k) /\
     drafts w' = drafts w /\
     draft_seq w' = draft_seq w /\
     trace w' = (trace w ++ [QueryUserSave (user_id u) ["enable_drafts_synchronization"]])%list).
Proof.
  intros Hrow. split.
  - eexists. split.
    { unfold do_disable_drafts_syncing, UserProfile_save_enable_drafts_synchronization,
        Draft_objects_filter_delete. run. rewrite Hrow. reflexivity. }
    cbn [users drafts draft_seq trace set_users set_drafts record
         set_enable_drafts_synchronization user_id enable_drafts_synchronization].
    split; [reflexivity |].
    split; [eexists; split; [apply lookup_insert_eq | by repeat split] |].
    split; [intros k Hk; by apply lookup_insert_ne |].
    split; [| split; [reflexivity | by rewrite <- app_assoc]].
    intros id d. rewrite map_lookup_filter_Some. cbn [snd]. unfold owned_by.
    split; intros [Hd Ho]; (split; [exact Hd |]).
    + by apply Z.eqb_neq.
    + by apply Z.eqb_neq.
  - eexists. split.
    { unfold do_enable_drafts_syncing, UserProfile_save_enable_drafts_synchronization. run.
      rewrite Hrow. reflexivity. }
    cbn [users drafts draft_seq trace set_users set_drafts record
         set_enable_drafts_synchronization user_id enable_drafts_synchronization].
    split; [reflexivity |].
    split; [eexists; split; [apply lookup_insert_eq | by repeat split] |].
    split; [intros k Hk; by apply lookup_insert_ne |].
    by repeat split.
Qed.

(** An error of normalization leaves [edit_draft] as a 404 with the message
    of that error: the handler of the view catches every [JsonableError]. *)
Lemma edit_draft_validation_error_404 request val d u draft_id row w msg w1 :
  enable_drafts_synchronization u = true ->
  dict_get "draft" (request_vars request) = Some val ->
  draft_dict_validator "draft" val = Ok d ->
  drafts w !! draft_id = Some row ->
  draft_user_profile row = user_id u ->
  further_validated_draft_dict d u (record (QueryDraftGet draft_id (user_id u)) w) =
    (Raise (JsonableError msg), w1) ->
  edit_draft request u draft_id w = (Ok (json_error msg 404), w1).
Proof.
  intros Hen Hget Hval Hrow Hown Hnorm. unfold edit_draft.
  rewrite draft_endpoint_enabled by done.
  unfold edit_draft_view, has_request_variables.
  rewrite (bind_ok _ _ _ _ _ (REQ_ok _ _ _ _ _ w Hget Hval)).
  unfold try_except, bind at 1.
  by rewrite (do_edit_draft_owned _ _ _ _ _ Hrow Hown), Hnorm.
Qed.

End Store.

(** ** The code at concrete inputs *)

Import Demo.

(** The examples of the spec. *)
Example private_without_recipients :
  fst (further_validated_draft_dict (P:=zulip) undirected_draft alice world0) =
    Ok {| recipient := None; topic := ""; content := "hi";
          last_edit_time := {| micros := 1600000000000000 |} |}.
Proof. reflexivity. Qed.

Example stream_with_two_ids :
  fst (further_validated_draft_dict (P:=zulip) two_streams_draft alice world0) =
    Raise stream_count_error.
Proof. reflexivity. Qed.

Example batch_with_blank_content :
  create_drafts (P:=zulip)
    (create_request [payload "" [] "" "first" None; payload "" [] "" "" None])
    alice tt world0 =
  (Raise (JsonableError "drafts[1][content] cannot be blank."), world0).
Proof. reflexivity. Qed.

Example batch_of_two :
  let request := create_request [payload "stream" [5] "lunch" "soup?" (Some (PyInt 12));
                                 payload "private" [2] "" "hi" (Some (PyFloat (25 # 10)))] in
  let out := create_drafts (P:=zulip) request alice tt world0 in
  fst out = Ok (json_success (JDict [("ids", JList [JInt 9; JInt 10])])) /\
  drafts (snd out) !! 10 =
    Some {| draft_user_profile := 1; draft_recipient := Some 102; draft_topic := "";
            draft_content := "hi"; draft_last_edit_time := {| micros := 2500000 |} |}.
Proof. split; reflexivity. Qed.

(** C4, as stated, fails: a stream draft with two ids and a negative timestamp
    is schema-valid, and it is refused for its timestamp, not for the number
    of stream ids. *)
Lemma stream_count_error_counterexample :
  schema_valid two_streams_negative_time = true /\
  dict_type two_streams_negative_time = "stream" /\
  List.length (dict_to two_streams_negative_time) <> 1%nat /\
  fst (further_validated_draft_dict (P:=zulip) two_streams_negative_time alice world0) =
    Raise timestamp_error /\
  fst (further_validated_draft_dict (P:=zulip) two_streams_negative_time alice world0) <>
    Raise stream_count_error.
Proof.
  split; [reflexivity |]. split; [reflexivity |]. split; [simpl; lia |].
  split; [reflexivity | discriminate].
Qed.

Lemma stream_without_single_id_rejected_witness :
  dict_type two_streams_draft = "stream" /\
  List.length (dict_to two_streams_draft) <> 1%nat /\
  further_validated_draft_dict (P:=zulip) two_streams_draft alice world0 =
    (Raise stream_count_error, tick (record CallTime world0)).
Proof.
  split; [reflexivity |]. split; [simpl; lia |].
  apply (stream_without_single_id_rejected (P:=zulip) two_streams_draft alice world0);
    [reflexivity | simpl; lia].
Defined.

Lemma content_truncated_before_null_check_witness :
  has_null (dict_content null_after_cut) = true /\
  truncate_body (Platform:=tiny) (dict_content null_after_cut) = "abcd" /\
  further_validated_draft_dict (P:=tiny) null_after_cut alice world0 =
    (Ok {| recipient := None; topic := ""; content := "abcd";
           last_edit_time := {| micros := 3000000 |} |},
     tick (record CallTime world0)) /\
  fst (further_validated_draft_dict (P:=tiny) stream_after_cut alice world0) =
    Ok {| recipient := Some 105; topic := "lun"; content := "abcd";
          last_edit_time := {| micros := 3000000 |} |} /\
  has_null (truncate_body (Platform:=tiny) (dict_content null_before_cut)) = true /\
  further_validated_draft_dict (P:=tiny) null_before_cut alice world0 =
    (Raise content_error, world0).
Proof.
  split; [reflexivity |]. split; [reflexivity |].
  destruct (content_truncated_before_null_check (P:=tiny) null_after_cut alice world0)
    as (_ & _ & Hcut).
  destruct (content_truncated_before_null_check (P:=tiny) stream_after_cut alice world0)
    as (_ & _ & Hstream).
  destruct (content_truncated_before_null_check (P:=tiny) null_before_cut alice world0)
    as (Hnull & _).
  split; [| split; [| split]].
  - rewrite (Hcut "abcd" (nul ++ "z") eq_refl eq_refl eq_refl). reflexivity.
  - rewrite (Hstream "abcd" (nul ++ "z") eq_refl eq_refl eq_refl). reflexivity.
  - reflexivity.
  - apply Hnull; reflexivity.
Defined.

(** C6, as stated, fails: the timestamp of this draft is an int, so rounding
    leaves it as it is, and it is not negative; normalization still ends in an
    error, the one of the conversion into a datetime, and nothing is
    accepted. *)
Lemma timestamp_without_upper_bound_counterexample :
  schema_valid year_10000_draft = true /\
  has_null (truncate_body (Platform:=zulip) (dict_content year_10000_draft)) = false /\
  derived_timestamp (P:=zulip) year_10000_draft world0 = PyInt 253402300800 /\
  (0 <= number_to_Q (derived_timestamp (P:=zulip) year_10000_draft world0))%Q /\
  further_validated_draft_dict (P:=zulip) year_10000_draft alice world0 =
    (Raise (ValueError "year is out of range"), tick (record CallTime world0)) /\
  fst (further_validated_draft_dict (P:=zulip) year_10000_draft alice world0) <>
    Raise timestamp_error /\
  (forall r, fst (further_validated_draft_dict (P:=zulip) year_10000_draft alice world0) <>
             Ok r).
Proof.
  split; [reflexivity |]. split; [reflexivity |]. split; [reflexivity |].
  split; [apply Qle_bool_iff; reflexivity |]. split; [reflexivity |].
  split; [discriminate | intros r; discriminate].
Qed.

Lemma timestamp_rounded_then_negative_rejected_witness :
  has_null (truncate_body (Platform:=zulip) (dict_content half_microsecond_before_epoch)) = false /\
  fst (further_validated_draft_dict (P:=zulip) half_microsecond_before_epoch alice world0) =
    Ok {| recipient := None; topic := ""; content := "hi";
          last_edit_time := {| micros := 0 |} |} /\
  further_validated_draft_dict (P:=zulip) negative_time_draft alice world0 =
    (Raise timestamp_error, tick (record CallTime world0)) /\
  further_validated_draft_dict (P:=zulip) year_10000_stream_draft alice world0 =
    (Raise (ValueError "year is out of range"), tick (record CallTime world0)) /\
  fst (further_validated_draft_dict (P:=zulip) stream_draft alice world0) =
    Ok {| recipient := Some 105; topic := "lunch"; content := "soup?";
          last_edit_time := {| micros := 12000000 |} |}.
Proof.
  split; [reflexivity |].
  destruct (timestamp_rounded_then_negative_rejected (P:=zulip)
              half_microsecond_before_epoch alice world0 eq_refl)
    as (_ & _ & _ & Hzero).
  destruct (timestamp_rounded_then_negative_rejected (P:=zulip)
              negative_time_draft alice world0 eq_refl)
    as (_ & _ & Hneg & _).
  destruct (timestamp_rounded_then_negative_rejected (P:=zulip)
              year_10000_stream_draft alice world0 eq_refl)
    as (_ & _ & _ & Hfar).
  destruct (timestamp_rounded_then_negative_rejected (P:=zulip)
              stream_draft alice world0 eq_refl)
    as (_ & _ & _ & Hstream).
  split; [| split; [| split]].
  - destruct Hzero as (_ & _ & Hacc); [apply Qle_bool_iff; reflexivity |].
    rewrite (Hacc {| micros := 0 |} eq_refl); [reflexivity | left; reflexivity].
  - apply Hneg. apply Qlt_alt. reflexivity.
  - destruct Hfar as (Hraise & _); [apply Qle_bool_iff; reflexivity |].
    apply Hraise. reflexivity.
  - destruct Hstream as (_ & Hres & _); [apply Qle_bool_iff; reflexivity |].
    rewrite (Hres {| micros := 12000000 |} eq_refl). reflexivity.
Defined.

Lemma undirected_draft_not_resolved_witness :
  (dict_type undirected_draft = "" \/
   (dict_type undirected_draft = "private" /\ dict_to undirected_draft = [])) /\
  further_validated_draft_dict (P:=zulip) undirected_draft alice world0 =
    (Ok {| recipient := None; topic := ""; content := "hi";
           last_edit_time := {| micros := 1600000000000000 |} |},
     tick (record CallTime world0)).
Proof.
  assert (H : dict_type undirected_draft = "" \/
              (dict_type undirected_draft = "private" /\ dict_to undirected_draft = []))
    by (right; split; reflexivity).
  split; [exact H |].
  destruct (undirected_draft_not_resolved (P:=zulip) undirected_draft alice world0 H)
    as (Heq & _).
  rewrite Heq. reflexivity.
Defined.

Lemma topic_rules_only_for_stream_witness :
  (dict_type undirected_draft = "private" \/ dict_type undirected_draft = "") /\
  has_null null_topic = true /\
  further_validated_draft_dict (P:=tiny) (with_topic null_topic undirected_draft) alice world0 =
    (Ok {| recipient := None; topic := ""; content := "hi";
           last_edit_time := {| micros := 1600000000000000 |} |},
     tick (record CallTime world0)) /\
  further_validated_draft_dict (P:=tiny)
      (payload "stream" [5] null_topic "hi" None) alice world0 =
    (Raise topic_error, tick (record CallTime world0)).
Proof.
  assert (H : dict_type undirected_draft = "private" \/ dict_type undirected_draft = "")
    by (left; reflexivity).
  split; [exact H |]. split; [reflexivity |].
  destruct (topic_rules_only_for_stream (P:=tiny) undirected_draft alice world0)
    as (Hany & _).
  destruct (topic_rules_only_for_stream (P:=tiny)
              (payload "stream" [5] null_topic "hi" None) alice world0)
    as (_ & Hstream).
  split.
  - destruct (Hany H) as (Hsame & _). rewrite Hsame. reflexivity.
  - destruct (Hstream eq_refl) as (Hnull & _).
    apply (Hnull {| micros := 1600000000000000 |}); reflexivity.
Defined.

Lemma world0_keys_below_seq : keys_below_seq world0.
Proof.
  intros k row Hk. unfold world0 in Hk. cbn [drafts] in Hk.
  destruct (decide (k = 7)) as [-> | H7]; [cbn; lia |].
  destruct (decide (k = 8)) as [-> | H8]; [cbn; lia |].
  rewrite lookup_insert_ne in Hk by congruence.
  rewrite lookup_insert_ne in Hk by congruence.
  by rewrite lookup_empty in Hk.
Qed.

Lemma create_batch_all_or_nothing_witness :
  (fst (do_create_drafts (P:=zulip) failing_batch alice world0) = Raise stream_count_error /\
   drafts (snd (do_create_drafts (P:=zulip) failing_batch alice world0)) = drafts world0) /\
  keys_below_seq world0 /\
  (exists created w2,
     do_create_drafts (P:=zulip) passing_batch alice world0 = (Ok created, w2) /\
     created =
       [(9, {| draft_user_profile := 1; draft_recipient := None; draft_topic := "";
               draft_content := "hi";
               draft_last_edit_time := {| micros := 1600000000000000 |} |});
        (10, {| draft_user_profile := 1; draft_recipient := Some 105;
                draft_topic := "lunch"; draft_content := "soup?";
                draft_last_edit_time := {| micros := 12000000 |} |})] /\
     drafts w2 !! 10 =
       Some {| draft_user_profile := 1; draft_recipient := Some 105;
               draft_topic := "lunch"; draft_content := "soup?";
               draft_last_edit_time := {| micros := 12000000 |} |} /\
     drafts w2 !! 7 = Some alices_draft /\
     fst (create_drafts (P:=zulip) (create_request passing_batch) alice tt world0) =
       Ok (json_success (JDict [("ids", JList [JInt 9; JInt 10])]))).
Proof.
  split; [| split; [exact world0_keys_below_seq |]].
  - destruct (create_batch_all_or_nothing (P:=zulip) failing_batch alice world0)
      as (Hfail & _).
    edestruct (Hfail [undirected_draft] two_streams_draft [negative_time_draft])
      as (Hrun & Hco); [reflexivity | reflexivity | reflexivity |].
    rewrite Hrun. split; [reflexivity | apply Hco].
  - destruct (create_batch_all_or_nothing (P:=zulip) passing_batch alice world0)
      as (_ & _ & Hok & Hview).
    destruct (Hok world0_keys_below_seq
                [ {| recipient := None; topic := ""; content := "hi";
                     last_edit_time := {| micros := 1600000000000000 |} |};
                  {| recipient := Some 105; topic := "lunch"; content := "soup?";
                     last_edit_time := {| micros := 12000000 |} |} ]
                (snd (normalize_all (P:=zulip) passing_batch alice world0)) eq_refl)
      as (created & w2 & Hrun & _ & _ & Hrows & Hkept & _).
    destruct (Hrows 0%nat _ eq_refl) as (Hc0 & _).
    destruct (Hrows 1%nat _ eq_refl) as (Hc1 & Hd1).
    assert (Hlen : List.length created = 2%nat).
    { destruct (Hok world0_keys_below_seq _ _ eq_refl)
        as (created' & w2' & Hrun' & _ & Hkeys & _).
      rewrite Hrun in Hrun'. injection Hrun' as <- <-.
      by rewrite <- (length_map fst), Hkeys. }
    destruct created as [|c0 [|c1 [|c2 rest]]]; try discriminate Hlen.
    injection Hc0 as ->. injection Hc1 as ->.
    eexists. exists w2. split; [exact Hrun |]. split; [reflexivity |].
    split; [exact Hd1 |]. split; [by apply Hkept |].
    destruct (Hview (create_request passing_batch)
                (JList (map json_of_payload passing_batch)) eq_refl eq_refl eq_refl)
      as (_ & Hv).
      rewrite Hv, Hrun. reflexivity.
Defined.

Lemma other_users_draft_not_found_witness :
  drafts world0 !! 7 = Some alices_draft /\
  draft_user_profile alices_draft <> user_id bob /\
  do_edit_draft (P:=zulip) 7 undirected_draft bob world0 =
    (Raise not_found_error, record (QueryDraftGet 7 2) world0) /\
  do_delete_draft 7 bob world0 =
    (Raise not_found_error, record (QueryDraftGet 7 2) world0) /\
  edit_draft (P:=zulip) (edit_request undirected_draft) bob 7 world0 =
    (Ok (json_error "Draft does not exist" 404), record (QueryDraftGet 7 2) world0).
Proof.
  assert (Hne : draft_user_profile alices_draft <> user_id bob) by (simpl; lia).
  split; [reflexivity |]. split; [exact Hne |].
  destruct (other_users_draft_not_found (P:=zulip) world0 7 alices_draft bob
              undirected_draft eq_refl Hne)
    as (Hedit & Hdelete & _ & _ & _ & Hviews & _).
  split; [exact Hedit |]. split; [exact Hdelete |].
  destruct (Hviews eq_refl) as (_ & Hv).
  apply (Hv (edit_request undirected_draft) (json_of_payload undirected_draft));
    reflexivity.
Defined.

Lemma sync_disabled_blocks_every_view_witness :
  enable_drafts_synchronization disabled_alice = false /\
  fetch_drafts (P:=zulip) empty_request disabled_alice tt world0 =
    (Raise sync_disabled_error, world0) /\
  create_drafts (P:=zulip) empty_request disabled_alice tt world0 =
    (Raise sync_disabled_error, world0) /\
  edit_draft (P:=zulip) (edit_request undirected_draft) disabled_alice 7 world0 =
    (Raise sync_disabled_error, world0) /\
  delete_draft empty_request disabled_alice 7 world0 =
    (Raise sync_disabled_error, world0).
Proof.
  split; [reflexivity |].
  destruct (sync_disabled_blocks_every_view (P:=zulip) disabled_alice world0 eq_refl)
    as (Hfetch & Hcreate & Hedit & Hdelete & _).
  split; [apply Hfetch |]. split; [apply Hcreate |].
  split; [apply Hedit | apply Hdelete].
Defined.

Lemma sync_toggle_touches_only_flag_and_own_drafts_witness :
  users world0 !! user_id renamed_alice = Some alice /\
  exists w',
    do_disable_drafts_syncing renamed_alice world0 =
      (Ok (set_enable_drafts_synchronization false renamed_alice), w') /\
    users w' !! 1 = Some disabled_alice /\
    users w' !! 2 = Some bob /\
    drafts w' !! 8 = Some bobs_draft /\
    drafts w' !! 7 = None.
Proof.
  split; [reflexivity |].
  destruct (sync_toggle_touches_only_flag_and_own_drafts
              renamed_alice alice world0 eq_refl)
    as ((w' & Hrun & Husers & _ & Hother & Hdrafts & _) & _).
  exists w'. split; [exact Hrun |].
  split; [rewrite Husers; reflexivity |].
  split; [rewrite Hother; [reflexivity | simpl; lia] |].
  split.
  - apply Hdrafts. split; [reflexivity | simpl; lia].
  - destruct (drafts w' !! 7) as [d|] eqn:Hd; [| reflexivity].
    apply Hdrafts in Hd. destruct Hd as (Hd & Hown).
    injection Hd as <-. destruct Hown. reflexivity.
Defined.

(** C8. The failing input: a user edits a draft of their own with a payload
    whose timestamp is negative.  The view answers with status 404 and the
    message of the validation error, which is the status it gives when the
    draft does not exist; the same payload sent to the create view is not
    answered as not found, the error is raised as it is.  The draft is left as
    it was. *)
Theorem edit_draft_validation_failure_answers_404 :
  draft_dict_validator "draft" (json_of_payload negative_time_draft) =
    Ok negative_time_draft /\
  drafts world0 !! 7 = Some alices_draft /\
  draft_user_profile alices_draft = user_id alice /\
  fst (do_edit_draft (P:=zulip) 7 negative_time_draft alice world0) =
    Raise timestamp_error /\
  fst (edit_draft (P:=zulip) (edit_request negative_time_draft) alice 7 world0) =
    Ok (json_error "Timestamp must not be negative." 404) /\
  fst (edit_draft (P:=zulip) (edit_request negative_time_draft) alice 8 world0) =
    Ok (json_error "Draft does not exist" 404) /\
  fst (create_drafts (P:=zulip) (create_request [negative_time_draft]) alice tt world0) =
    Raise timestamp_error /\
  drafts (snd (edit_draft (P:=zulip) (edit_request negative_time_draft) alice 7 world0)) =
    drafts world0.
Proof. repeat split; reflexivity. Qed.

(** ** Further properties of the operations *)




Section Operations.

Context `{P : Platform}.


Lemma normalize_no_null d u w r w' :
  further_validated_draft_dict d u w = (Ok r, w') ->
  has_null (content r) = false /\ has_null (topic r) = false.
Proof.
  destruct (has_null (truncate_body (dict_content d))) eqn:Hc.
  - rewrite normalize_content_null by done. discriminate.
  - destruct (number_ltb (derived_timestamp d w) (PyInt 0)) eqn:Ht.
    + rewrite normalize_timestamp_negative by done. discriminate.
    + rewrite normalize_resolves by done.
      destruct (timestamp_to_datetime _) as [t|e]; [| discriminate].
      destruct (topic_and_recipient d u _) as [[res|e] w1] eqn:Hr; [| discriminate].
      intros [= <- <-]. cbn [finish content topic]. split; [exact Hc |].
      rewrite (topic_and_recipient_topic _ _ _ _ _ Hr).
      destruct (String.eqb (dict_type d) "stream") eqn:Hty; [| reflexivity].
      revert Hr. unfold topic_and_recipient. rewrite Hty.
      destruct (has_null (truncate_topic (dict_topic d))); [run; discriminate | done].
Qed.

Lemma do_delete_draft_owned draft_id u w row :
  drafts w !! draft_id = Some row ->
  draft_user_profile row = user_id u ->
  do_delete_draft draft_id u w =
    (Ok tt, set_drafts (delete draft_id)
              (record (QueryDraftDelete draft_id)
                 (record (QueryDraftGet draft_id (user_id u)) w))).
Proof.
  intros Hrow Hown. unfold do_delete_draft, bind at 1, try_except.
  by rewrite (Draft_objects_get_owned _ _ _ _ Hrow Hown).
Qed.

Lemma not_owned_cases draft_id u w :
  (exists row, drafts w !! draft_id = Some row /\ draft_user_profile row = user_id u) \/
  (forall row, drafts w !! draft_id = Some row -> draft_user_profile row <> user_id u).
Proof.
  destruct (drafts w !! draft_id) as [row|]; [| by right].
  destruct (Z.eq_dec (draft_user_profile row) (user_id u)) as [Heq|Hne].
  - left. eauto.
  - right. by intros r [= <-].
Qed.

Lemma others_untouched_same_table u w w' :
  drafts w' = drafts w -> others_untouched u w w'.
Proof. intros H id row _. by rewrite H. Qed.

(** X2. A successful edit writes the recipient, topic, content and last edit
    time of the normalized payload into the draft and keeps its owner; every
    other draft, the key sequence and the user table are as before, and the
    only write is one save of that draft. *)
Theorem edit_overwrites_exactly_four_fields
    (draft_id : Z) (d : DraftDict) (u : UserProfile) (w : World)
    (row : Draft) (v : ValidDraftDict) (w1 : World) :
  drafts w !! draft_id = Some row ->
  draft_user_profile row = user_id u ->
  further_validated_draft_dict d u (record (QueryDraftGet draft_id (user_id u)) w) =
    (Ok v, w1) ->
  exists w2,
    do_edit_draft draft_id d u w = (Ok tt, w2) /\
    drafts w2 !! draft_id =
      Some {| draft_user_profile := draft_user_profile row;
              draft_recipient := recipient v;
              draft_topic := topic v;
              draft_content := content v;
              draft_last_edit_time := last_edit_time v |} /\
    content v = truncate_body (dict_content d) /\
    (forall k, k <> draft_id -> drafts w2 !! k = drafts w !! k) /\
    dom (drafts w2) = dom (drafts w) /\
    draft_seq w2 = draft_seq w /\ users w2 = users w /\
    trace w2 = (trace w1 ++ [QueryDraftSave draft_id])%list.
Proof.
  intros Hrow Hown Hn. eexists.
  rewrite (do_edit_draft_owned _ _ _ _ _ Hrow Hown), Hn.
  destruct (normalize_calls_only _ _ _ _ _ Hn) as (Hd & Hs & Hu & _).
  destruct (normalize_content _ _ _ _ _ Hn) as (Hc & _).
  split; [reflexivity |].
  cbn [drafts draft_seq users trace set_drafts record overwrite fst snd] in *.
  split; [by rewrite lookup_insert_eq |].
  split; [exact Hc |].
  split; [intros k Hk; by rewrite lookup_insert_ne, Hd |].
  split; [| by repeat split].
  rewrite dom_insert_L, Hd.
  apply subseteq_union_1_L, singleton_subseteq_l, elem_of_dom. eauto.
Qed.

(** X3. When the payload of an edit fails normalization, the error of the
    normalization is raised as it is and the draft that was looked up, like
    the rest of the Draft table, stays as it was: nothing is saved. *)
Theorem edit_with_invalid_payload_changes_nothing
    (draft_id : Z) (d : DraftDict) (u : UserProfile) (w : World)
    (row : Draft) (e : exn) (w1 : World) :
  drafts w !! draft_id = Some row ->
  draft_user_profile row = user_id u ->
  further_validated_draft_dict d u (record (QueryDraftGet draft_id (user_id u)) w) =
    (Raise e, w1) ->
  do_edit_draft draft_id d u w = (Raise e, w1) /\
  drafts w1 = drafts w /\
  drafts w1 !! draft_id = Some row /\
  draft_seq w1 = draft_seq w /\ users w1 = users w /\
  exists evs,
    trace w1 = (trace w ++ QueryDraftGet draft_id (user_id u) :: evs)%list /\
    Forall (fun ev => is_query ev = false) evs.
Proof.
  intros Hrow Hown Hn.
  rewrite (do_edit_draft_owned _ _ _ _ _ Hrow Hown), Hn.
  destruct (normalize_calls_only _ _ _ _ _ Hn) as (Hd & Hs & Hu & evs & Ht & Hev).
  cbn [drafts draft_seq users trace record] in *.
  split; [reflexivity |]. split; [exact Hd |]. split; [by rewrite Hd |].
  split; [exact Hs |]. split; [exact Hu |].
  exists evs. split; [| exact Hev]. by rewrite Ht, <- app_assoc.
Qed.

(** X4. Deleting a draft of one's own removes that row and no other.
    Afterwards the id is gone for its former owner too: a second delete and an
    edit of it raise "Draft does not exist".  An id that is not in the table
    raises the same error and the view answers 404, with the table as it
    was. *)
Theorem delete_removes_exactly_that_draft (draft_id : Z) (u : UserProfile) (w : World) :
  (forall row,
     drafts w !! draft_id = Some row ->
     draft_user_profile row = user_id u ->
     exists w',
       do_delete_draft draft_id u w = (Ok tt, w') /\
       drafts w' = delete draft_id (drafts w) /\
       (forall k, k <> draft_id -> drafts w' !! k = drafts w !! k) /\
       draft_seq w' = draft_seq w /\ users w' = users w /\
       fst (do_delete_draft draft_id u w') = Raise not_found_error /\
       (forall d, fst (do_edit_draft draft_id d u w') = Raise not_found_error) /\
       (enable_drafts_synchronization u = true ->
        forall request,
          delete_draft request u draft_id w = (Ok (json_success (JDict [])), w'))) /\
  (drafts w !! draft_id = None ->
   do_delete_draft draft_id u w =
     (Raise not_found_error, record (QueryDraftGet draft_id (user_id u)) w) /\
   (enable_drafts_synchronization u = true ->
    forall request,
      delete_draft request u draft_id w =
        (Ok (json_error "Draft does not exist" 404),
         record (QueryDraftGet draft_id (user_id u)) w))).
Proof.
  split.
  - intros row Hrow Hown. eexists.
    split; [by apply (do_delete_draft_owned _ _ _ _ Hrow Hown) |].
    cbn [drafts draft_seq users set_drafts record].
    split; [reflexivity |].
    split; [intros k Hk; by rewrite lookup_delete_ne |].
    split; [reflexivity |]. split; [reflexivity |].
    assert (Hgone : forall r,
              delete draft_id (drafts w) !! draft_id = Some r ->
              draft_user_profile r <> user_id u)
      by (intros r Hr; by rewrite lookup_delete_eq in Hr).
    split; [by rewrite do_delete_draft_not_owned |].
    split; [intros d; by rewrite do_edit_draft_not_owned |].
    intros Hen request. unfold delete_draft. rewrite draft_endpoint_enabled by done.
    unfold delete_draft_view, try_except, bind.
    by rewrite (do_delete_draft_owned _ _ _ _ Hrow Hown).
  - intros Hnone.
    assert (Hno : forall r, drafts w !! draft_id = Some r -> draft_user_profile r <> user_id u)
      by (intros r Hr; by rewrite Hnone in Hr).
    split; [by apply do_delete_draft_not_owned |].
    intros Hen request. unfold delete_draft. rewrite draft_endpoint_enabled by done.
    unfold delete_draft_view, try_except, bind.
    by rewrite do_delete_draft_not_owned.
Qed.

Lemma lookup_delete_all (ks : list Z) (m : gmap Z Draft) k :
  foldr delete m ks !! k = if decide (k ∈ ks) then None else m !! k.
Proof.
  induction ks as [|k0 ks IH]; cbn [foldr].
  - destruct (decide (k ∈ [])) as [Hin|_]; [| done]. by apply elem_of_nil in Hin.
  - destruct (decide (k0 = k)) as [->|Hne].
    + rewrite lookup_delete_eq.
      destruct (decide (k ∈ k :: ks)) as [_|Hout]; [done |].
      destruct Hout. apply list_elem_of_here.
    + rewrite lookup_delete_ne by done. rewrite IH.
      destruct (decide (k ∈ ks)) as [Hin|Hout];
        destruct (decide (k ∈ k0 :: ks)) as [Hin'|Hout']; try done.
      * destruct Hout'. by apply list_elem_of_further.
      * apply elem_of_cons in Hin' as [->|Hin']; [done | by destruct Hout].
Qed.

(** X5. Create and delete undo each other.  In a table whose keys all came
    from the key sequence, every id a successful create returns belongs to the
    acting user, who can delete it, and once the returned ids are deleted the
    Draft table is the one from before the create. *)
Theorem create_then_delete_restores_table
    (ds : list DraftDict) (u : UserProfile) (w : World)
    (created : list (Z * Draft)) (w1 : World) :
  keys_below_seq w ->
  do_create_drafts ds u w = (Ok created, w1) ->
  (forall id row,
     (id, row) ∈ created ->
     drafts w1 !! id = Some row /\
     do_delete_draft id u w1 =
       (Ok tt, set_drafts (delete id)
                 (record (QueryDraftDelete id)
                    (record (QueryDraftGet id (user_id u)) w1)))) /\
  foldr delete (drafts w1) (map fst created) = drafts w.
Proof.
  intros Hwf Hc.
  destruct (do_create_drafts_ok _ _ _ _ _ Hc) as (vs & w0 & Hn & -> & Hlen & Hd & Hs & Hu).
  split.
  - intros id row Hin. apply list_elem_of_lookup in Hin as [i Hi].
    assert (Hobj : exists d, map (new_draft u) vs !! i = Some d).
    { apply lookup_lt_is_Some. apply lookup_lt_Some in Hi.
      by rewrite assign_ids_length in Hi. }
    destruct Hobj as [d Hobj].
    rewrite (assign_ids_lookup _ _ _ _ Hobj) in Hi. injection Hi as <- <-.
    assert (Hrow : drafts w1 !! (draft_seq w + Z.of_nat i) = Some d)
      by (rewrite Hd; by apply insert_rows_lookup_new).
    split; [exact Hrow |].
    apply (do_delete_draft_owned _ _ _ _ Hrow).
    rewrite list_lookup_fmap in Hobj. destruct (vs !! i); [| discriminate].
    by injection Hobj as <-.
  - apply map_eq. intros k. rewrite lookup_delete_all, Hd, assign_ids_keys.
    rewrite length_map.
    destruct (decide (k ∈ seqZ (draft_seq w) (Z.of_nat (List.length vs)))) as [Hin|Hout].
    + apply elem_of_seqZ in Hin.
      destruct (drafts w !! k) as [row|] eqn:Hk; [| done].
      apply Hwf in Hk. lia.
    + rewrite elem_of_seqZ in Hout.
      apply insert_rows_lookup_old. rewrite length_map. lia.
Qed.

(** X6. Nothing a user does through these operations reaches the drafts of
    anyone else: after a create (in a table whose keys came from the key
    sequence), an edit, a delete, a disable or an enable by a user, whether it
    succeeded or raised, the rows owned by other users are exactly the rows
    they owned before. *)
Theorem operations_leave_other_users_drafts (u : UserProfile) (w : World) :
  (forall ds r w',
     keys_below_seq w ->
     do_create_drafts ds u w = (r, w') -> others_untouched u w w') /\
  (forall draft_id d r w',
     do_edit_draft draft_id d u w = (r, w') -> others_untouched u w w') /\
  (forall draft_id r w',
     do_delete_draft draft_id u w = (r, w') -> others_untouched u w w') /\
  (forall r w',
     do_disable_drafts_syncing u w = (r, w') -> others_untouched u w w') /\
  (forall r w',
     do_enable_drafts_syncing u w = (r, w') -> others_untouched u w w').
Proof.
  split; [| split; [| split; [| split]]].
  - intros ds [created|e] w' Hwf Hc.
    + destruct (do_create_drafts_ok _ _ _ _ _ Hc) as (vs & w0 & Hn & -> & Hlen & Hd & _).
      intros id row Hne. rewrite Hd. split.
      * intros Hk. apply insert_rows_lookup_Some in Hk as [[Hold _]|(i & -> & Hi)]; [done |].
        rewrite list_lookup_fmap in Hi. destruct (vs !! i); [| discriminate].
        injection Hi as <-. by destruct Hne.
      * intros Hk. rewrite insert_rows_lookup_old; [done |]. left. by eapply Hwf.
    + apply others_untouched_same_table.
      by destruct (do_create_drafts_raise _ _ _ _ _ Hc).
  - intros draft_id d r w'.
    destruct (not_owned_cases draft_id u w) as [(row & Hrow & Hown)|Hno].
    + rewrite (do_edit_draft_owned _ _ _ _ _ Hrow Hown).
      destruct (further_validated_draft_dict d u _) as [[v|e] w1] eqn:Hn;
        intros [= <- <-]; destruct (normalize_calls_only _ _ _ _ _ Hn) as (Hd & _);
        cbn [drafts record] in Hd.
      * intros id r0 Hne. cbn [drafts set_drafts record overwrite fst snd]. rewrite Hd.
        destruct (Z.eq_dec draft_id id) as [<-|Hk].
        -- rewrite lookup_insert_eq, Hrow. split; intros [= <-]; by destruct Hne.
        -- by rewrite lookup_insert_ne.
      * by apply others_untouched_same_table.
    + rewrite do_edit_draft_not_owned by done. intros [= <- <-].
      by apply others_untouched_same_table.
  - intros draft_id r w'.
    destruct (not_owned_cases draft_id u w) as [(row & Hrow & Hown)|Hno].
    + rewrite (do_delete_draft_owned _ _ _ _ Hrow Hown). intros [= <- <-].
      intros id r0 Hne. cbn [drafts set_drafts record].
      destruct (Z.eq_dec draft_id id) as [<-|Hk].
      * rewrite lookup_delete_eq, Hrow. split; [discriminate |].
        intros [= <-]. by destruct Hne.
      * by rewrite lookup_delete_ne.
    + rewrite do_delete_draft_not_owned by done. intros [= <- <-].
      by apply others_untouched_same_table.
  - intros r w'. unfold do_disable_drafts_syncing,
      UserProfile_save_enable_drafts_synchronization, Draft_objects_filter_delete. run.
    destruct (users w !! user_id u) as [row|]; intros [= <- <-];
      [| by apply others_untouched_same_table].
    intros id r0 Hne. cbn [drafts set_drafts set_users record].
    rewrite map_lookup_filter_Some. cbn [snd]. unfold owned_by.
    split; [tauto |]. intros Hk. split; [done |]. by apply Z.eqb_neq.
  - intros r w'. unfold do_enable_drafts_syncing,
      UserProfile_save_enable_drafts_synchronization. run.
    destruct (users w !! user_id u) as [row|]; intros [= <- <-];
      by apply others_untouched_same_table.
Qed.

Lemma normalize_all_no_null ds u w vs w1 (i : nat) v :
  normalize_all ds u w = (Ok vs, w1) ->
  vs !! i = Some v ->
  has_null (content v) = false /\ has_null (topic v) = false.
Proof.
  intros Hn Hv. apply normalize_all_each in Hn.
  destruct (Forall2_lookup_r _ _ _ _ _ Hn Hv) as (d & _ & wa & wb & Hd).
  by eapply normalize_no_null.
Qed.

(** X7. Null bytes never reach the Draft table.  If no stored draft has a
    null byte in its content or topic, that is still so after a create, an
    edit, a delete, a disable or an enable, whatever the payloads were and
    whether the operation succeeded or raised. *)
Theorem operations_keep_table_free_of_null_bytes (u : UserProfile) (w : World) :
  no_null_bytes w ->
  (forall ds r w', do_create_drafts ds u w = (r, w') -> no_null_bytes w') /\
  (forall draft_id d r w', do_edit_draft draft_id d u w = (r, w') -> no_null_bytes w') /\
  (forall draft_id r w', do_delete_draft draft_id u w = (r, w') -> no_null_bytes w') /\
  (forall r w', do_disable_drafts_syncing u w = (r, w') -> no_null_bytes w') /\
  (forall r w', do_enable_drafts_syncing u w = (r, w') -> no_null_bytes w').
Proof.
  intros Hclean.
  assert (Hsame : forall w', drafts w' = drafts w -> no_null_bytes w')
    by (intros w' Hd id row; rewrite Hd; apply Hclean).
  split; [| split; [| split; [| split]]].
  - intros ds [created|e] w' Hc.
    + destruct (do_create_drafts_ok _ _ _ _ _ Hc) as (vs & w0 & Hn & -> & Hlen & Hd & _).
      intros id row. rewrite Hd. intros Hk.
      apply insert_rows_lookup_Some in Hk as [[Hold _]|(i & -> & Hi)];
        [by eapply Hclean |].
      rewrite list_lookup_fmap in Hi. destruct (vs !! i) as [v|] eqn:Hv; [| discriminate].
      injection Hi as <-. cbn [new_draft draft_content draft_topic].
      by eapply normalize_all_no_null.
    + apply Hsame. by destruct (do_create_drafts_raise _ _ _ _ _ Hc).
  - intros draft_id d r w'.
    destruct (not_owned_cases draft_id u w) as [(row & Hrow & Hown)|Hno].
    + rewrite (do_edit_draft_owned _ _ _ _ _ Hrow Hown).
      destruct (further_validated_draft_dict d u _) as [[v|e] w1] eqn:Hn;
        intros [= <- <-]; destruct (normalize_calls_only _ _ _ _ _ Hn) as (Hd & _);
        cbn [drafts record] in Hd; [| by apply Hsame].
      intros id r0. cbn [drafts set_drafts record overwrite fst snd]. rewrite Hd.
      destruct (Z.eq_dec draft_id id) as [<-|Hk].
      * rewrite lookup_insert_eq. intros [= <-]. cbn [draft_content draft_topic].
        by eapply normalize_no_null.
      * rewrite lookup_insert_ne by done. apply Hclean.
    + rewrite do_edit_draft_not_owned by done. intros [= <- <-]. by apply Hsame.
  - intros draft_id r w'.
    destruct (not_owned_cases draft_id u w) as [(row & Hrow & Hown)|Hno].
    + rewrite (do_delete_draft_owned _ _ _ _ Hrow Hown). intros [= <- <-].
      intros id r0. cbn [drafts set_drafts record]. intros Hk.
      apply lookup_delete_Some in Hk as (_ & Hk). by eapply Hclean.
    + rewrite do_delete_draft_not_owned by done. intros [= <- <-]. by apply Hsame.
  - intros r w'. unfold do_disable_drafts_syncing,
      UserProfile_save_enable_drafts_synchronization, Draft_objects_filter_delete. run.
    destruct (users w !! user_id u) as [row|]; intros [= <- <-]; [| by apply Hsame].
    intros id r0. cbn [drafts set_drafts set_users record].
    rewrite map_lookup_filter_Some. intros (Hk & _). by eapply Hclean.
  - intros r w'. unfold do_enable_drafts_syncing,
      UserProfile_save_enable_drafts_synchronization. run.
    destruct (users w !! user_id u) as [row|]; intros [= <- <-]; by apply Hsame.
Qed.

(** X8. Once [do_disable_drafts_syncing] has succeeded the user owns no draft:
    every edit and every delete by that user, at any id, raises "Draft does
    not exist".  Disabling again changes neither table, and enabling again
    sets the flag but brings no draft back. *)
Theorem disable_purges_for_good (u u' : UserProfile) (w w1 : World) :
  do_disable_drafts_syncing u w = (Ok u', w1) ->
  enable_drafts_synchronization u' = false /\
  user_id u' = user_id u /\
  (forall id row, drafts w1 !! id = Some row -> draft_user_profile row <> user_id u) /\
  (forall id d,
     do_edit_draft id d u' w1 =
       (Raise not_found_error, record (QueryDraftGet id (user_id u)) w1)) /\
  (forall id,
     do_delete_draft id u' w1 =
       (Raise not_found_error, record (QueryDraftGet id (user_id u)) w1)) /\
  (exists w2,
     do_disable_drafts_syncing u' w1 = (Ok u', w2) /\
     drafts w2 = drafts w1 /\ users w2 = users w1) /\
  (exists u'' w2,
     do_enable_drafts_syncing u' w1 = (Ok u'', w2) /\
     enable_drafts_synchronization u'' = true /\
     drafts w2 = drafts w1).
Proof.
  unfold do_disable_drafts_syncing at 1,
    UserProfile_save_enable_drafts_synchronization, Draft_objects_filter_delete. run.
  destruct (users w !! user_id u) as [row|] eqn:Hrow; [| discriminate].
  intros [= <- <-].
  cbn [enable_drafts_synchronization user_id set_enable_drafts_synchronization].
  set (w1 := set_drafts _ _).
  assert (Hnone : forall id row0, drafts w1 !! id = Some row0 ->
                                  draft_user_profile row0 <> user_id u).
  { intros id row0. subst w1. cbn [drafts set_drafts set_users record].
    rewrite map_lookup_filter_Some. cbn [snd]. unfold owned_by.
    intros (_ & Hne). by apply Z.eqb_neq. }
  assert (Hrow1 : users w1 !! user_id u =
                  Some (set_enable_drafts_synchronization false row))
    by (subst w1; cbn [users set_drafts set_users record]; apply lookup_insert_eq).
  split; [reflexivity |]. split; [reflexivity |]. split; [exact Hnone |].
  split; [intros id d;
          exact (do_edit_draft_not_owned id d
                   (set_enable_drafts_synchronization false u) w1 (Hnone id)) |].
  split; [intros id;
          exact (do_delete_draft_not_owned id
                   (set_enable_drafts_synchronization false u) w1 (Hnone id)) |].
  split.
  - eexists. split.
    { unfold do_disable_drafts_syncing, UserProfile_save_enable_drafts_synchronization,
        Draft_objects_filter_delete. run. rewrite lookup_insert_eq. reflexivity. }
    cbn [drafts users set_drafts set_users record]. split.
    + apply map_eq. intros k. apply option_eq. intros r0.
      rewrite map_lookup_filter_Some. cbn [snd]. unfold owned_by. split; [tauto |].
      intros Hk. split; [done |]. apply Z.eqb_neq. by eapply Hnone.
    + apply insert_id. exact Hrow1.
  - eexists. eexists. split.
    { unfold do_enable_drafts_syncing, UserProfile_save_enable_drafts_synchronization. run.
      rewrite lookup_insert_eq. reflexivity. }
    split; reflexivity.
Qed.

Lemma py_set_add_elem (seen l : list Z) x :
  x ∈ py_set_add seen l <-> x ∈ seen \/ x ∈ l.
Proof.
  revert seen. induction l as [|y rest IH]; intros seen; cbn [py_set_add].
  - rewrite elem_of_nil. tauto.
  - rewrite elem_of_cons. destruct (existsb (Z.eqb y) seen) eqn:Hy.
    + rewrite IH. apply existsb_exists in Hy as (z & Hz & Hyz).
      apply Z.eqb_eq in Hyz as <-. apply list_elem_of_In in Hz.
      split; [tauto |]. intros [H|[->|H]]; auto.
    + rewrite IH, elem_of_app, list_elem_of_singleton. tauto.
Qed.

Lemma py_set_add_NoDup (seen l : list Z) :
  NoDup seen -> NoDup (py_set_add seen l).
Proof.
  revert seen. induction l as [|y rest IH]; intros seen Hs; cbn [py_set_add]; [done |].
  destruct (existsb (Z.eqb y) seen) eqn:Hy; [by apply IH |].
  apply IH. apply NoDup_app. split; [done |]. split; [| apply NoDup_singleton].
  intros x Hx Hxy. apply list_elem_of_singleton in Hxy as ->.
  assert (Ht : existsb (Z.eqb y) seen = true); [| congruence].
  apply existsb_exists. exists y. split; [by apply list_elem_of_In | apply Z.eqb_refl].
Qed.

Lemma py_set_add_fresh (seen l : list Z) :
  NoDup (seen ++ l) -> py_set_add seen l = (seen ++ l)%list.
Proof.
  revert seen. induction l as [|y rest IH]; intros seen Hs; cbn [py_set_add].
  - by rewrite app_nil_r.
  - assert (Hy : existsb (Z.eqb y) seen = false).
    { destruct (existsb (Z.eqb y) seen) eqn:Hy; [| done]. exfalso.
      apply existsb_exists in Hy as (z & Hz & Hyz). apply Z.eqb_eq in Hyz as <-.
      apply list_elem_of_In in Hz. apply NoDup_app in Hs as (_ & Hs & _).
      apply (Hs y Hz). apply list_elem_of_here. }
    rewrite Hy, IH; rewrite <- app_assoc; [reflexivity | exact Hs].
Qed.

Lemma py_set_idemp (l : list Z) : py_set (py_set l) = py_set l.
Proof.
  unfold py_set at 1. rewrite py_set_add_fresh; [reflexivity |].
  apply py_set_add_NoDup. constructor.
Qed.

Lemma py_set_empty_length (l1 l2 : list Z) :
  py_set l1 = py_set l2 ->
  Nat.eqb (List.length l1) 0 = Nat.eqb (List.length l2) 0.
Proof.
  intros Heq. destruct l1 as [|x l1], l2 as [|y l2]; try reflexivity; exfalso.
  - assert (Hy : y ∈ py_set []).
    { rewrite Heq. apply py_set_add_elem. right. apply list_elem_of_here. }
    by apply elem_of_nil in Hy.
  - assert (Hx : x ∈ py_set []).
    { rewrite <- Heq. apply py_set_add_elem. right. apply list_elem_of_here. }
    by apply elem_of_nil in Hx.
Qed.

(** X9. For a private draft it does not matter how often a user id is
    listed.  The user lookup is given the ids of the payload with repetitions
    dropped, each id once, in the order of its first occurrence; so two lists
    of user ids that differ only in repetitions give the same outcome of
    normalization, and a payload gives the outcome of the payload that lists
    each of its ids once. *)
Theorem private_recipient_repetitions_do_not_matter
    (d : DraftDict) (u : UserProfile) (w : World) (to1 to2 : list Z) :
  dict_type d = "private" ->
  (py_set to1 = py_set to2 ->
   further_validated_draft_dict (with_to to1 d) u w =
   further_validated_draft_dict (with_to to2 d) u w) /\
  further_validated_draft_dict (with_to to1 d) u w =
    further_validated_draft_dict (with_to (py_set to1) d) u w /\
  NoDup (py_set to1) /\
  (forall x, x ∈ py_set to1 <-> x ∈ to1).
Proof.
  intros Hty.
  assert (Hsame : forall l1 l2,
            py_set l1 = py_set l2 ->
            further_validated_draft_dict (with_to l1 d) u w =
            further_validated_draft_dict (with_to l2 d) u w).
  { intros l1 l2 Heq. unfold further_validated_draft_dict.
    cbn [with_to dict_content dict_timestamp]. run.
    destruct (has_null _); [reflexivity |].
    destruct (number_ltb _ _); [reflexivity |].
    destruct (timestamp_to_datetime _); [| reflexivity].
    unfold topic_and_recipient. cbn [with_to dict_type dict_to dict_topic].
    rewrite Hty. cbn [String.eqb Ascii.eqb Bool.eqb andb].
    rewrite (py_set_empty_length _ _ Heq), Heq. reflexivity. }
  split; [apply Hsame |].
  split; [apply Hsame; by rewrite py_set_idemp |].
  split; [apply py_set_add_NoDup; constructor |].
  intros x. unfold py_set. rewrite py_set_add_elem, elem_of_nil. tauto.
Qed.

(** X10. A stream draft with exactly one stream id that has passed the
    content and timestamp checks is decided in this order.  An error of the
    conversion of the timestamp into a datetime is raised as it is, before the
    topic is looked at and without any lookup.  Once the timestamp is
    converted and the topic check has passed, the lookup of that stream for
    the acting user decides: an error of the lookup is raised as it is, and
    otherwise the draft gets the recipient of the stream, the truncated topic
    and the converted time.  No user or recipient lookup is made. *)
Theorem stream_draft_decided_by_stream_lookup
    (d : DraftDict) (u : UserProfile) (w : World) (sid : Z) :
  dict_type d = "stream" ->
  dict_to d = [sid] ->
  has_null (truncate_body (dict_content d)) = false ->
  number_ltb (derived_timestamp d w) (PyInt 0) = false ->
  (forall e,
     timestamp_to_datetime (derived_timestamp d w) = Raise e ->
     further_validated_draft_dict d u w = (Raise e, tick (record CallTime w))) /\
  (forall t,
     timestamp_to_datetime (derived_timestamp d w) = Ok t ->
     has_null (truncate_topic (dict_topic d)) = false ->
     further_validated_draft_dict d u w =
       match access_stream_by_id (tick (record CallTime w)) u sid with
       | Ok stream_sub =>
           (Ok {| recipient := Some (stream_recipient (fst stream_sub));
                  topic := truncate_topic (dict_topic d);
                  content := truncate_body (dict_content d);
                  last_edit_time := t |},
            record (CallAccessStreamById (user_id u) sid) (tick (record CallTime w)))
       | Raise e =>
           (Raise e,
            record (CallAccessStreamById (user_id u) sid) (tick (record CallTime w)))
       end).
Proof.
  intros Hty Hto Hc Hts. rewrite normalize_resolves by done. split.
  - intros e ->. reflexivity.
  - intros t -> Htopic.
    unfold topic_and_recipient. rewrite Hty, Hto. simpl. rewrite Htopic.
    unfold call_access_stream_by_id. run.
    by destruct (access_stream_by_id _ u sid).
Qed.

(** X11. A private draft with recipients that has passed the content and
    timestamp checks is decided in this order.  An error of the conversion of
    the timestamp into a datetime is raised as it is and no lookup is made.
    Once the timestamp is converted the two lookups decide, in order; the user
    lookup is given the ids of the payload, each once.  An error of the user
    lookup is raised as it is and the recipient lookup is not made.  A
    [ValidationError] of the recipient lookup is raised as a [JsonableError]
    with its first message.  Otherwise the draft gets the recipient found, the
    empty topic and the converted time. *)
Theorem private_draft_decided_by_lookups (d : DraftDict) (u : UserProfile) (w : World) :
  dict_type d = "private" ->
  dict_to d <> [] ->
  has_null (truncate_body (dict_content d)) = false ->
  number_ltb (derived_timestamp d w) (PyInt 0) = false ->
  let w1 := tick (record CallTime w) in
  let ids := py_set (dict_to d) in
  let w2 := record (CallGetUserProfilesByIds ids (realm u)) w1 in
  (forall e,
     timestamp_to_datetime (derived_timestamp d w) = Raise e ->
     further_validated_draft_dict d u w = (Raise e, w1)) /\
  (forall t,
     timestamp_to_datetime (derived_timestamp d w) = Ok t ->
     (forall e,
        get_user_profiles_by_ids w1 ids (realm u) = Raise e ->
        further_validated_draft_dict d u w = (Raise e, w2)) /\
     (forall to_users,
        get_user_profiles_by_ids w1 ids (realm u) = Ok to_users ->
        let w3 :=
          record (CallRecipientForUserProfiles (map user_id to_users) (user_id u)) w2 in
        (forall r,
           recipient_for_user_profiles w2 to_users false None u = Ok r ->
           further_validated_draft_dict d u w =
             (Ok {| recipient := Some r; topic := "";
                    content := truncate_body (dict_content d);
                    last_edit_time := t |}, w3)) /\
        (forall m ms,
           recipient_for_user_profiles w2 to_users false None u =
             Raise (ValidationError (m :: ms)) ->
           further_validated_draft_dict d u w = (Raise (JsonableError m), w3)) /\
        (forall msg,
           recipient_for_user_profiles w2 to_users false None u =
             Raise (JsonableError msg) ->
           further_validated_draft_dict d u w = (Raise (JsonableError msg), w3)))).
Proof.
  intros Hty Hto Hc Hts w1 ids w2.
  assert (Hlen : negb (Nat.eqb (List.length (dict_to d)) 0) = true)
    by (destruct (dict_to d); [done | reflexivity]).
  rewrite normalize_resolves by done. fold w1.
  split; [by intros e -> |]. intros t ->.
  assert (Heq : topic_and_recipient d u w1 =
    match get_user_profiles_by_ids w1 ids (realm u) with
    | Ok to_users =>
        match recipient_for_user_profiles w2 to_users false None u with
        | Ok r => (Ok ("", Some r),
                   record (CallRecipientForUserProfiles (map user_id to_users) (user_id u)) w2)
        | Raise (ValidationError (m :: _)) =>
            (Raise (JsonableError m),
             record (CallRecipientForUserProfiles (map user_id to_users) (user_id u)) w2)
        | Raise (ValidationError []) =>
            (Raise IndexError,
             record (CallRecipientForUserProfiles (map user_id to_users) (user_id u)) w2)
        | Raise e =>
            (Raise e,
             record (CallRecipientForUserProfiles (map user_id to_users) (user_id u)) w2)
        end
    | Raise e => (Raise e, w2)
    end).
  { unfold topic_and_recipient. rewrite Hty, Hlen. simpl.
    unfold call_get_user_profiles_by_ids, call_recipient_for_user_profiles. run.
    fold ids. fold w2.
    destruct (get_user_profiles_by_ids w1 ids (realm u)) as [to_users|e]; [| reflexivity].
    destruct (recipient_for_user_profiles w2 to_users false None u) as [r|e];
      [reflexivity |].
    by destruct e as [msg|[|m ms]| |msg| |msg|msg|msg]. }
  rewrite Heq. split.
  - intros e He. by rewrite He.
  - intros to_users Hus w3. rewrite Hus. split; [| split].
    + intros r Hr. by rewrite Hr.
    + intros m ms Hr. by rewrite Hr.
    + intros msg Hr. by rewrite Hr.
Qed.

Lemma insert_rows_size n objs (t : gmap Z Draft) :
  (forall k row, t !! k = Some row -> k < n) ->
  size (insert_rows (assign_ids n objs) t) = (size t + List.length objs)%nat.
Proof.
  revert n t. induction objs as [|d rest IH]; intros n t Hlt.
  - simpl. lia.
  - cbn [assign_ids insert_rows foldl fst snd].
    fold (insert_rows (assign_ids (n + 1) rest) (<[n:=d]> t)).
    rewrite IH.
    + rewrite map_size_insert_None; [cbn [List.length]; lia |].
      destruct (t !! n) as [row|] eqn:Hn; [| done]. apply Hlt in Hn. lia.
    + intros k row. destruct (Z.eq_dec n k) as [<-|Hne].
      * intros _. lia.
      * rewrite lookup_insert_ne by done. intros Hk. apply Hlt in Hk. lia.
Qed.

(** X12. In a table whose keys all came from the key sequence, a successful
    create returns one id per payload, all different and none of them in use
    before; each new draft belongs to the acting user; the table grows by
    exactly the number of payloads and keeps every row it had.  An empty batch
    succeeds, returns no id and leaves the table as it is. *)
Theorem create_adds_one_fresh_draft_per_payload
    (ds : list DraftDict) (u : UserProfile) (w : World)
    (created : list (Z * Draft)) (w' : World) :
  keys_below_seq w ->
  do_create_drafts ds u w = (Ok created, w') ->
  List.length created = List.length ds /\
  NoDup (map fst created) /\
  (forall id row,
     (id, row) ∈ created ->
     drafts w !! id = None /\ drafts w' !! id = Some row /\
     draft_user_profile row = user_id u) /\
  (forall k row, drafts w !! k = Some row -> drafts w' !! k = Some row) /\
  size (drafts w') = (size (drafts w) + List.length ds)%nat /\
  keys_below_seq w' /\
  (ds = [] -> created = [] /\ drafts w' = drafts w).
Proof.
  intros Hwf Hc.
  destruct (do_create_drafts_keys_below_seq _ _ _ _ _ Hwf Hc) as (Hwf' & Hkeep).
  destruct (do_create_drafts_ok _ _ _ _ _ Hc) as (vs & w0 & Hn & -> & Hlen & Hd & Hs & Hu).
  split; [by rewrite assign_ids_length, length_map |].
  split; [rewrite assign_ids_keys; apply NoDup_seqZ |].
  split; [| split; [exact Hkeep | split; [| split; [exact Hwf' |]]]].
  - intros id row Hin. apply list_elem_of_lookup in Hin as [i Hi].
    assert (Hobj : exists d, map (new_draft u) vs !! i = Some d).
    { apply lookup_lt_is_Some. apply lookup_lt_Some in Hi.
      by rewrite assign_ids_length in Hi. }
    destruct Hobj as [d Hobj].
    rewrite (assign_ids_lookup _ _ _ _ Hobj) in Hi. injection Hi as <- <-.
    split; [| split].
    + destruct (drafts w !! (draft_seq w + Z.of_nat i)) as [r0|] eqn:Hk; [| done].
      apply Hwf in Hk. lia.
    + rewrite Hd. by apply insert_rows_lookup_new.
    + rewrite list_lookup_fmap in Hobj. destruct (vs !! i); [| discriminate].
      by injection Hobj as <-.
  - rewrite Hd, insert_rows_size by exact Hwf. by rewrite length_map, Hlen.
  - intros ->. destruct vs; [| discriminate]. by rewrite Hd.
Qed.

(** X13. Normalization reads and never writes.  Whatever the payload and
    whatever the outcome, the Draft table, the user table and the key sequence
    are as before, no query is issued, the clock is read at most once and at
    most two lookups are made. *)
Theorem normalization_only_reads
    (d : DraftDict) (u : UserProfile) (w : World) (r : Result ValidDraftDict) (w' : World) :
  further_validated_draft_dict d u w = (r, w') ->
  drafts w' = drafts w /\ draft_seq w' = draft_seq w /\ users w' = users w /\
  (ticks w' <= S (ticks w))%nat /\
  exists evs,
    trace w' = (trace w ++ evs)%list /\
    Forall (fun ev => is_query ev = false) evs /\
    (List.length evs <= 3)%nat.
Proof.
  intros Hn.
  destruct (normalize_calls_only _ _ _ _ _ Hn) as (Hd & Hs & Hu & _).
  split; [exact Hd |]. split; [exact Hs |]. split; [exact Hu |].
  revert Hn.
  destruct (has_null (truncate_body (dict_content d))) eqn:Hc.
  { rewrite normalize_content_null by done. intros [= <- <-].
    split; [lia |]. exists []. rewrite app_nil_r. repeat split; [constructor | simpl; lia]. }
  destruct (number_ltb (derived_timestamp d w) (PyInt 0)) eqn:Hts.
  { rewrite normalize_timestamp_negative by done. intros [= <- <-].
    split; [simpl; lia |]. exists [CallTime].
    repeat split; [by repeat constructor | simpl; lia]. }
  rewrite normalize_resolves by done.
  assert (Hres : forall r0 w0,
            topic_and_recipient d u (tick (record CallTime w)) = (r0, w0) ->
            ticks w0 = S (ticks w) /\
            exists evs, trace w0 = ((trace w ++ [CallTime]) ++ evs)%list /\
                        Forall (fun ev => is_query ev = false) evs /\
                        (List.length evs <= 2)%nat).
  { unfold topic_and_recipient. intros r0 w0.
    destruct (String.eqb (dict_type d) "stream").
    - destruct (has_null (truncate_topic _));
        [run; intros [= <- <-]; split; [done |]; exists [];
         rewrite app_nil_r; repeat split; [constructor | simpl; lia] |].
      destruct (negb _);
        [run; intros [= <- <-]; split; [done |]; exists [];
         rewrite app_nil_r; repeat split; [constructor | simpl; lia] |].
      destruct (dict_to d) as [|to_0 rest];
        [run; intros [= <- <-]; split; [done |]; exists [];
         rewrite app_nil_r; repeat split; [constructor | simpl; lia] |].
      unfold call_access_stream_by_id. run.
      destruct (access_stream_by_id _ _ _); intros [= <- <-]; (split; [done |]);
        eexists [_]; (repeat split; [by repeat constructor | simpl; lia]).
    - destruct (_ && _).
      + unfold call_get_user_profiles_by_ids, call_recipient_for_user_profiles. run.
        destruct (get_user_profiles_by_ids _ _ _) as [to_users|e];
          [| intros [= <- <-]; split; [done |]; eexists [_];
             repeat split; [by repeat constructor | simpl; lia]].
        set (evs := [CallGetUserProfilesByIds (py_set (dict_to d)) (realm u);
                     CallRecipientForUserProfiles (map user_id to_users) (user_id u)]).
        assert (Hevs : Forall (fun ev => is_query ev = false) evs /\
                       (List.length evs <= 2)%nat)
          by (split; [by repeat constructor | simpl; lia]).
        destruct (recipient_for_user_profiles _ _ _ _ _) as [rcpt|e];
          [intros [= <- <-]; split; [done |]; exists evs;
           split; [cbn [trace record tick]; by rewrite <- !app_assoc | exact Hevs] |].
        destruct e as [msg|[|m ms]| |msg| |msg|msg|msg]; run; intros [= <- <-]; (split; [done |]);
          exists evs; (split; [cbn [trace record tick]; by rewrite <- !app_assoc | exact Hevs]).
      + run. intros [= <- <-]. split; [done |]. exists [].
        rewrite app_nil_r. repeat split; [constructor | simpl; lia]. }
  destruct (timestamp_to_datetime _) as [t|e0].
  - destruct (topic_and_recipient d u _) as [[res|e] w1] eqn:Hr; intros [= <- <-];
      destruct (Hres _ _ eq_refl) as (Hticks & evs & Htr & Hev & Hlen);
      (split; [lia |]); exists (CallTime :: evs);
      (repeat split; [by rewrite Htr, <- app_assoc | by constructor | simpl; lia]).
  - intros [= <- <-]. split; [simpl; lia |]. exists [CallTime].
    repeat split; [by repeat constructor | simpl; lia].
Qed.

End Operations.

(** *** The schema of a draft *)

Lemma existsb_eqb_In s l : existsb (String.eqb s) l = true <-> In s l.
Proof.
  rewrite existsb_exists. split.
  - intros (x & Hin & Heq). apply String.eqb_eq in Heq. by subst.
  - intros Hin. exists s. split; [done | apply String.eqb_refl].
Qed.

Lemma check_items_int var_name i l :
  check_items check_int var_name i (map JInt l) = Ok l.
Proof.
  revert i. induction l as [|z l IH]; intros i; [done |].
  simpl. by rewrite IH.
Qed.

Lemma check_items_int_inv var_name i items l :
  check_items check_int var_name i items = Ok l -> items = map JInt l.
Proof.
  revert i l. induction items as [|item rest IH]; intros i l; simpl.
  - by intros [= <-].
  - intros H. apply rbind_ok_inv in H as (z & Hz & H).
    apply rbind_ok_inv in H as (l0 & Hl0 & H). injection H as <-.
    destruct item; try discriminate. injection Hz as ->.
    simpl. f_equal. by eapply IH.
Qed.

Lemma check_timestamp_inv var_name val x :
  check_union [validator_map PyInt check_int; validator_map PyFloat check_float]
    var_name val = Ok x ->
  val = json_of_number x.
Proof.
  destruct val; simpl; try discriminate; by intros [= <-].
Qed.

Lemma check_timestamp_number var_name x :
  check_union [validator_map PyInt check_int; validator_map PyFloat check_float]
    var_name (json_of_number x) = Ok x.
Proof. by destruct x. Qed.

Lemma rbind_raise_inv {A B} (r : Result A) (k : A -> Result B) e :
  rbind r k = Raise e -> r = Raise e \/ exists a, r = Ok a /\ k a = Raise e.
Proof. destruct r as [a|e0]; simpl; [eauto | intros [= <-]; by left]. Qed.

Lemma check_string_raises : raises_validation check_string.
Proof. intros n val e. destruct val; simpl; intros [= <-]; eauto. Qed.

Lemma check_int_raises : raises_validation check_int.
Proof. intros n val e. destruct val; simpl; intros [= <-]; eauto. Qed.

Lemma check_float_raises : raises_validation check_float.
Proof. intros n val e. destruct val; simpl; intros [= <-]; eauto. Qed.

Lemma check_required_string_raises : raises_validation check_required_string.
Proof.
  intros n val e. unfold check_required_string. intros H.
  apply rbind_raise_inv in H as [H|(s & _ & H)]; [by eapply check_string_raises |].
  destruct (String.eqb s ""); [| discriminate]. injection H as <-. eauto.
Qed.

Lemma check_string_in_raises l : raises_validation (check_string_in l).
Proof.
  intros n val e. unfold check_string_in. intros H.
  apply rbind_raise_inv in H as [H|(s & _ & H)]; [by eapply check_string_raises |].
  destruct (existsb _ l); [discriminate |]. injection H as <-. eauto.
Qed.

Lemma validator_map_raises {A B} (f : A -> B) (v : Validator A) :
  raises_validation v -> raises_validation (validator_map f v).
Proof.
  intros Hv n val e. unfold validator_map. intros H.
  apply rbind_raise_inv in H as [H|(a & _ & H)]; [by eapply Hv | discriminate].
Qed.

Lemma check_items_raises {A} (v : Validator A) var_name i items e :
  raises_validation v ->
  check_items v var_name i items = Raise e -> exists m, e = ValidationError [m].
Proof.
  intros Hv. revert i. induction items as [|item rest IH]; intros i; simpl; [discriminate |].
  intros H. apply rbind_raise_inv in H as [H|(a & _ & H)]; [by eapply Hv |].
  apply rbind_raise_inv in H as [H|(l & _ & H)]; [by eapply IH | discriminate].
Qed.

Lemma check_list_raises {A} (v : Validator A) :
  raises_validation v -> raises_validation (check_list v).
Proof.
  intros Hv n val e. unfold check_list.
  destruct val; try (intros [= <-]; eauto; fail). by apply check_items_raises.
Qed.

Lemma check_union_raises {A} (vs : list (Validator A)) :
  Forall raises_validation vs -> raises_validation (check_union vs).
Proof.
  induction 1 as [|v rest Hv Hrest IH]; intros n val e; simpl.
  - intros [= <-]. eauto.
  - destruct (v n val) as [a|e0] eqn:Hvn; [discriminate |].
    destruct (Hv _ _ _ Hvn) as [m ->]. apply IH.
Qed.

Lemma required_key_raises {A} var_name fields key (v : Validator A) e :
  raises_validation v ->
  required_key var_name fields key v = Raise e -> exists m, e = ValidationError [m].
Proof.
  intros Hv. unfold required_key.
  destruct (dict_get key fields); [by apply Hv | intros [= <-]; eauto].
Qed.

Lemma draft_dict_validator_raises : raises_validation draft_dict_validator.
Proof.
  intros n val e. unfold draft_dict_validator.
  destruct val as [| | | | |items|fields]; try (intros [= <-]; eauto; fail).
  intros H.
  apply rbind_raise_inv in H as [H|(ty & _ & H)];
    [by eapply required_key_raises, H; apply check_string_in_raises |].
  apply rbind_raise_inv in H as [H|(to & _ & H)];
    [by eapply required_key_raises, H; apply check_list_raises, check_int_raises |].
  apply rbind_raise_inv in H as [H|(tp & _ & H)];
    [by eapply required_key_raises, H; apply check_string_raises |].
  apply rbind_raise_inv in H as [H|(ct & _ & H)];
    [by eapply required_key_raises, H; apply check_required_string_raises |].
  apply rbind_raise_inv in H as [H|(ts & _ & H)].
  { unfold optional_key in H. destruct (dict_get "timestamp" fields) as [v|]; [| discriminate].
    apply rbind_raise_inv in H as [H|(x & _ & H)]; [| discriminate].
    eapply check_union_raises, H.
    repeat constructor; apply validator_map_raises;
      [apply check_int_raises | apply check_float_raises]. }
  apply rbind_raise_inv in H as [H|(un & _ & H)]; [| discriminate].
  unfold only_listed_keys in H. destruct (forallb _ fields); [discriminate |].
  injection H as <-. eauto.
Qed.

(** X14. [draft_dict_validator] accepts exactly the dictionaries that have a
    ["type"] among the three draft types, a ["to"] that is a list of integers,
    a string ["topic"], a non-empty string ["content"], a ["timestamp"] that
    is a number if there is one, and no key besides these five; the draft it
    returns holds those values.  Whatever it refuses, it refuses with a
    [ValidationError]. *)
Theorem draft_dict_validator_accepts_exactly (var_name : string) (val : json) :
  (forall d,
     draft_dict_validator var_name val = Ok d <->
     exists fields,
       val = JDict fields /\
       dict_get "type" fields = Some (JStr (dict_type d)) /\
       In (dict_type d) VALID_DRAFT_TYPES /\
       dict_get "to" fields = Some (JList (map JInt (dict_to d))) /\
       dict_get "topic" fields = Some (JStr (dict_topic d)) /\
       dict_get "content" fields = Some (JStr (dict_content d)) /\
       dict_content d <> "" /\
       dict_get "timestamp" fields = option_map json_of_number (dict_timestamp d) /\
       Forall (fun kv => In (fst kv) DRAFT_KEYS) fields) /\
  (forall e,
     draft_dict_validator var_name val = Raise e -> exists m, e = ValidationError [m]).
Proof.
  split.
  - intros d. split.
    + unfold draft_dict_validator. destruct val as [| | | | |items|fields]; try discriminate.
      intros H.
      apply rbind_ok_inv in H as (ty & Hty & H).
      apply rbind_ok_inv in H as (to & Hto & H).
      apply rbind_ok_inv in H as (tp & Htp & H).
      apply rbind_ok_inv in H as (ct & Hct & H).
      apply rbind_ok_inv in H as (ts & Hts & H).
      apply rbind_ok_inv in H as (un & Hun & H).
      injection H as <-. cbn [dict_type dict_to dict_topic dict_content dict_timestamp].
      exists fields. split; [done |].
      unfold required_key in Hty, Hto, Htp, Hct. unfold optional_key in Hts.
      destruct (dict_get "type" fields) as [vty|]; [| discriminate].
      destruct (dict_get "to" fields) as [vto|]; [| discriminate].
      destruct (dict_get "topic" fields) as [vtp|]; [| discriminate].
      destruct (dict_get "content" fields) as [vct|]; [| discriminate].
      unfold check_string_in in Hty. apply rbind_ok_inv in Hty as (s0 & Hs0 & Hin).
      destruct (existsb (String.eqb s0) VALID_DRAFT_TYPES) eqn:He; [| discriminate].
      injection Hin as <-. destruct vty; try discriminate. injection Hs0 as ->.
      unfold check_list in Hto. destruct vto; try discriminate.
      apply check_items_int_inv in Hto as ->.
      destruct vtp; try discriminate. injection Htp as ->.
      unfold check_required_string in Hct. apply rbind_ok_inv in Hct as (s1 & Hs1 & Hne).
      destruct (String.eqb_spec s1 "") as [|Hne1]; [discriminate |].
      injection Hne as <-. destruct vct; try discriminate. injection Hs1 as ->.
      split; [done |]. split; [by apply existsb_eqb_In |].
      split; [done |]. split; [done |]. split; [done |]. split; [done |].
      split.
      * destruct (dict_get "timestamp" fields) as [vts|].
        -- apply rbind_ok_inv in Hts as (x & Hx & Hsome). injection Hsome as <-.
           apply check_timestamp_inv in Hx. by subst.
        -- by injection Hts as <-.
      * unfold only_listed_keys in Hun.
        destruct (forallb _ fields) eqn:Hall; [| discriminate].
        rewrite forallb_forall in Hall. apply List.Forall_forall.
        intros kv Hkv. apply existsb_eqb_In. by apply Hall.
    + intros (fields & -> & Hty & Hin & Hto & Htp & Hct & Hne & Hts & Hkeys).
      unfold draft_dict_validator, required_key, optional_key.
      rewrite Hty, Hto, Htp, Hct, Hts.
      unfold check_string_in, check_required_string, check_list. cbn [check_string rbind].
      rewrite (proj2 (existsb_eqb_In _ _) Hin). cbn [rbind].
      rewrite check_items_int. cbn [rbind].
      destruct (String.eqb_spec (dict_content d) "") as [|_]; [done |]. cbn [rbind].
      assert (Hun : only_listed_keys fields DRAFT_KEYS = Ok tt).
      { unfold only_listed_keys.
        assert (Hall : forallb (fun kv => existsb (String.eqb (fst kv)) DRAFT_KEYS) fields
                       = true).
        { apply forallb_forall. intros kv Hkv. apply existsb_eqb_In.
          rewrite List.Forall_forall in Hkeys. by apply Hkeys. }
        by rewrite Hall. }
      destruct d as [ty to tp ct [x|]]; cbn [option_map dict_timestamp] in *.
      * rewrite check_timestamp_number. cbn [rbind].
        change (only_listed_keys fields ["type"; "to"; "topic"; "content"; "timestamp"])
          with (only_listed_keys fields DRAFT_KEYS).
        by rewrite Hun.
      * cbn [rbind].
        change (only_listed_keys fields ["type"; "to"; "topic"; "content"; "timestamp"])
          with (only_listed_keys fields DRAFT_KEYS).
        by rewrite Hun.
  - intros e. apply draft_dict_validator_raises.
Qed.

Section Requests.

Context `{P : Platform}.

Lemma REQ_missing {A} name (validator : Validator A) request w :
  dict_get name (request_vars request) = None ->
  REQ name validator request w =
    (Raise (JsonableError ("Missing '" ++ name ++ "' argument")), w).
Proof. intros Hg. unfold REQ. by rewrite Hg. Qed.

Lemma REQ_invalid {A} name (validator : Validator A) request val m w :
  dict_get name (request_vars request) = Some val ->
  validator name val = Raise (ValidationError [m]) ->
  REQ name validator request w = (Raise (JsonableError m), w).
Proof. intros Hg Hv. unfold REQ. by rewrite Hg, Hv. Qed.

(** X15. A request that does not pass the schema is refused before anything
    else happens.  For a user with sync enabled, a create or edit request
    whose payload variable is missing, or is refused by the validator, raises
    a [JsonableError] (with the message of the validator) and leaves the
    world exactly as it was: no lookup, no query, no change. *)
Theorem request_refused_by_schema_touches_nothing
    (request : HttpRequest) (u : UserProfile) (draft_id : Z) (w : World) :
  enable_drafts_synchronization u = true ->
  (dict_get "drafts" (request_vars request) = None ->
   exists msg, create_drafts request u tt w = (Raise (JsonableError msg), w)) /\
  (forall val e,
     dict_get "drafts" (request_vars request) = Some val ->
     check_list draft_dict_validator "drafts" val = Raise e ->
     exists m,
       e = ValidationError [m] /\
       create_drafts request u tt w = (Raise (JsonableError m), w)) /\
  (dict_get "draft" (request_vars request) = None ->
   exists msg, edit_draft request u draft_id w = (Raise (JsonableError msg), w)) /\
  (forall val e,
     dict_get "draft" (request_vars request) = Some val ->
     draft_dict_validator "draft" val = Raise e ->
     exists m,
       e = ValidationError [m] /\
       edit_draft request u draft_id w = (Raise (JsonableError m), w)).
Proof.
  intros Hen.
  split; [| split; [| split]].
  - intros Hg. eexists. unfold create_drafts. rewrite draft_endpoint_enabled by done.
    unfold create_drafts_view, has_request_variables.
    by rewrite (bind_raise _ _ _ _ _ (REQ_missing _ _ _ w Hg)).
  - intros val e Hg Hv.
    destruct (check_list_raises _ draft_dict_validator_raises _ _ _ Hv) as [m ->].
    exists m. split; [done |].
    unfold create_drafts. rewrite draft_endpoint_enabled by done.
    unfold create_drafts_view, has_request_variables.
    by rewrite (bind_raise _ _ _ _ _ (REQ_invalid _ _ _ _ _ w Hg Hv)).
  - intros Hg. eexists. unfold edit_draft. rewrite draft_endpoint_enabled by done.
    unfold edit_draft_view, has_request_variables.
    by rewrite (bind_raise _ _ _ _ _ (REQ_missing _ _ _ w Hg)).
  - intros val e Hg Hv.
    destruct (draft_dict_validator_raises _ _ _ Hv) as [m ->].
    exists m. split; [done |].
    unfold edit_draft. rewrite draft_endpoint_enabled by done.
    unfold edit_draft_view, has_request_variables.
    by rewrite (bind_raise _ _ _ _ _ (REQ_invalid _ _ _ _ _ w Hg Hv)).
Qed.

End Requests.

(** *** The further properties at concrete inputs *)

Lemma world0_no_null_bytes : no_null_bytes world0.
Proof.
  intros id row Hk.
  assert (Hall : map_Forall
                   (fun (_ : Z) row => has_null (draft_content row) = false /\
                                       has_null (draft_topic row) = false)
                   (drafts world0))
    by (apply (bool_decide_unpack _); vm_compute; exact I).
  by apply (Hall id row).
Qed.


Lemma edit_overwrites_exactly_four_fields_witness :
  drafts world0 !! 7 = Some alices_draft /\
  draft_user_profile alices_draft = user_id alice /\
  exists w2,
    do_edit_draft (P:=zulip) 7 stream_draft alice world0 = (Ok tt, w2) /\
    drafts w2 !! 7 =
      Some {| draft_user_profile := 1; draft_recipient := Some 105;
              draft_topic := "lunch"; draft_content := "soup?";
              draft_last_edit_time := {| micros := 12000000 |} |} /\
    drafts w2 !! 8 = Some bobs_draft.
Proof.
  split; [reflexivity |]. split; [reflexivity |].
  assert (Hn : further_validated_draft_dict (P:=zulip) stream_draft alice
                 (record (QueryDraftGet 7 (user_id alice)) world0) =
               (Ok {| recipient := Some 105; topic := "lunch"; content := "soup?";
                      last_edit_time := {| micros := 12000000 |} |},
                snd (further_validated_draft_dict (P:=zulip) stream_draft alice
                       (record (QueryDraftGet 7 (user_id alice)) world0))))
    by reflexivity.
  destruct (edit_overwrites_exactly_four_fields (P:=zulip) 7 stream_draft alice world0
              alices_draft _ _ eq_refl eq_refl Hn)
    as (w2 & Hrun & Hrow & _ & Hothers & _).
  exists w2. split; [exact Hrun |]. split; [exact Hrow |].
  rewrite Hothers; [reflexivity | lia].
Defined.

Lemma edit_with_invalid_payload_changes_nothing_witness :
  drafts world0 !! 7 = Some alices_draft /\
  draft_user_profile alices_draft = user_id alice /\
  fst (do_edit_draft (P:=zulip) 7 negative_time_draft alice world0) = Raise timestamp_error /\
  drafts (snd (do_edit_draft (P:=zulip) 7 negative_time_draft alice world0)) !! 7 =
    Some alices_draft.
Proof.
  split; [reflexivity |]. split; [reflexivity |].
  assert (Hn : further_validated_draft_dict (P:=zulip) negative_time_draft alice
                 (record (QueryDraftGet 7 (user_id alice)) world0) =
               (Raise timestamp_error,
                snd (further_validated_draft_dict (P:=zulip) negative_time_draft alice
                       (record (QueryDraftGet 7 (user_id alice)) world0))))
    by reflexivity.
  destruct (edit_with_invalid_payload_changes_nothing (P:=zulip) 7 negative_time_draft
              alice world0 alices_draft _ _ eq_refl eq_refl Hn)
    as (Hrun & _ & Hrow & _).
  rewrite Hrun. split; [reflexivity | exact Hrow].
Defined.

Lemma delete_removes_exactly_that_draft_witness :
  drafts world0 !! 7 = Some alices_draft /\
  draft_user_profile alices_draft = user_id alice /\
  drafts world0 !! 99 = None /\
  (exists w',
     do_delete_draft 7 alice world0 = (Ok tt, w') /\
     drafts w' !! 7 = None /\
     drafts w' !! 8 = Some bobs_draft /\
     fst (do_delete_draft 7 alice w') = Raise not_found_error) /\
  do_delete_draft 99 alice world0 =
    (Raise not_found_error, record (QueryDraftGet 99 1) world0).
Proof.
  split; [reflexivity |]. split; [reflexivity |]. split; [reflexivity |].
  destruct (delete_removes_exactly_that_draft (P:=zulip) 7 alice world0) as (Hown & _).
  destruct (delete_removes_exactly_that_draft (P:=zulip) 99 alice world0) as (_ & Hnone).
  split.
  - destruct (Hown alices_draft eq_refl eq_refl)
      as (w' & Hrun & Hd & Hothers & _ & _ & Hagain & _).
    exists w'. split; [exact Hrun |].
    split; [rewrite Hd; reflexivity |].
    split; [rewrite Hothers; [reflexivity | lia] | exact Hagain].
  - apply (Hnone eq_refl).
Defined.

Lemma create_then_delete_restores_table_witness :
  keys_below_seq world0 /\
  foldr delete
    (drafts (snd (do_create_drafts (P:=zulip) passing_batch alice world0))) [9; 10] =
  drafts world0.
Proof.
  split; [exact world0_keys_below_seq |].
  assert (Hc : do_create_drafts (P:=zulip) passing_batch alice world0 =
               (Ok (assign_ids 9 (map (new_draft alice)
                      [{| recipient := None; topic := ""; content := "hi";
                          last_edit_time := {| micros := 1600000000000000 |} |};
                       {| recipient := Some 105; topic := "lunch"; content := "soup?";
                          last_edit_time := {| micros := 12000000 |} |}])),
                snd (do_create_drafts (P:=zulip) passing_batch alice world0)))
    by reflexivity.
  destruct (create_then_delete_restores_table (P:=zulip) passing_batch alice world0 _ _
              world0_keys_below_seq Hc)
    as (_ & Hback).
  exact Hback.
Defined.

Lemma operations_leave_other_users_drafts_witness :
  keys_below_seq world0 /\
  draft_user_profile alices_draft <> user_id bob /\
  drafts (snd (do_create_drafts (P:=zulip) passing_batch bob world0)) !! 7 =
    Some alices_draft /\
  drafts (snd (do_disable_drafts_syncing bob world0)) !! 7 = Some alices_draft.
Proof.
  assert (Hne : draft_user_profile alices_draft <> user_id bob) by (simpl; lia).
  split; [exact world0_keys_below_seq |]. split; [exact Hne |].
  destruct (operations_leave_other_users_drafts (P:=zulip) bob world0)
    as (Hcreate & _ & _ & Hdisable & _).
  split.
  - apply (Hcreate passing_batch
             (fst (do_create_drafts (P:=zulip) passing_batch bob world0))
             (snd (do_create_drafts (P:=zulip) passing_batch bob world0))
             world0_keys_below_seq (surjective_pairing _) 7 alices_draft Hne).
    reflexivity.
  - apply (Hdisable (fst (do_disable_drafts_syncing bob world0))
             (snd (do_disable_drafts_syncing bob world0))
             (surjective_pairing _) 7 alices_draft Hne).
    reflexivity.
Defined.

Lemma operations_keep_table_free_of_null_bytes_witness :
  no_null_bytes world0 /\
  no_null_bytes (snd (do_create_drafts (P:=zulip) passing_batch alice world0)) /\
  no_null_bytes (snd (do_edit_draft (P:=zulip) 7 stream_draft alice world0)).
Proof.
  split; [exact world0_no_null_bytes |].
  destruct (operations_keep_table_free_of_null_bytes (P:=zulip) alice world0
              world0_no_null_bytes)
    as (Hcreate & Hedit & _).
  split.
  - apply (Hcreate passing_batch _ _ (surjective_pairing _)).
  - apply (Hedit 7 stream_draft _ _ (surjective_pairing _)).
Defined.

Lemma disable_purges_for_good_witness :
  do_disable_drafts_syncing alice world0 =
    (Ok disabled_alice, snd (do_disable_drafts_syncing alice world0)) /\
  do_edit_draft (P:=zulip) 7 undirected_draft disabled_alice
      (snd (do_disable_drafts_syncing alice world0)) =
    (Raise not_found_error,
     record (QueryDraftGet 7 1) (snd (do_disable_drafts_syncing alice world0))) /\
  drafts (snd (do_disable_drafts_syncing alice world0)) !! 7 = None.
Proof.
  assert (Hrun : do_disable_drafts_syncing alice world0 =
                 (Ok disabled_alice, snd (do_disable_drafts_syncing alice world0)))
    by reflexivity.
  split; [exact Hrun |].
  destruct (disable_purges_for_good (P:=zulip) alice disabled_alice world0 _ Hrun)
    as (_ & _ & _ & Hedit & _).
  split; [apply Hedit | reflexivity].
Defined.

Lemma private_recipient_repetitions_do_not_matter_witness :
  dict_type private_draft = "private" /\
  py_set [2; 3; 2; 2] = py_set [2; 3] /\
  py_set [3; 2] <> py_set [2; 3] /\
  further_validated_draft_dict (P:=zulip) (with_to [2; 3; 2; 2] private_draft) alice world0 =
  further_validated_draft_dict (P:=zulip) (with_to [2; 3] private_draft) alice world0.
Proof.
  split; [reflexivity |]. split; [reflexivity |]. split; [discriminate |].
  destruct (private_recipient_repetitions_do_not_matter (P:=zulip) private_draft alice
              world0 [2; 3; 2; 2] [2; 3] eq_refl) as (Hsame & _).
  apply Hsame. reflexivity.
Defined.

Lemma stream_draft_decided_by_stream_lookup_witness :
  dict_type stream_draft = "stream" /\ dict_to stream_draft = [5] /\
  fst (further_validated_draft_dict (P:=zulip) stream_draft alice world0) =
    Ok {| recipient := Some 105; topic := "lunch"; content := "soup?";
          last_edit_time := {| micros := 12000000 |} |} /\
  fst (further_validated_draft_dict (P:=zulip) unknown_stream_draft alice world0) =
    Raise (JsonableError "Invalid stream id") /\
  further_validated_draft_dict (P:=zulip) year_10000_unknown_stream alice world0 =
    (Raise (ValueError "year is out of range"), tick (record CallTime world0)).
Proof.
  split; [reflexivity |]. split; [reflexivity |].
  destruct (stream_draft_decided_by_stream_lookup (P:=zulip) stream_draft alice world0 5
              eq_refl eq_refl eq_refl eq_refl) as (_ & Hfound).
  destruct (stream_draft_decided_by_stream_lookup (P:=zulip) unknown_stream_draft alice
              world0 6 eq_refl eq_refl eq_refl eq_refl) as (_ & Hunknown).
  destruct (stream_draft_decided_by_stream_lookup (P:=zulip) year_10000_unknown_stream alice
              world0 6 eq_refl eq_refl eq_refl eq_refl) as (Hfar & _).
  split; [| split].
  - rewrite (Hfound {| micros := 12000000 |} eq_refl eq_refl). reflexivity.
  - rewrite (Hunknown {| micros := 12000000 |} eq_refl eq_refl). reflexivity.
  - apply Hfar. reflexivity.
Defined.

Lemma private_draft_decided_by_lookups_witness :
  dict_type stranger_draft = "private" /\ dict_to stranger_draft <> [] /\
  fst (further_validated_draft_dict (P:=zulip) stranger_draft alice world0) =
    Raise (JsonableError "Invalid user ID") /\
  fst (further_validated_draft_dict (P:=zulip) private_draft alice world0) =
    Ok {| recipient := Some 102; topic := ""; content := "hi";
          last_edit_time := {| micros := 2500000 |} |} /\
  further_validated_draft_dict (P:=zulip) year_10000_stranger alice world0 =
    (Raise (ValueError "year is out of range"), tick (record CallTime world0)).
Proof.
  assert (Hto : dict_to stranger_draft <> []) by (simpl; discriminate).
  assert (Hto' : dict_to private_draft <> []) by (simpl; discriminate).
  assert (Hto'' : dict_to year_10000_stranger <> []) by (simpl; discriminate).
  split; [reflexivity |]. split; [exact Hto |].
  destruct (private_draft_decided_by_lookups (P:=zulip) stranger_draft alice world0
              eq_refl Hto eq_refl eq_refl) as (_ & Hstranger).
  destruct (private_draft_decided_by_lookups (P:=zulip) private_draft alice world0
              eq_refl Hto' eq_refl eq_refl) as (_ & Hprivate).
  destruct (private_draft_decided_by_lookups (P:=zulip) year_10000_stranger alice world0
              eq_refl Hto'' eq_refl eq_refl) as (Hfar & _).
  split; [| split].
  - destruct (Hstranger {| micros := 12000000 |} eq_refl) as (Hfail & _).
    rewrite (Hfail (JsonableError "Invalid user ID") eq_refl). reflexivity.
  - destruct (Hprivate {| micros := 2500000 |} eq_refl) as (_ & Hok).
    destruct (Hok [bob] eq_refl) as (Hfound & _).
    rewrite (Hfound 102 eq_refl). reflexivity.
  - apply Hfar. reflexivity.
Defined.

Lemma create_adds_one_fresh_draft_per_payload_witness :
  keys_below_seq world0 /\
  size (drafts (snd (do_create_drafts (P:=zulip) passing_batch alice world0))) = 4%nat /\
  drafts (snd (do_create_drafts (P:=zulip) passing_batch alice world0)) !! 8 =
    Some bobs_draft.
Proof.
  split; [exact world0_keys_below_seq |].
  assert (Hc : do_create_drafts (P:=zulip) passing_batch alice world0 =
               (Ok (assign_ids 9 (map (new_draft alice)
                      [{| recipient := None; topic := ""; content := "hi";
                          last_edit_time := {| micros := 1600000000000000 |} |};
                       {| recipient := Some 105; topic := "lunch"; content := "soup?";
                          last_edit_time := {| micros := 12000000 |} |}])),
                snd (do_create_drafts (P:=zulip) passing_batch alice world0)))
    by reflexivity.
  destruct (create_adds_one_fresh_draft_per_payload (P:=zulip) passing_batch alice world0
              _ _ world0_keys_below_seq Hc)
    as (_ & _ & _ & Hkeep & Hsize & _).
  split; [exact Hsize |]. apply Hkeep. reflexivity.
Defined.

Lemma normalization_only_reads_witness :
  drafts (snd (further_validated_draft_dict (P:=zulip) private_draft alice world0)) =
    drafts world0 /\
  users (snd (further_validated_draft_dict (P:=zulip) private_draft alice world0)) =
    users world0.
Proof.
  destruct (normalization_only_reads (P:=zulip) private_draft alice world0 _ _
              (surjective_pairing _))
    as (Hd & _ & Hu & _).
  split; [exact Hd | exact Hu].
Defined.

Lemma draft_dict_validator_accepts_exactly_witness :
  draft_dict_validator "draft" (json_of_payload stream_draft) = Ok stream_draft /\
  exists m, draft_dict_validator "draft" blank_content_json = Raise (ValidationError [m]).
Proof.
  destruct (draft_dict_validator_accepts_exactly "draft" (json_of_payload stream_draft))
    as (Hiff & _).
  destruct (draft_dict_validator_accepts_exactly "draft" blank_content_json)
    as (_ & Hraise).
  split.
  - apply Hiff. eexists. split; [reflexivity |].
    split; [reflexivity |]. split; [simpl; tauto |].
    split; [reflexivity |]. split; [reflexivity |]. split; [reflexivity |].
    split; [discriminate |]. split; [reflexivity |].
    repeat constructor; simpl; tauto.
  - destruct (Hraise _ eq_refl) as [m Hm]. exists m. by rewrite <- Hm.
Defined.

Lemma request_refused_by_schema_touches_nothing_witness :
  enable_drafts_synchronization alice = true /\
  (exists msg,
     create_drafts (P:=zulip) empty_request alice tt world0 =
       (Raise (JsonableError msg), world0)) /\
  (exists m,
     edit_draft (P:=zulip) {| request_vars := [("draft", blank_content_json)] |}
       alice 7 world0 = (Raise (JsonableError m), world0)).
Proof.
  split; [reflexivity |].
  destruct (request_refused_by_schema_touches_nothing (P:=zulip) empty_request alice 7
              world0 eq_refl) as (Hmissing & _).
  destruct (request_refused_by_schema_touches_nothing (P:=zulip)
              {| request_vars := [("draft", blank_content_json)] |} alice 7 world0 eq_refl)
    as (_ & _ & _ & Hinvalid).
  split; [apply (Hmissing eq_refl) |].
  destruct (Hinvalid blank_content_json _ eq_refl eq_refl) as (m & _ & Hrun).
  exists m. exact Hrun.
Defined.
